(** * Resilient batch classification pipeline (drago467/chatgpt_labeling)

    A shallow embedding of the Python sources
      - [config/labels.py]         (label taxonomy),
      - [config/prompts.py]        (prompt templates),
      - [utils/validators.py]      (record and response validation),
      - [utils/cost_calculator.py] (token count and cost of one call),
      - [src/data_processor.py]    (loading and record preparation),
      - [src/api_client.py]        (classification client),
      - [src/batch_processor.py]   (batch orchestrator and CSV join),
    followed by the properties of the specification that concern them,
    and by further properties of the code.

    Conventions of the embedding.
      - A Python [str] is the list of its code points, so that [len] counts
        characters and [sorted] compares code points.
      - A Python [float] is its exact rational value, or one of the three
        special values; an [int] is an integer.  Rounding of arithmetic is
        not modelled.  Comparisons with [0.0] and [1.0] and [min]/[max]
        do not round.  The costs are sums and products of floats, which the
        source rounds at each operation and the embedding computes exactly:
        about costs only properties that rounding to the nearest float
        preserves are stated (a value is copied, a sum of costs that are
        not negative does not decrease, a quotient of counts stays within
        its bounds).  [f"{c:.2f}"] rounds to the nearest hundredth.
      - A [dict] read from JSON is an association list in insertion order.
      - A raised exception is a value [Raise e] of a sum type; [try/except]
        is a [match].
      - The completion service, the clock and the files are explicit state:
        a [world] holds the replies still to come and the trace of calls and
        sleeps; the durable files are fields of the orchestrator's state.
      - What the interpreter or a third-party library computes from text
        ([json.loads], [float] of a [str], [repr] of a list, the text of a
        number, the tokens of [tiktoken], the [retry] decorator) is a
        parameter or is modelled from its documentation, and said so where
        it is introduced.
      - Logging and the progress bar only display; they are left out, as are
        asynchronous user interrupts and input/output failures. *)

From Stdlib Require Import ZArith NArith QArith Qabs Lqa Decimal DecimalN.
From Stdlib Require Import String Ascii List Bool Lia.
From stdpp Require Import base list gmap.
Import ListNotations.

Set Default Proof Using "Type".
Set Warnings "-register-all".

(* ===================================================================== *)
(** * Python strings *)
(* ===================================================================== *)

Module Py.

(** A [str]: the list of its Unicode code points. *)
Definition char := N.
Definition str := list char.

(** Literals are written as UTF-8 text and decoded once. *)
Fixpoint decode_utf8 (pending : option N) (bs : list N) : list N :=
  match bs with
  | [] => match pending with Some c => [c] | None => [] end
  | b :: bs' =>
      if ((128 <=? b) && (b <? 192))%N
      then decode_utf8 (option_map (fun c => c * 64 + (b - 128))%N pending) bs'
      else
        let lead := (if b <? 128 then b
                     else if b <? 224 then b - 192
                     else if b <? 240 then b - 224
                     else b - 240)%N in
        match pending with
        | Some c => c :: decode_utf8 (Some lead) bs'
        | None => decode_utf8 (Some lead) bs'
        end
  end.

Definition u (s : string) : str :=
  decode_utf8 None (map Byte.to_N (list_byte_of_string s)).

Definition eqb (s t : str) : bool := bool_decide (s = t).

(** [x in l] for a list of strings. *)
Definition mem (s : str) (l : list str) : bool := existsb (eqb s) l.

(** [str.isspace] on one character: the code points CPython treats as
    white space, which are the ones [str.strip()] removes. *)
Definition isspace (c : char) : bool :=
  (((9 <=? c) && (c <=? 13)) || ((28 <=? c) && (c <=? 32))
   || (c =? 133) || (c =? 160) || (c =? 5760)
   || ((8192 <=? c) && (c <=? 8202))
   || (c =? 8232) || (c =? 8233) || (c =? 8239) || (c =? 8287)
   || (c =? 12288))%N.

Fixpoint lstrip (s : str) : str :=
  match s with
  | c :: s' => if isspace c then lstrip s' else s
  | [] => []
  end.

Definition rstrip (s : str) : str := rev (lstrip (rev s)).

(** [s.strip()] *)
Definition strip (s : str) : str := rstrip (lstrip s).

(** [s.startswith(p)] *)
Fixpoint startswith (s p : str) : bool :=
  match p, s with
  | [], _ => true
  | c :: p', d :: s' => (c =? d)%N && startswith s' p'
  | _ :: _, [] => false
  end.

(** [s.endswith(p)] *)
Definition endswith (s p : str) : bool := startswith (rev s) (rev p).

(** [needle in hay] for strings. *)
Fixpoint contains (hay needle : str) : bool :=
  startswith hay needle ||
  match hay with
  | [] => false
  | _ :: hay' => contains hay' needle
  end.

(** [s.lower()].  Only the ASCII capitals are mapped: the embedding uses
    [lower] solely to test for the ASCII words [label], [confidence] and
    [conf], and no other code point lowers to a run of ASCII letters that
    could complete one of these words. *)
Definition lower_char (c : char) : char :=
  (if (65 <=? c) && (c <=? 90) then c + 32 else c)%N.
Definition lower (s : str) : str := map lower_char s.

(** Order of [sorted] on strings: code point by code point. *)
Fixpoint leb (s t : str) : bool :=
  match s, t with
  | [], _ => true
  | _ :: _, [] => false
  | c :: s', d :: t' => (c <? d)%N || ((c =? d)%N && leb s' t')
  end.

Fixpoint insert_sorted (x : str) (l : list str) : list str :=
  match l with
  | [] => [x]
  | y :: l' => if leb x y then x :: l else y :: insert_sorted x l'
  end.

(** [sorted(l)] for a list of strings (insertion from the right keeps equal
    keys in their order, as Python's stable sort does). *)
Definition sorted (l : list str) : list str := foldr insert_sorted [] l.

(** [str(n)] for a natural number: its decimal digits. *)
Fixpoint chars_of_uint (d : Decimal.uint) : str :=
  match d with
  | Decimal.Nil => []
  | Decimal.D0 d' => 48%N :: chars_of_uint d'
  | Decimal.D1 d' => 49%N :: chars_of_uint d'
  | Decimal.D2 d' => 50%N :: chars_of_uint d'
  | Decimal.D3 d' => 51%N :: chars_of_uint d'
  | Decimal.D4 d' => 52%N :: chars_of_uint d'
  | Decimal.D5 d' => 53%N :: chars_of_uint d'
  | Decimal.D6 d' => 54%N :: chars_of_uint d'
  | Decimal.D7 d' => 55%N :: chars_of_uint d'
  | Decimal.D8 d' => 56%N :: chars_of_uint d'
  | Decimal.D9 d' => 57%N :: chars_of_uint d'
  end.

Definition str_of_N (n : N) : str := chars_of_uint (N.to_uint n).
Definition str_of_nat (n : nat) : str := str_of_N (N.of_nat n).

(** [sep.join(parts)] *)
Fixpoint join (sep : str) (parts : list str) : str :=
  match parts with
  | [] => []
  | [p] => p
  | p :: rest => p ++ sep ++ join sep rest
  end.

(** A text given by its lines. *)
Definition lines (l : list str) : str := join [10%N] l.

(** The double quote character. *)
Definition quote : str := [34%N].

End Py.

Abbreviation pystr := Py.str.
Abbreviation u := Py.u.

(* ===================================================================== *)
(** * Python values: floats, exceptions, parsed JSON *)
(* ===================================================================== *)

(** A [float]: a finite value, given exactly, or a special value. *)
Inductive pyfloat :=
| Fin (q : Q)
| PosInf
| NegInf
| NaN.

Module Float.

(** [x < y] *)
Definition ltb (x y : pyfloat) : bool :=
  match x, y with
  | NaN, _ | _, NaN => false
  | Fin p, Fin q => negb (Qle_bool q p)
  | NegInf, (Fin _ | PosInf) => true
  | Fin _, PosInf => true
  | _, _ => false
  end.

(** [x <= y] *)
Definition leb (x y : pyfloat) : bool :=
  match x, y with
  | NaN, _ | _, NaN => false
  | Fin p, Fin q => Qle_bool p q
  | NegInf, _ => true
  | _, PosInf => true
  | _, _ => false
  end.

(** The builtin [min(a, b)]: [b] replaces [a] only when [b < a]. *)
Definition min (a b : pyfloat) : pyfloat := if ltb b a then b else a.

(** The builtin [max(a, b)]: [b] replaces [a] only when [b > a]. *)
Definition max (a b : pyfloat) : pyfloat := if ltb a b then b else a.

(** The proposition that a float is a finite value of the unit interval. *)
Definition in_unit (x : pyfloat) : Prop :=
  match x with
  | Fin q => (0 <= q /\ q <= 1)%Q
  | _ => False
  end.

End Float.

(** Exceptions: the class and the text that [str(e)] gives. *)
Inductive exn_class :=
| AttributeError | KeyError | TypeError | ValueError | IndexError
| OverflowError | RateLimitError | APIError | OtherError.

Record exn := Exn { exn_class_of : exn_class; exn_text : pystr }.

(** The outcome of a statement that may raise. *)
Inductive result (A : Type) :=
| Ok (a : A)
| Raise (e : exn).
Arguments Ok {A} a.
Arguments Raise {A} e.

Definition bind {A B} (r : result A) (k : A -> result B) : result B :=
  match r with
  | Ok a => k a
  | Raise e => Raise e
  end.

Notation "'do' x <- r ; k" := (bind r (fun x => k))
  (at level 10, x name, r at level 100, k at level 200).

(** Values produced by [json.loads].  Objects keep their keys in the order
    of the text. *)
Inductive json :=
| JNull
| JBool (b : bool)
| JInt (z : Z)
| JFloat (x : pyfloat)
| JStr (s : pystr)
| JArr (items : list json)
| JObj (fields : list (pystr * json)).

Module Json.

Definition dict := list (pystr * json).

(** [d[k]] / [d.get(k)]: the value under key [k], if any. *)
Fixpoint get (d : dict) (k : pystr) : option json :=
  match d with
  | [] => None
  | (k', v) :: d' => if Py.eqb k k' then Some v else get d' k
  end.

(** [k in d] *)
Definition has (d : dict) (k : pystr) : bool :=
  match get d k with Some _ => true | None => false end.

Definition keys (d : dict) : list pystr := map fst d.
Definition values (d : dict) : list json := map snd d.

(** [type(v).__name__] *)
Definition type_name (v : json) : pystr :=
  match v with
  | JNull => u "NoneType"
  | JBool _ => u "bool"
  | JInt _ => u "int"
  | JFloat _ => u "float"
  | JStr _ => u "str"
  | JArr _ => u "list"
  | JObj _ => u "dict"
  end.

End Json.

(** What the interpreter computes from text; the embedding is parametric
    in it.
      - [json_loads s]: the value [json.loads(s)] returns, or the text of
        the [JSONDecodeError] it raises;
      - [float_of_str s]: the float [float(s)] returns for a [str], or
        [None] when it raises [ValueError];
      - [repr_list l]: the text of [str(l)] for a list of strings;
      - [str_of_number q]: the text [str(x)] of a numeric cell of the data
        frame, as an f-string prints it, and [type_of_number q]: the name
        of its type, as the text of a [TypeError] prints it (pandas reads a
        numeric column as [numpy.int64] or [numpy.float64]);
      - [tiktoken_encode s]: the tokens [encoder.encode(s)] of the package
        [tiktoken], or the text of the [ValueError] that it raises on a
        text that holds a special token such as [<|endoftext|>]. *)
Class PyRuntime := {
  json_loads : pystr -> pystr + json;
  float_of_str : pystr -> option pyfloat;
  repr_list : list pystr -> pystr;
  str_of_number : Q -> pystr;
  type_of_number : Q -> pystr;
  tiktoken_encode : pystr -> pystr + list Z
}.

(** The result of the conversion [float(v)]. *)
Inductive coerced :=
| FloatOk (x : pyfloat)
| FloatValueError
| FloatTypeError
| FloatOverflow.

(** The least integer that no longer rounds to a finite double. *)
Definition float_overflow_bound : Z := 2 ^ 1024 - 2 ^ 970.

(** [float(v)] *)
Definition py_float `{PyRuntime} (v : json) : coerced :=
  match v with
  | JFloat x => FloatOk x
  | JInt z =>
      if (Z.abs z <? float_overflow_bound)%Z then FloatOk (Fin (inject_Z z))
      else FloatOverflow
  | JBool b => FloatOk (Fin (if b then 1 else 0))
  | JStr s =>
      match float_of_str s with
      | Some x => FloatOk x
      | None => FloatValueError
      end
  | JNull | JArr _ | JObj _ => FloatTypeError
  end.

Definition overflow_error : exn :=
  Exn OverflowError (u "int too large to convert to float").

Definition no_attribute (v : pystr) (attr : string) : exn :=
  Exn AttributeError
      (u "'" ++ v ++ u "' object has no attribute '" ++ u attr ++ u "'").

(** [d[key]] on a key that may be absent. *)
Definition py_item {A} (key : string) (v : option A) : result A :=
  match v with
  | Some a => Ok a
  | None => Raise (Exn KeyError (u "'" ++ u key ++ u "'"))
  end.

(* ===================================================================== *)
(** * config/labels.py *)
(* ===================================================================== *)

Module labels.

Definition TNMT_LABELS : list (Z * pystr) := Eval vm_compute in
  [ (1%Z, u "Biển - hải đảo");
    (2%Z, u "Thông tin chung");
    (3%Z, u "Môi trường");
    (4%Z, u "Địa chất - Khoáng sản");
    (5%Z, u "Đất đai");
    (6%Z, u "Đa dạng sinh học");
    (7%Z, u "Viễn thám");
    (8%Z, u "Quản lý chất thải rắn");
    (9%Z, u "Đo đạc và bản đồ");
    (10%Z, u "Khí tượng thủy văn - Biến đổi khí hậu");
    (11%Z, u "Tài nguyên nước");
    (12%Z, u "Khác") ].

Definition get_label_list : list pystr := map snd TNMT_LABELS.

(** [TNMT_LABELS.get(label_id, "Unknown")] *)
Definition get_label_by_id (label_id : Z) : pystr :=
  match List.find (fun entry => (fst entry =? label_id)%Z) TNMT_LABELS with
  | Some entry => snd entry
  | None => u "Unknown"
  end.

(** The first identifier whose name is [label_name], or [-1]. *)
Definition get_label_id (label_name : pystr) : Z :=
  match List.find (fun entry => Py.eqb (snd entry) label_name)
                  TNMT_LABELS with
  | Some entry => fst entry
  | None => (-1)%Z
  end.

End labels.

(* ===================================================================== *)
(** * config/prompts.py *)
(* ===================================================================== *)

Module prompts.

(** The taxonomy as numbered lines:
    ["\n".join([f"{i}. {label}" for i, label in enumerate(get_label_list(), 1)])] *)
Definition labels_text : pystr :=
  Py.lines
    (imap (fun i label => Py.str_of_nat (S i) ++ u ". " ++ label)
          labels.get_label_list).

(** [PromptTemplates.get_system_prompt] *)
Definition get_system_prompt : pystr :=
  Py.lines
    [ u "Bạn là một chuyên gia phân loại văn bản trong lĩnh vực Tài nguyên và Môi trường (TNMT) của Việt Nam.";
      [];
      u "NHIỆM VỤ: Phân loại multi-label cho bài báo tiếng Việt vào một hoặc nhiều trong 12 danh mục sau:";
      [];
      labels_text;
      [];
      u "QUY TẮC PHÂN LOẠI:";
      u "1. Mỗi bài báo có thể thuộc 1 hoặc nhiều danh mục (multi-label)";
      u "2. Phân tích cẩn thận tiêu đề, mô tả và nội dung";
      u "3. Ưu tiên các nhãn chính xác và cụ thể nhất";
      u "4. Chỉ sử dụng nhãn " ++ Py.quote ++ u "Khác" ++ Py.quote
        ++ u " khi không phù hợp với 11 danh mục khác";
      u "5. Đánh giá độ tin cậy cho mỗi nhãn (0.0-1.0)";
      [];
      u "ĐỊNH DẠNG OUTPUT: JSON array với format:";
      u "[";
      u "  {" ++ Py.quote ++ u "label" ++ Py.quote ++ u ": " ++ Py.quote
        ++ u "tên nhãn" ++ Py.quote ++ u ", " ++ Py.quote ++ u "confidence"
        ++ Py.quote ++ u ": 0.85},";
      u "  {" ++ Py.quote ++ u "label" ++ Py.quote ++ u ": " ++ Py.quote
        ++ u "tên nhãn khác" ++ Py.quote ++ u ", " ++ Py.quote
        ++ u "confidence" ++ Py.quote ++ u ": 0.75}";
      u "]" ].

(** [PromptTemplates.get_few_shot_examples] *)
Definition get_few_shot_examples : pystr :=
  Py.lines
    [ [];
      u "VÍ DỤ:";
      [];
      u "Ví dụ 1:";
      u "Tiêu đề: " ++ Py.quote
        ++ u "Ô nhiễm nguồn nước do chất thải công nghiệp tại TP.HCM"
        ++ Py.quote;
      u "Mô tả: " ++ Py.quote
        ++ u "Tình trạng ô nhiễm nguồn nước ngày càng nghiêm trọng"
        ++ Py.quote;
      u "Nội dung: " ++ Py.quote
        ++ u "Các nhà máy xả thải trực tiếp xuống sông, ảnh hưởng đến chất lượng nước sinh hoạt..."
        ++ Py.quote;
      [];
      u "Output: [";
      u "  {" ++ Py.quote ++ u "label" ++ Py.quote ++ u ": " ++ Py.quote
        ++ u "Môi trường" ++ Py.quote ++ u ", " ++ Py.quote ++ u "confidence"
        ++ Py.quote ++ u ": 0.95},";
      u "  {" ++ Py.quote ++ u "label" ++ Py.quote ++ u ": " ++ Py.quote
        ++ u "Tài nguyên nước" ++ Py.quote ++ u ", " ++ Py.quote
        ++ u "confidence" ++ Py.quote ++ u ": 0.90}";
      u "]";
      [];
      u "Ví dụ 2:  ";
      u "Tiêu đề: " ++ Py.quote
        ++ u "Ứng dụng viễn thám giám sát rừng tự nhiên" ++ Py.quote;
      u "Mô tả: " ++ Py.quote
        ++ u "Sử dụng ảnh vệ tinh để theo dõi diện tích rừng" ++ Py.quote;
      u "Nội dung: " ++ Py.quote
        ++ u "Công nghệ viễn thám giúp phát hiện sớm các khu vực bị phá rừng, bảo vệ đa dạng sinh học..."
        ++ Py.quote;
      [];
      u "Output: [";
      u "  {" ++ Py.quote ++ u "label" ++ Py.quote ++ u ": " ++ Py.quote
        ++ u "Viễn thám" ++ Py.quote ++ u ", " ++ Py.quote ++ u "confidence"
        ++ Py.quote ++ u ": 0.98},";
      u "  {" ++ Py.quote ++ u "label" ++ Py.quote ++ u ": " ++ Py.quote
        ++ u "Đa dạng sinh học" ++ Py.quote ++ u ", " ++ Py.quote
        ++ u "confidence" ++ Py.quote ++ u ": 0.85}";
      u "]";
      [];
      u "Ví dụ 3:";
      u "Tiêu đề: " ++ Py.quote
        ++ u "Quy hoạch sử dụng đất nông nghiệp tỉnh An Giang" ++ Py.quote;
      u "Mô tả: " ++ Py.quote ++ u "Kế hoạch sử dụng đất giai đoạn 2021-2025"
        ++ Py.quote;
      u "Nội dung: " ++ Py.quote
        ++ u "Quy hoạch chi tiết việc sử dụng đất cho sản xuất nông nghiệp, bảo đảm hiệu quả kinh tế..."
        ++ Py.quote;
      [];
      u "Output: [";
      u "  {" ++ Py.quote ++ u "label" ++ Py.quote ++ u ": " ++ Py.quote
        ++ u "Đất đai" ++ Py.quote ++ u ", " ++ Py.quote ++ u "confidence"
        ++ Py.quote ++ u ": 0.92}";
      u "]";
      [] ].

(** [PromptTemplates.get_validation_prompt] *)
Definition get_validation_prompt : pystr :=
  Py.lines
    [ [];
      u "QUAN TRỌNG: ";
      u "- Chỉ trả về JSON array hợp lệ";
      u "- Không giải thích thêm";
      u "- Confidence score từ 0.0 đến 1.0";
      u "- Tên nhãn phải chính xác theo danh sách đã cho";
      [] ].

Definition max_content_length : nat := 2000.

(** [PromptTemplates.create_classification_prompt] *)
Definition create_classification_prompt (title description content : pystr)
  : pystr :=
  let content :=
    if (max_content_length <? length content)%nat
    then take max_content_length content ++ u "..."
    else content in
  u "Phân loại bài báo sau vào các danh mục phù hợp:" ++ [10; 10]%N
  ++ u "TIÊU ĐỀ: " ++ title ++ [10; 10]%N
  ++ u "MÔ TẢ: " ++ description ++ [10; 10]%N
  ++ u "NỘI DUNG: " ++ content ++ [10; 10]%N
  ++ u "Hãy phân tích và trả về kết quả theo định dạng JSON đã yêu cầu:".

End prompts.

(* ===================================================================== *)
(** * utils/validators.py *)
(* ===================================================================== *)

(** A cell of the data frame: text, or a number (a column that pandas read
    as numeric).  Null cells do not occur: [load_data] refuses a data set
    with a null in one of the three text columns. *)
Inductive cell :=
| CStr (s : pystr)
| CNum (q : Q).

(** A row of the data frame, with its three required columns. *)
Record row := Row {
  Tieu_de : cell;
  Description : cell;
  Noi_dung_tin_bai : cell
}.

(** A validated [{label, confidence}] entry. *)
Record label_pred := LabelPred { label : pystr; confidence : pyfloat }.

Module validators.

Section WithRuntime.
Context `{PyRuntime}.

(** The entry [{'label': l, 'confidence': c}] as a JSON object. *)
Definition label_object (l : json) (c : json) : json :=
  JObj [(u "label", l); (u "confidence", c)].

(** The numbered pattern of [_try_reconstruct_from_flat_structure]:
    [while f'label{i}' in data and f'confidence{i}' in data].  The loop
    stops at the first missing key; [fuel] bounds the iterations by the
    size of the dictionary.  [Raise] stands for an exception that the
    function does not catch, [Ok None] for one that it catches. *)
Fixpoint numbered_pairs (fuel : nat) (data : Json.dict) (i : nat)
  : result (option (list json)) :=
  match fuel with
  | O => Ok (Some [])
  | S fuel' =>
      match Json.get data (u "label" ++ Py.str_of_nat i),
            Json.get data (u "confidence" ++ Py.str_of_nat i) with
      | Some l, Some c =>
          match py_float c with
          | FloatOk x =>
              do rest <- numbered_pairs fuel' data (S i);
              Ok (option_map (cons (label_object l (JFloat x))) rest)
          | FloatValueError | FloatTypeError => Ok None
          | FloatOverflow => Raise overflow_error
          end
      | _, _ => Ok (Some [])
      end
  end.

(** The pairing loop over [zip(sorted(label_keys), sorted(conf_keys))]. *)
Fixpoint keyed_pairs (data : Json.dict) (ks : list (pystr * pystr))
  : result (option (list json)) :=
  match ks with
  | [] => Ok (Some [])
  | (label_key, conf_key) :: ks' =>
      match Json.get data label_key, Json.get data conf_key with
      | Some l, Some c =>
          match py_float c with
          | FloatOk x =>
              do rest <- keyed_pairs data ks';
              Ok (option_map (cons (label_object l (JFloat x))) rest)
          | FloatValueError | FloatTypeError => Ok None
          | FloatOverflow => Raise overflow_error
          end
      | _, _ => Ok None
      end
  end.

Definition _try_reconstruct_from_flat_structure (data : Json.dict)
  : result (option (list json)) :=
  do numbered <- numbered_pairs (S (length data)) data 1;
  match numbered with
  | None => Ok None
  | Some ((_ :: _) as labels) => Ok (Some labels)
  | Some [] =>
      let label_keys :=
        List.filter (fun k => Py.contains (Py.lower k) (u "label"))
                    (Json.keys data) in
      let conf_keys :=
        List.filter (fun k => Py.contains (Py.lower k) (u "confidence")
                              || Py.contains (Py.lower k) (u "conf"))
                    (Json.keys data) in
      if (length label_keys =? length conf_keys)%nat
         && (0 <? length label_keys)%nat
      then
        do labels <- keyed_pairs data
                       (zip (Py.sorted label_keys) (Py.sorted conf_keys));
        match labels with
        | Some ((_ :: _) as labels) => Ok (Some labels)
        | _ => Ok None
        end
      else Ok None
  end.

(** [DataValidator.validate_csv_data], for a data frame that has the three
    required columns and no null cell, as every [list row] does: of the
    three checks of the source only the one for an empty data set can
    fail. *)
Definition validate_csv_data (df : list row) : bool * list pystr :=
  let errors : list pystr := [] in
  let errors :=
    match df with
    | [] => errors ++ [u "Dataset is empty"]
    | _ :: _ => errors
    end in
  ((length errors =? 0)%nat, errors).

(** [DataValidator.validate_text_record].  [truthy] is Python's truth
    value of a cell; [.strip()] exists on text only (the text of the
    [AttributeError] names the type [int] for every number; no caller
    reads it). *)
Definition truthy (c : cell) : bool :=
  match c with
  | CStr s => negb (Py.eqb s [])
  | CNum q => negb (Qeq_bool q 0)
  end.

Definition cell_strip (c : cell) : result pystr :=
  match c with
  | CStr s => Ok (Py.strip s)
  | CNum _ => Raise (no_attribute (u "int") "strip")
  end.

(** [not c or c.strip() == ""] *)
Definition is_blank (c : cell) : result bool :=
  if negb (truthy c) then Ok true
  else do s <- cell_strip c; Ok (Py.eqb s []).

Definition validate_text_record (title description content : cell)
  : result (bool * list pystr) :=
  let errors : list pystr := [] in
  do b <- is_blank title;
  let errors := if b then errors ++ [u "Title is empty"] else errors in
  do b <- is_blank description;
  let errors := if b then errors ++ [u "Description is empty"] else errors in
  do b <- is_blank content;
  let errors := if b then errors ++ [u "Content is empty"] else errors in
  do t <- cell_strip title;
  let errors :=
    if (length t <? 5)%nat
    then errors ++ [u "Title too short (< 5 characters)"] else errors in
  Ok ((length errors =? 0)%nat, errors).

(** The markdown fence is removed before parsing. *)
Definition clean_response (response : pystr) : pystr :=
  let cleaned_response := Py.strip response in
  let cleaned_response :=
    if Py.startswith cleaned_response (u "```json")
    then drop 7 cleaned_response else cleaned_response in
  let cleaned_response :=
    if Py.endswith cleaned_response (u "```")
    then take (length cleaned_response - 3) cleaned_response
    else cleaned_response in
  Py.strip cleaned_response.

Definition possible_keys : list pystr := Eval vm_compute in
  [u "output"; u "result"; u "labels"; u "data"; u "classifications";
   u "predictions"; u "items"].

(** Format 2: the first of the known keys that holds a list. *)
Fixpoint find_known_key (parsed : Json.dict) (keys : list pystr)
  : option (list json) :=
  match keys with
  | [] => None
  | key :: keys' =>
      match Json.get parsed key with
      | Some (JArr l) => Some l
      | _ => find_known_key parsed keys'
      end
  end.

Definition is_label_object (first_item : json) : bool :=
  match first_item with
  | JObj d => Json.has d (u "label") || Json.has d (u "name")
  | _ => false
  end.

(** Format 3: the local function [find_array_recursive(obj, max_depth)]. *)
Fixpoint find_array_recursive (max_depth : nat) (obj : json)
  : option (list json) :=
  match max_depth with
  | O => None
  | S depth =>
      match obj with
      | JArr ((first_item :: _) as l) =>
          if is_label_object first_item then Some l else None
      | JObj d =>
          (fix over_values (vs : list (pystr * json)) : option (list json) :=
             match vs with
             | [] => None
             | (_, value) :: vs' =>
                 match find_array_recursive depth value with
                 | Some r => Some r
                 | None => over_values vs'
                 end
             end) d
      | _ => None
      end
  end.

Definition message_item (i : nat) (what : string) : pystr :=
  u "Item " ++ Py.str_of_nat i ++ u what.

(** The loop [for i, item in enumerate(labels_data)]: [Ok None] when every
    item passes, [Ok (Some message)] at the first one that does not. *)
Fixpoint check_items (i : nat) (labels_data : list json)
  : result (option pystr) :=
  match labels_data with
  | [] => Ok None
  | item :: rest =>
      match item with
      | JObj d =>
          if negb (Json.has d (u "label"))
          then Ok (Some (message_item i " missing 'label' field"))
          else
            match Json.get d (u "confidence") with
            | None => Ok (Some (message_item i " missing 'confidence' field"))
            | Some c =>
                match py_float c with
                | FloatOk confidence =>
                    if negb (Float.leb (Fin 0) confidence
                             && Float.leb confidence (Fin 1))
                    then Ok (Some (message_item i
                               " confidence must be between 0.0 and 1.0"))
                    else check_items (S i) rest
                | FloatValueError | FloatTypeError =>
                    Ok (Some (message_item i " confidence must be a number"))
                | FloatOverflow => Raise overflow_error
                end
            end
      | _ => Ok (Some (message_item i " is not a dictionary"))
      end
  end.

(** The part of [validate_json_response] that follows [json.loads], inside
    the [try]. *)
Definition validate_parsed (parsed : json)
  : result (bool * option (list json) * pystr) :=
  do found <-
    match parsed with
    | JArr l => Ok (inr l)
    | JObj d =>
        let labels_data := find_known_key d possible_keys in
        let labels_data :=
          match labels_data with
          | None => find_array_recursive 5 parsed
          | Some _ => labels_data
          end in
        do labels_data <-
          match labels_data with
          | None => _try_reconstruct_from_flat_structure d
          | Some _ => Ok labels_data
          end;
        match labels_data with
        | None =>
            Ok (inl (u "No valid label array found in response. Available keys: "
                     ++ repr_list (Json.keys d)))
        | Some l => Ok (inr l)
        end
    | _ =>
        Ok (inl (u "Response must be JSON array or object, got "
                 ++ Json.type_name parsed))
    end;
  match found with
  | inl message => Ok (false, None, message)
  | inr labels_data =>
      do bad <- check_items 0 labels_data;
      match bad with
      | Some message => Ok (false, None, message)
      | None => Ok (true, Some labels_data, u "Valid")
      end
  end.

(** [ResponseValidator.validate_json_response].  The response is the
    [content] of the completion, which the client library types as an
    optional string. *)
Definition validate_json_response (response : option pystr)
  : bool * option (list json) * pystr :=
  match response with
  | None =>
      (false, None,
       u "Validation error: " ++ exn_text (no_attribute (u "NoneType") "strip"))
  | Some response =>
      match json_loads (clean_response response) with
      | inl e => (false, None, u "Invalid JSON: " ++ e)
      | inr parsed =>
          match validate_parsed parsed with
          | Ok r => r
          | Raise e => (false, None, u "Validation error: " ++ exn_text e)
          end
      end
  end.

(** The confidence clamp, [max(0.0, min(1.0, confidence))]. *)
Definition clamp (confidence : pyfloat) : pyfloat :=
  Float.max (Fin 0) (Float.min (Fin 1) confidence).

(** One turn of the loop of [validate_labels]: the entry kept, if any, and
    the warning emitted, if any. *)
Definition validate_label (item : json)
  : result (option label_pred * option pystr) :=
  match item with
  | JObj d =>
      do label <-
        match Json.get d (u "label") with
        | None => Ok (Py.strip [])
        | Some (JStr s) => Ok (Py.strip s)
        | Some v => Raise (no_attribute (Json.type_name v) "strip")
        end;
      let confidence :=
        match Json.get d (u "confidence") with
        | None => JFloat (Fin 0)
        | Some c => c
        end in
      if negb (Py.mem label labels.get_label_list)
      then Ok (None, Some (u "Invalid label: '" ++ label ++ u "' - skipping"))
      else
        match py_float confidence with
        | FloatOk confidence =>
            Ok (Some (LabelPred label (clamp confidence)), None)
        | FloatValueError | FloatTypeError =>
            Ok (Some (LabelPred label (Fin 0.5)),
                Some (u "Invalid confidence for '" ++ label
                      ++ u "' - using default 0.5"))
        | FloatOverflow => Raise overflow_error
        end
  | _ => Raise (no_attribute (Json.type_name item) "get")
  end.

(** [ResponseValidator.validate_labels] *)
Fixpoint validate_labels (labels_data : list json)
  : result (list label_pred * list pystr) :=
  match labels_data with
  | [] => Ok ([], [])
  | item :: rest =>
      do r <- validate_label item;
      do rs <- validate_labels rest;
      Ok (option_list (fst r) ++ fst rs, option_list (snd r) ++ snd rs)
  end.

(** [ResponseValidator.check_response_quality] *)
Definition check_response_quality (labels_data : list label_pred)
    (min_confidence : pyfloat) : bool * list pystr :=
  match labels_data with
  | [] => (false, [u "No labels predicted"])
  | _ =>
      let low_confidence_labels :=
        map label
            (List.filter (fun item => Float.ltb (confidence item) min_confidence)
                         labels_data) in
      let issues :=
        match low_confidence_labels with
        | [] => []
        | _ => [u "Low confidence labels: " ++ repr_list low_confidence_labels]
        end in
      let issues :=
        if (4 <? length labels_data)%nat
        then issues ++ [u "Too many labels predicted: "
                        ++ Py.str_of_nat (length labels_data)]
        else issues in
      ((length issues =? 0)%nat, issues)
  end.

End WithRuntime.
End validators.

(* ===================================================================== *)
(** * utils/cost_calculator.py *)
(* ===================================================================== *)

Module cost_calculator.

(** Every entry of [MODEL_PRICING], including the one added for a model
    that the table does not know, holds the same two rates per 1000
    tokens. *)
Definition input_rate : Q := 0.00015.
Definition output_rate : Q := 0.00015.

(** [CostCalculator.calculate_cost], computed exactly.  The source rounds
    each of its five float operations, so its result is the nearest float
    only up to these roundings: [calculate_cost(10, 20)] is
    [4.499999999999999e-06] there and 9/2000000 here. *)
Definition calculate_cost (input_tokens output_tokens : Z) : Q :=
  let input_cost := ((inject_Z input_tokens / 1000) * input_rate)%Q in
  let output_cost := ((inject_Z output_tokens / 1000) * output_rate)%Q in
  (input_cost + output_cost)%Q.

(** [CostCalculator.count_tokens]: [len(self.encoder.encode(text))]. *)
Definition count_tokens `{PyRuntime} (text : pystr) : result Z :=
  match tiktoken_encode text with
  | inr tokens => Ok (Z.of_nat (length tokens))
  | inl message => Raise (Exn ValueError message)
  end.

End cost_calculator.

(* ===================================================================== *)
(** * src/data_processor.py *)
(* ===================================================================== *)

(** A prepared record, as [process_batch] hands it to the client.  The
    source also stores [combined_text], the result of
    [prepare_text_for_api]; the client never reads it, and on a row that
    passed validation, where the three cells are text, computing it cannot
    raise.  It is left out. *)
Module Batch.
Record record := Record_ {
  index : Z;
  title : cell;
  description : cell;
  content : cell
}.
End Batch.

Module data_processor.

Section WithRuntime.
Context `{PyRuntime}.

(** [DataProcessor.load_data], for a file that pandas reads as the data
    frame [file].  A frame that lacks a required column or holds a null
    cell is refused in the same way; it is no [list row]. *)
Definition load_data (file : list row) : result (list row) :=
  let df := file in
  let '(is_valid, errors) := validators.validate_csv_data df in
  if negb is_valid
  then Raise (Exn ValueError
                (u "Data validation failed: " ++ repr_list errors))
  else Ok df.

(** The accessor [.str] of a column.  pandas gives a column of numbers a
    numeric type, for which the accessor raises; a column that holds a
    text, and a column without cells, have the type [object].  The text of
    the exception is that of pandas 2.0 (later versions add the type that
    was found); the source does not read it. *)
Definition numeric (column : list cell) : bool :=
  match column with
  | [] => false
  | _ :: _ =>
      forallb (fun c => match c with CNum _ => true | CStr _ => false end)
              column
  end.

Definition str_accessor (column : list cell) : result unit :=
  if numeric column
  then Raise (Exn AttributeError
                (u "Can only use .str accessor with string values!"))
  else Ok tt.

(** [DataProcessor.get_processing_stats].  The three average lengths are
    computed, which reads the accessor [.str] of each column; the source
    only logs them, and they are left out of the result, as are the three
    counts of null cells, which are zero. *)
Definition get_processing_stats (df : list row) : result Z :=
  do _ <- str_accessor (map Tieu_de df);
  do _ <- str_accessor (map Description df);
  do _ <- str_accessor (map Noi_dung_tin_bai df);
  Ok (Z.of_nat (length df)).

(** [df.iloc[idx]]: positions count from the end when negative. *)
Definition iloc (df : list row) (idx : Z) : result row :=
  let n := Z.of_nat (length df) in
  let pos := (if idx <? 0 then n + idx else idx)%Z in
  if ((0 <=? pos) && (pos <? n))%Z
  then match df !! Z.to_nat pos with
       | Some r => Ok r
       | None => Raise (Exn IndexError (u "single positional indexer is out-of-bounds"))
       end
  else Raise (Exn IndexError (u "single positional indexer is out-of-bounds")).

(** [range(a, b)] *)
Definition range (a b : Z) : list Z :=
  map (fun k => (a + Z.of_nat k)%Z) (seq 0 (Z.to_nat (b - a))).

(** The body of the loop of [process_batch] for one index: the record to
    append, if the row is kept.  Reading the row is outside the inner
    [try], so its [IndexError] leaves [process_batch]; an exception of the
    validation is caught and the row is skipped. *)
Definition prepare_record (df : list row) (idx : Z)
  : result (option Batch.record) :=
  do row <- iloc df idx;
  match validators.validate_text_record
          (Tieu_de row) (Description row) (Noi_dung_tin_bai row) with
  | Raise _ => Ok None
  | Ok (false, _) => Ok None
  | Ok (true, _) =>
      Ok (Some (Batch.Record_ idx (Tieu_de row) (Description row)
                              (Noi_dung_tin_bai row)))
  end.

Fixpoint prepare_records (df : list row) (idxs : list Z)
  : result (list Batch.record) :=
  match idxs with
  | [] => Ok []
  | idx :: idxs' =>
      do r <- prepare_record df idx;
      do rs <- prepare_records df idxs';
      Ok (option_list r ++ rs)
  end.

(** [DataProcessor.process_batch] *)
Definition process_batch (df : list row) (start_idx batch_size : Z)
  : result (list Batch.record) :=
  let end_idx := Z.min (start_idx + batch_size) (Z.of_nat (length df)) in
  prepare_records df (range start_idx end_idx).

End WithRuntime.
End data_processor.

(* ===================================================================== *)
(** * The completion service and the clock *)
(* ===================================================================== *)

(** What one call of [client.chat.completions.create] does. *)
Inductive api_reply :=
| Completion (content : option pystr) (prompt_tokens completion_tokens : Z)
| RateLimited (text : pystr)
| ApiFailed (text : pystr)
| Crashed (text : pystr).

(** What the run does to the outside: a call to the service, for a given
    model and record, or a [time.sleep]. *)
Inductive event :=
| Call (model : pystr) (title description content : cell)
| Sleep (seconds : Z).

(** The service answers the [n]-th call of a run with [replies n]. *)
Record world := World {
  replies : nat -> api_reply;
  calls : nat;
  trace : list event
}.

Definition emit (ev : event) (w : world) : world :=
  World (replies w) (calls w) (trace w ++ [ev]).

Definition sleep (seconds : Z) (w : world) : world := emit (Sleep seconds) w.

(** The settings of [config/settings.py] that the pipeline reads. *)
Record config := Config {
  DEFAULT_MODEL : pystr;
  FALLBACK_MODEL : pystr;
  CONFIDENCE_THRESHOLD : pyfloat;
  BATCH_SIZE : Z
}.

(** Modelled from the spec: the decorator [@retry(tries, delay, backoff)]
    comes from the third-party package [retry], which is not part of the
    sources.  Specification section 4.2, step 3: up to [tries] attempts,
    sleeping [delay] seconds after a failed attempt and multiplying the
    delay by [backoff] each time; the exception of the last attempt is
    raised to the caller.  With no attempt allowed the decorated call
    returns [None]. *)
Fixpoint retry {A} (tries : nat) (delay backoff : Z)
    (f : world -> result A * world) (w : world) : result (option A) * world :=
  match tries with
  | O => (Ok None, w)
  | S tries' =>
      match f w with
      | (Ok a, w') => (Ok (Some a), w')
      | (Raise e, w') =>
          match tries' with
          | O => (Raise e, w')
          | S _ => retry tries' (delay * backoff)%Z backoff f (sleep delay w')
          end
      end
  end.

(* ===================================================================== *)
(** * src/api_client.py *)
(* ===================================================================== *)

(** The dictionary that [classify_text] returns next to its flag; a key
    that is absent is [None]. *)
Module Result.
Record t := Make {
  labels : option (list label_pred);
  model_used : option pystr;
  input_tokens : option Z;
  output_tokens : option Z;
  cost : option Q;
  warnings : option (list pystr);
  quality_issues : option (list pystr);
  raw_response : option (option pystr);
  error : option pystr;
  validation_message : option pystr
}.
End Result.

(** One entry of the list that [classify_batch] returns, which is also one
    entry of the result log. *)
Module Metadata.
Record t := Make {
  model_used : option pystr;
  cost : option Q;
  warnings : option (list pystr);
  quality_issues : option (list pystr);
  used_fallback : option bool
}.
Definition empty : t := Make None None None None None.
End Metadata.

Module Outcome.
Record t := Make {
  index : Z;
  success : bool;
  labels : option (list label_pred);
  error : option pystr;
  metadata : Metadata.t
}.
End Outcome.

Module api_client.

Section WithRuntime.
Context `{PyRuntime}.
Variable cfg : config.

(** The client of the batch processor is built without a model, so
    [self.model] is the default model. *)
Definition self_model : pystr := DEFAULT_MODEL cfg.
Definition self_fallback_model : pystr := FALLBACK_MODEL cfg.

(** The completion, as far as the client reads it. *)
Record response := Response {
  message_content : option pystr;
  usage_prompt_tokens : Z;
  usage_completion_tokens : Z
}.

(** The body of [_make_api_call]: one call of the service.  The messages
    are fixed texts around the three fields of the record, so the call is
    recorded with the model and these fields. *)
Definition api_attempt (title description content : cell) (model : pystr)
    (w : world) : result (response * pystr) * world :=
  let model_to_use := if Py.eqb model [] then self_model else model in
  let w1 := World (replies w) (S (calls w))
                  (trace w ++ [Call model_to_use title description content]) in
  match replies w (calls w) with
  | Completion c p o => (Ok (Response c p o, model_to_use), w1)
  | RateLimited text => (Raise (Exn RateLimitError text), sleep 60 w1)
  | ApiFailed text => (Raise (Exn APIError text), w1)
  | Crashed text => (Raise (Exn OtherError text), w1)
  end.

(** [_make_api_call], decorated with [@retry(tries=3, delay=1, backoff=2)]. *)
Definition _make_api_call (title description content : cell) (model : pystr)
  : world -> result (option (response * pystr)) * world :=
  retry 3 1 2 (api_attempt title description content model).

Definition failure (error : pystr) (validation_message : option pystr)
    (raw_response : option (option pystr)) : Result.t :=
  Result.Make None None None None None None None raw_response (Some error)
              validation_message.

(** The text that an f-string prints for a cell. *)
Definition cell_text (c : cell) : pystr :=
  match c with
  | CStr s => s
  | CNum q => str_of_number q
  end.

(** [create_classification_prompt(title, description, content)] on the
    fields of a record: [len(content)] raises for a content that is not a
    text. *)
Definition classification_prompt (title description content : cell)
  : result pystr :=
  match content with
  | CStr s =>
      Ok (prompts.create_classification_prompt
            (cell_text title) (cell_text description) s)
  | CNum q =>
      Raise (Exn TypeError
               (u "object of type '" ++ type_of_number q
                ++ u "' has no len()"))
  end.

(** The contents of the two messages: the system prompt and
    [f"{few_shot_examples}\n\n{classification_prompt}\n\n{validation_prompt}"]. *)
Definition messages (classification_prompt : pystr) : list pystr :=
  let system_prompt := prompts.get_system_prompt in
  let few_shot_examples := prompts.get_few_shot_examples in
  let validation_prompt := prompts.get_validation_prompt in
  let user_content :=
    few_shot_examples ++ [10; 10]%N ++ classification_prompt ++ [10; 10]%N
    ++ validation_prompt in
  [system_prompt; user_content].

(** [sum([self.cost_calculator.count_tokens(msg["content"]) for msg in messages])] *)
Fixpoint count_input_tokens (contents : list pystr) : result Z :=
  match contents with
  | [] => Ok 0%Z
  | content :: rest =>
      do n <- cost_calculator.count_tokens content;
      do m <- count_input_tokens rest;
      Ok (n + m)%Z
  end.

(** The [try] body of [classify_text] from the call on, with the handler:
    an exception becomes [(False, {'error': str(e)})].  The test of
    [result['success']] never fails, since [_make_api_call] returns a
    dictionary with [success = True] or raises; it is left out. *)
Definition call_and_validate (title description content : cell)
    (model_to_use : pystr) (w : world) : (bool * Result.t) * world :=
  match _make_api_call title description content model_to_use w with
  | (Raise e, w') => ((false, failure (exn_text e) None None), w')
  | (Ok None, w') =>
      ((false, failure (u "'NoneType' object is not subscriptable") None None), w')
  | (Ok (Some (resp, model_used)), w') =>
      let response_content := message_content resp in
      let actual_input_tokens := usage_prompt_tokens resp in
      let actual_output_tokens := usage_completion_tokens resp in
      let cost := cost_calculator.calculate_cost
                    actual_input_tokens actual_output_tokens in
      match validators.validate_json_response response_content with
      | (false, _, validation_message) =>
          ((false, failure (u "Invalid response format")
                           (Some validation_message) (Some response_content)), w')
      | (true, parsed_labels, _) =>
          match validators.validate_labels (default [] parsed_labels) with
          | Raise e => ((false, failure (exn_text e) None None), w')
          | Ok (cleaned_labels, warnings) =>
              let '(is_quality, quality_issues) :=
                validators.check_response_quality
                  cleaned_labels (CONFIDENCE_THRESHOLD cfg) in
              ((true,
                Result.Make (Some cleaned_labels) (Some model_used)
                  (Some actual_input_tokens) (Some actual_output_tokens)
                  (Some cost) (Some warnings)
                  (Some (if negb is_quality then quality_issues else []))
                  (Some response_content) None None), w')
          end
      end
  end.

(** [ChatGPTClient.classify_text].  The messages are built before the
    [try], so an exception of the prompt leaves [classify_text].  The
    tokens of the two messages are counted inside the [try], before the
    call: when the count raises, the handler returns a failure and the
    service is not called.  The count itself is not used. *)
Definition classify_text (title description content : cell)
    (use_fallback : bool) (w : world) : result (bool * Result.t) * world :=
  let model_to_use := if use_fallback then self_fallback_model else self_model in
  match classification_prompt title description content with
  | Raise e => (Raise e, w)
  | Ok classification_prompt =>
      match count_input_tokens (messages classification_prompt) with
      | Raise e => (Ok (false, failure (exn_text e) None None), w)
      | Ok input_tokens =>
          let '(r, w') :=
            call_and_validate title description content model_to_use w in
          (Ok r, w')
      end
  end.

(** The entry appended for a successful classification. *)
Definition success_entry (index : Z) (res : Result.t)
    (used_fallback : option bool) : result Outcome.t :=
  do labels <- py_item "labels" (Result.labels res);
  do model_used <- py_item "model_used" (Result.model_used res);
  do cost <- py_item "cost" (Result.cost res);
  Ok (Outcome.Make index true (Some labels) None
        (Metadata.Make (Some model_used) (Some cost)
           (Some (default [] (Result.warnings res)))
           (Some (default [] (Result.quality_issues res)))
           used_fallback)).

(** The entry appended for a failure. *)
Definition failure_entry (index : Z) (error : pystr) : Outcome.t :=
  Outcome.Make index false None (Some error) Metadata.empty.

(** The [try] body of [classify_batch] for one record, up to and including
    the [results.append]. *)
Definition classify_record (data : Batch.record) (w : world)
  : result Outcome.t * world :=
  match classify_text (Batch.title data) (Batch.description data)
                      (Batch.content data) false w with
  | (Raise e, w1) => (Raise e, w1)
  | (Ok (true, res), w1) => (success_entry (Batch.index data) res None, w1)
  | (Ok (false, res), w1) =>
      match classify_text (Batch.title data) (Batch.description data)
                          (Batch.content data) true w1 with
      | (Raise e, w2) => (Raise e, w2)
      | (Ok (true, result_fallback), w2) =>
          (success_entry (Batch.index data) result_fallback (Some true), w2)
      | (Ok (false, result_fallback), w2) =>
          (Ok (failure_entry (Batch.index data)
                 (default (u "Unknown error") (Result.error res))), w2)
      end
  end.

(** [ChatGPTClient.classify_batch]: the records in order, one second of
    sleep after each but the last; an exception of the [try] body skips the
    sleep and appends a failure. *)
Fixpoint classify_batch (batch_data : list Batch.record) (w : world)
  : list Outcome.t * world :=
  match batch_data with
  | [] => ([], w)
  | data :: rest =>
      let '(r, w1) := classify_record data w in
      let '(entry, w2) :=
        match r with
        | Ok entry =>
            (entry, match rest with [] => w1 | _ :: _ => sleep 1 w1 end)
        | Raise e => (failure_entry (Batch.index data) (exn_text e), w1)
        end in
      let '(entries, w3) := classify_batch rest w2 in
      (entry :: entries, w3)
  end.

End WithRuntime.
End api_client.

(* ===================================================================== *)
(** * src/batch_processor.py *)
(* ===================================================================== *)

(** The checkpoint dictionary.  Its two time stamps are left out. *)
Module Checkpoint.
Record t := Make {
  last_processed_index : Z;
  total_cost : Q;
  processed_count : Z;
  successful_count : option Z
}.
End Checkpoint.

(** A row of the final CSV: the original row and the four added columns. *)
Record final_row := FinalRow {
  original : row;
  predicted_labels : pystr;
  prediction_confidence : pystr;
  model_used : pystr;
  classification_success : bool
}.

(** The summary that [process_dataset] returns (without its time stamps). *)
Record summary := Summary {
  total_records_in_dataset : Z;
  records_processed : Z;
  successful_classifications : Z;
  success_rate : Q;
  summary_total_cost : Q;
  average_cost_per_record : Q;
  batch_size_used : Z
}.

Module batch_processor.

(** The variables of [process_dataset] that the loop changes, the two
    files it writes, and the outside world. *)
Record state := State {
  current_index : Z;
  checkpoint : Checkpoint.t;
  checkpoint_file : option Checkpoint.t;
  results_file : option (list Outcome.t);
  total_processed : Z;
  total_successful : Z;
  total_cost : Q;
  all_batch_results : list Outcome.t;
  outside : world
}.

(** [current_index += n] *)
Definition advance (n : Z) (st : state) : state :=
  State (current_index st + n) (checkpoint st) (checkpoint_file st)
        (results_file st) (total_processed st) (total_successful st)
        (total_cost st) (all_batch_results st) (outside st).

(** [load_checkpoint]: the file if there is one, a fresh dictionary
    otherwise. *)
Definition load_checkpoint (file : option Checkpoint.t) : Checkpoint.t :=
  match file with
  | Some checkpoint => checkpoint
  | None => Checkpoint.Make 0 0 0 None
  end.

(** [save_results(results, append=True)]: the new file. *)
Definition save_results (results : list Outcome.t)
    (file : option (list Outcome.t)) : option (list Outcome.t) :=
  match file with
  | Some existing_results => Some (existing_results ++ results)
  | None => Some results
  end.

(** [sum(r.get('metadata', {}).get('cost', 0) for r in results if r['success'])],
    an exact sum where the source adds floats. *)
Definition batch_cost (batch_results : list Outcome.t) : Q :=
  foldr Qplus 0%Q
    (map (fun r => default 0%Q (Metadata.cost (Outcome.metadata r)))
         (List.filter Outcome.success batch_results)).

Section WithRuntime.
Context `{PyRuntime}.
Variable cfg : config.
Variable df : list row.

Section Loop.
Variables batch_size end_index : Z.

(** The [try] body of the loop, for one batch: whether it ends normally
    or with an exception, and the state that it leaves. *)
Definition try_body (st : state) : result unit * state :=
  let actual_batch_size :=
    Z.min batch_size (end_index - current_index st) in
  match data_processor.process_batch df (current_index st) actual_batch_size with
  | Raise e => (Raise e, st)
  | Ok [] =>
      (* no valid data in this batch *)
      (Ok tt, advance actual_batch_size st)
  | Ok batch_data =>
      let '(batch_results, w) :=
        api_client.classify_batch cfg batch_data (outside st) in
      let successful_in_batch :=
        Z.of_nat (length (List.filter Outcome.success batch_results)) in
      let total_processed :=
        (total_processed st + Z.of_nat (length batch_results))%Z in
      let total_successful := (total_successful st + successful_in_batch)%Z in
      let total_cost := (total_cost st + batch_cost batch_results)%Q in
      let checkpoint :=
        Checkpoint.Make
          (current_index st + Z.of_nat (length batch_data))
          total_cost total_processed (Some total_successful) in
      (Ok tt,
       State (current_index st + Z.of_nat (length batch_data))
             checkpoint (Some checkpoint)
             (save_results batch_results (results_file st))
             total_processed total_successful total_cost
             (all_batch_results st ++ batch_results) w)
  end.

(** The body of the [while] loop: the [try] body, and the handler
    [except Exception], which skips the batch. *)
Definition batch_iteration (st : state) : state :=
  match try_body st with
  | (Ok _, st') => st'
  | (Raise _, st') => advance batch_size st'
  end.

(** The state after [n] more turns of the loop; once the condition
    [current_index < end_index] fails the loop has ended and the state no
    longer changes. *)
Definition turn (st : state) : state :=
  if (current_index st <? end_index)%Z then batch_iteration st else st.

Definition after (n : nat) (st : state) : state := Nat.iter n turn st.

(** The [while] loop, run for at most [fuel] turns: [None] when the loop
    has not ended by then. *)
Fixpoint while_loop (fuel : nat) (st : state) : option state :=
  if (current_index st <? end_index)%Z
  then match fuel with
       | O => None
       | S fuel' => while_loop fuel' (batch_iteration st)
       end
  else Some st.

End Loop.

(** The values that [process_dataset] fixes before its loop. *)
Definition start_index_of (start_from : option Z) (checkpoint : Checkpoint.t) : Z :=
  match start_from with
  | Some n => n
  | None => Checkpoint.last_processed_index checkpoint
  end.

(** [batch_size or config.BATCH_SIZE] *)
Definition batch_size_of (batch_size : option Z) : Z :=
  match batch_size with
  | Some n => if (n =? 0)%Z then BATCH_SIZE cfg else n
  | None => BATCH_SIZE cfg
  end.

Definition end_index_of (start_index : Z) (max_records : option Z) : Z :=
  match max_records with
  | Some n =>
      if (n =? 0)%Z then Z.of_nat (length df)
      else Z.min (start_index + n) (Z.of_nat (length df))
  | None => Z.of_nat (length df)
  end.

(** The state in which the loop is entered. *)
Definition initial_state (start_from : option Z)
    (checkpoint_file : option Checkpoint.t)
    (results_file : option (list Outcome.t)) (w : world) : state :=
  let checkpoint := load_checkpoint checkpoint_file in
  State (start_index_of start_from checkpoint) checkpoint checkpoint_file
        results_file 0 0 (Checkpoint.total_cost checkpoint) [] w.

Definition summary_of (batch_size : Z) (st : state) : summary :=
  Summary (Z.of_nat (length df)) (total_processed st) (total_successful st)
    (if (0 <? total_processed st)%Z
     then inject_Z (total_successful st) / inject_Z (total_processed st) * 100
     else 0)%Q
    (total_cost st)
    (if (0 <? total_successful st)%Z
     then total_cost st / inject_Z (total_successful st) else 0)%Q
    batch_size.

(** [BatchProcessor.process_dataset] from the checkpoint on, for the data
    frame [df] that was loaded: [None] when the loop has not ended after
    [fuel] turns. *)
Definition process_loaded (fuel : nat) (batch_size start_from max_records : option Z)
    (checkpoint_file : option Checkpoint.t)
    (results_file : option (list Outcome.t)) (w : world)
  : option (summary * state) :=
  let st := initial_state start_from checkpoint_file results_file w in
  let start_index := current_index st in
  let batch_size := batch_size_of batch_size in
  let end_index := end_index_of start_index max_records in
  match while_loop batch_size end_index fuel st with
  | Some st' => Some (summary_of batch_size st', st')
  | None => None
  end.

End WithRuntime.

(** [BatchProcessor.process_dataset], for a data file that pandas reads as
    the data frame [data_path].  The data set is loaded and its statistics
    are computed before the checkpoint is read; an exception of either
    leaves [process_dataset], and nothing has been called or written. *)
Definition process_dataset `{PyRuntime} (cfg : config) (data_path : list row)
    (fuel : nat) (batch_size start_from max_records : option Z)
    (checkpoint_file : option Checkpoint.t)
    (results_file : option (list Outcome.t)) (w : world)
  : result (option (summary * state)) :=
  do df <- data_processor.load_data data_path;
  do stats <- data_processor.get_processing_stats df;
  Ok (process_loaded cfg df fuel batch_size start_from max_records
        checkpoint_file results_file w).

(** Nearest integer of a rational that is not negative, halves to even. *)
Definition round_half_even (q : Q) : Z :=
  let n := Qnum q in
  let d := Z.pos (Qden q) in
  let f := (n / d)%Z in
  let r := (n mod d)%Z in
  if (2 * r <? d)%Z then f
  else if (d <? 2 * r)%Z then (f + 1)%Z
  else if Z.even f then f else (f + 1)%Z.

(** The format [f"{c:.2f}"]. *)
Definition format_2f (c : pyfloat) : pystr :=
  match c with
  | Fin q =>
      let h := Z.to_N (round_half_even (Qabs q * 100)) in
      (if Qle_bool 0 q then [] else u "-")
      ++ Py.str_of_N (h / 100) ++ u "."
      ++ [(48 + (h mod 100) / 10)%N; (48 + (h mod 100) mod 10)%N]
  | PosInf => u "inf"
  | NegInf => u "-inf"
  | NaN => u "nan"
  end.

(** [{r['index']: r for r in results}] *)
Definition results_mapping (results : list Outcome.t) : gmap Z Outcome.t :=
  foldl (fun m r => <[Outcome.index r := r]> m) ∅ results.

(** The four columns of row [idx], after the loop body of
    [create_final_csv]. *)
Definition join_row (results_dict : gmap Z Outcome.t) (idx : Z) (r : row)
  : result final_row :=
  match results_dict !! idx with
  | Some res =>
      if Outcome.success res then
        do entries <- py_item "labels" (Outcome.labels res);
        let labels := map label entries in
        let confidences := map confidence entries in
        Ok (FinalRow r
              (Py.join (u "; ") labels)
              (Py.join (u "; ") (map format_2f confidences))
              (default [] (Metadata.model_used (Outcome.metadata res)))
              true)
      else Ok (FinalRow r [] [] [] false)
  | None => Ok (FinalRow r [] [] [] false)
  end.

Fixpoint join_rows (results_dict : gmap Z Outcome.t) (idx : Z)
    (rows : list row) : result (list final_row) :=
  match rows with
  | [] => Ok []
  | r :: rows' =>
      do fr <- join_row results_dict idx r;
      do frs <- join_rows results_dict (idx + 1) rows';
      Ok (fr :: frs)
  end.

(** [BatchProcessor.create_final_csv]: the rows of [final_results.csv]. *)
Definition create_final_csv (df_original : list row)
    (results_file : option (list Outcome.t)) : result (list final_row) :=
  match results_file with
  | None => Raise (Exn OtherError (u "No results file found"))
  | Some results => join_rows (results_mapping results) 0 df_original
  end.

End batch_processor.

(* ===================================================================== *)
(** * Vocabulary of the specification *)
(* ===================================================================== *)

(** The definitions of this part are not translations of the source: they
    put the words of the specification into terms, and the properties
    below compare the source with them. *)

Module Spec.

Section WithRuntime.
Context `{PyRuntime}.

(** ** Label validation (section 4.3) *)

(** The trimmed label of a candidate entry; an entry without label has the
    empty label. *)
Definition trimmed_label (item : json) : pystr :=
  match item with
  | JObj d =>
      match Json.get d (u "label") with
      | Some (JStr s) => Py.strip s
      | _ => []
      end
  | _ => []
  end.

(** "one of the 12 taxonomy labels" *)
Definition in_taxonomy (l : pystr) : Prop := In l labels.get_label_list.

(** The confidence field of an entry, if it has one. *)
Definition confidence_field (item : json) : option json :=
  match item with
  | JObj d => Json.get d (u "confidence")
  | _ => None
  end.

(** "clamps confidence into [0,1]": below 0 it becomes 0, above 1 it
    becomes 1, and a value of the interval is kept. *)
Definition clamped (x y : pyfloat) : Prop :=
  match x with
  | Fin q =>
      (q < 0 /\ y = Fin 0) \/ (1 < q /\ y = Fin 1)
      \/ (0 <= q <= 1 /\ exists q', y = Fin q' /\ q' == q)
  | NegInf => y = Fin 0
  | PosInf | NaN => y = Fin 1
  end%Q.

(** What the source does with the confidence of an entry that it keeps. *)
Inductive confidence_rule (item : json) (y : pyfloat) (warned : bool) : Prop :=
| rule_missing :
    confidence_field item = None -> y = Fin 0 -> warned = false ->
    confidence_rule item y warned
| rule_numeric c x :
    confidence_field item = Some c -> py_float c = FloatOk x ->
    clamped x y -> warned = false ->
    confidence_rule item y warned
| rule_default c :
    confidence_field item = Some c ->
    (py_float c = FloatValueError \/ py_float c = FloatTypeError) ->
    y = Fin 0.5 -> warned = true ->
    confidence_rule item y warned.

(** The candidate entries: JSON objects whose label, when present, is a
    string. *)
Definition candidate (item : json) : Prop :=
  match item with
  | JObj d =>
      match Json.get d (u "label") with
      | Some (JStr _) | None => True
      | Some _ => False
      end
  | _ => False
  end.

(** An entry whose confidence is an integer too large for a float: the
    conversion raises [OverflowError], which the source does not catch. *)
Definition oversized (item : json) : bool :=
  match confidence_field item with
  | Some c =>
      match py_float c with
      | FloatOverflow => true
      | _ => false
      end
  | None => false
  end.

(** The number of warnings that the specification announces for a list of
    candidates: one for each entry dropped, one for each kept entry whose
    confidence is present but is not a number. *)
Definition drops (items : list json) : nat :=
  length (List.filter
            (fun item => negb (Py.mem (trimmed_label item) labels.get_label_list))
            items).

Definition not_a_number (item : json) : bool :=
  match confidence_field item with
  | Some c =>
      match py_float c with
      | FloatValueError | FloatTypeError => true
      | _ => false
      end
  | None => false
  end.

Definition defaults (items : list json) : nat :=
  length (List.filter
            (fun item => Py.mem (trimmed_label item) labels.get_label_list
                         && not_a_number item)
            items).

(** The entries that [validate_labels] keeps. *)
Definition kept (items : list json) : list json :=
  List.filter
    (fun item => Py.mem (trimmed_label item) labels.get_label_list) items.

(** Two floats with the same value. *)
Definition same_value (x y : pyfloat) : Prop :=
  match x, y with
  | Fin p, Fin q => (p == q)%Q
  | PosInf, PosInf | NegInf, NegInf | NaN, NaN => True
  | _, _ => False
  end.

(** ** Response parsing (section 4.3) *)

(** An entry that passed the checks of the parser: an object with a label
    and with a confidence that converts to a float of [0, 1]. *)
Definition checked_item (item : json) : Prop :=
  exists d c x,
    item = JObj d /\ Json.has d (u "label") = true
    /\ Json.get d (u "confidence") = Some c
    /\ py_float c = FloatOk x /\ Float.in_unit x.

(** ** The four shapes of an answer (sections 4.3 and 8) *)

(** A label payload: labels with a confidence of [0, 1]. *)
Definition label_payload (payload : list label_pred) : Prop :=
  Forall (fun p => Float.in_unit (confidence p)) payload.

(** Its normalized list of [{label, confidence}] objects. *)
Definition entry (p : label_pred) : json :=
  validators.label_object (JStr (label p)) (JFloat (confidence p)).

Definition normalized (payload : list label_pred) : list json :=
  map entry payload.

(** (a) the direct array *)
Definition as_array (payload : list label_pred) : json :=
  JArr (normalized payload).

(** (b) an object holding the array under a key *)
Definition under_key (key : pystr) (payload : list label_pred) : json :=
  JObj [(key, as_array payload)].

(** (c) the array below a chain of keys; with four keys the array is the
    fifth level of the document. *)
Fixpoint nested (path : list pystr) (payload : list label_pred) : json :=
  match path with
  | [] => as_array payload
  | key :: path' => JObj [(key, nested path' payload)]
  end.

(** (d) a flat object with the pairs [label1]/[confidence1],
    [label2]/[confidence2], ... *)
Fixpoint numbered_fields (i : nat) (payload : list label_pred) : Json.dict :=
  match payload with
  | [] => []
  | p :: rest =>
      (u "label" ++ Py.str_of_nat i, JStr (label p))
      :: (u "confidence" ++ Py.str_of_nat i, JFloat (confidence p))
      :: numbered_fields (S i) rest
  end.

Definition flat_numbered (payload : list label_pred) : json :=
  JObj (numbered_fields 1 payload).

(** (d) a flat object with one pair of keys for each entry, the first
    naming a label and the second a confidence. *)
Fixpoint keyed_fields (keys : list (pystr * pystr))
    (payload : list label_pred) : Json.dict :=
  match keys, payload with
  | (label_key, conf_key) :: keys', p :: rest =>
      (label_key, JStr (label p)) :: (conf_key, JFloat (confidence p))
      :: keyed_fields keys' rest
  | _, _ => []
  end.

Definition flat_keyed (keys : list (pystr * pystr))
    (payload : list label_pred) : json :=
  JObj (keyed_fields keys payload).

Definition names_label (k : pystr) : bool :=
  Py.contains (Py.lower k) (u "label").

Definition names_confidence (k : pystr) : bool :=
  Py.contains (Py.lower k) (u "confidence")
  || Py.contains (Py.lower k) (u "conf").

(** Keys listed in the order of [sorted]. *)
Fixpoint in_order (l : list pystr) : Prop :=
  match l with
  | x :: l' =>
      match l' with
      | y :: _ => Py.leb x y = true
      | [] => True
      end /\ in_order l'
  | [] => True
  end.

(** The keys of a flat object that are "paired by sorted key order": one
    pair for each entry; a label key contains "label" and not "conf", a
    confidence key contains "conf" and not "label"; the keys of each kind
    are distinct and listed in sorted order; and the pair is not the
    numbered pair [label1]/[confidence1], which is the other pattern. *)
Definition key_family (keys : list (pystr * pystr))
    (payload : list label_pred) : Prop :=
  length keys = length payload
  /\ Forall (fun k => names_label (fst k) = true
                      /\ names_confidence (fst k) = false
                      /\ names_confidence (snd k) = true
                      /\ names_label (snd k) = false) keys
  /\ NoDup (map fst keys) /\ NoDup (map snd keys)
  /\ in_order (map fst keys) /\ in_order (map snd keys)
  /\ ~ (In (u "label1") (map fst keys) /\ In (u "confidence1") (map snd keys)).

(** The fields of a flat object are texts and numbers. *)
Definition scalar_fields (d : Json.dict) : Prop :=
  Forall (fun kv => match snd kv with
                    | JStr _ | JFloat _ => True
                    | _ => False
                    end) d.

(** The document, once parsed, is accepted and gives the normalized list. *)
Definition accepts (payload : list label_pred) (doc : json) : Prop :=
  validators.validate_parsed doc = Ok (true, Some (normalized payload), u "Valid").

(** Every response whose text is the document [doc] is valid and gives the
    normalized list. *)
Definition parses_to (payload : list label_pred) (doc : json) : Prop :=
  forall response,
    json_loads (validators.clean_response response) = inr doc ->
    validators.validate_json_response (Some response)
    = (true, Some (normalized payload), u "Valid").

(** The property of section 8 for one payload: each of the four shapes
    parses to the same normalized list. *)
Definition all_shapes_parse (payload : list label_pred) : Prop :=
  parses_to payload (as_array payload)
  /\ (forall key, In key validators.possible_keys ->
                  parses_to payload (under_key key payload))
  /\ (forall path, (1 <= length path <= 4)%nat ->
                   parses_to payload (nested path payload))
  /\ parses_to payload (flat_numbered payload)
  /\ (forall keys, key_family keys payload ->
                   parses_to payload (flat_keyed keys payload)).

(** ** Record preparation (section 4.1) *)

(** "empty/blank": a text with nothing but white space. *)
Definition blank (c : cell) : Prop :=
  match c with
  | CStr s => Py.strip s = []
  | CNum _ => False
  end.

(** "title length < 5 characters" *)
Definition short_title (c : cell) : Prop :=
  match c with
  | CStr s => (length s < 5)%nat
  | CNum _ => False
  end.

(** The rows that the specification rejects. *)
Definition rejected (r : row) : Prop :=
  blank (Tieu_de r) \/ blank (Description r) \/ blank (Noi_dung_tin_bai r)
  \/ short_title (Tieu_de r).

(** The rows that pass [validate_text_record]. *)
Definition passes (r : row) : Prop :=
  exists errors,
    validators.validate_text_record
      (Tieu_de r) (Description r) (Noi_dung_tin_bai r) = Ok (true, errors).

(** ** Classification client (section 4.2) *)

(** The text of the exception that a reply of the service raises, if it
    raises one. *)
Definition failure_text (r : api_reply) : option pystr :=
  match r with
  | Completion _ _ _ => None
  | RateLimited text | ApiFailed text | Crashed text => Some text
  end.

(** Every exception of the service comes with a description. *)
Definition service_describes_failures (w : world) : Prop :=
  forall n text, failure_text (replies w n) = Some text -> text <> [].

(** Every exception of the tokenizer comes with a description. *)
Definition tokenizer_describes_failures : Prop :=
  forall s text, tiktoken_encode s = inl text -> text <> [].

(** "up to 3 attempts, exponential backoff starting at 1 second (delay,
    then delay x 2, ...).  A rate-limit signal additionally forces a fixed
    60-second cooldown before the next retry attempt, outside the normal
    backoff schedule."  [schedule call r1 r2 r3] lists what happens when
    the service would answer the next three calls with [r1], [r2], [r3]. *)
Definition completed (r : api_reply) : bool :=
  match r with
  | Completion _ _ _ => true
  | _ => false
  end.

Definition cooldown (r : api_reply) : list event :=
  match r with
  | RateLimited _ => [Sleep 60]
  | _ => []
  end.

Definition schedule (call : event) (r1 r2 r3 : api_reply) : list event :=
  [call] ++
  if completed r1 then []
  else cooldown r1 ++ [Sleep 1; call] ++
       if completed r2 then []
       else cooldown r2 ++ [Sleep 2; call] ++
            if completed r3 then [] else cooldown r3.

(** The number of attempts made. *)
Definition attempts (r1 r2 r3 : api_reply) : nat :=
  if completed r1 then 1 else if completed r2 then 2 else 3.

(** The reply that decides the result: the first completion, or the third
    reply when the first two attempts fail. *)
Definition deciding (r1 r2 r3 : api_reply) : api_reply :=
  if completed r1 then r1 else if completed r2 then r2 else r3.

(** A call or sleep that concerns one of the given records only. *)
Definition about (batch : list Batch.record) (ev : event) : Prop :=
  match ev with
  | Call _ t d c =>
      exists data, In data batch /\ t = Batch.title data
                   /\ d = Batch.description data /\ c = Batch.content data
  | Sleep _ => True
  end.

End WithRuntime.

(** ** Effects on the outside *)

(** The world [w'] continues [w]: same service, and a trace extended by
    events that satisfy [P]. *)
Definition grows (P : event -> Prop) (w w' : world) : Prop :=
  replies w' = replies w
  /\ exists evs, trace w' = trace w ++ evs /\ Forall P evs.

(** The events of one record: calls for this record, and sleeps. *)
Definition calls_for (t d c : cell) (ev : event) : Prop :=
  match ev with
  | Call _ t' d' c' => t' = t /\ d' = d /\ c' = c
  | Sleep _ => True
  end.

(** ** Batch orchestrator (section 4.5) *)

Section Orchestrator.
Context `{PyRuntime}.
Variable cfg : config.
Variable df : list row.
Variables batch_size end_index : Z.

(** What a turn of the loop does: it classifies a batch of [n] valid
    records; or it finds no valid record in a slice of the given width; or
    it skips the batch on an exception; or the loop has ended. *)
Inductive kind :=
| Classified (n : nat)
| NoValidData (width : Z)
| Skipped
| Ended.

Definition kind_of (st : batch_processor.state) : kind :=
  if (batch_processor.current_index st <? end_index)%Z then
    let actual_batch_size :=
      Z.min batch_size (end_index - batch_processor.current_index st) in
    match data_processor.process_batch
            df (batch_processor.current_index st) actual_batch_size with
    | Raise _ => Skipped
    | Ok [] => NoValidData actual_batch_size
    | Ok batch_data => Classified (length batch_data)
    end
  else Ended.

(** The width by which a turn moves [current_index]. *)
Definition width (k : kind) : Z :=
  match k with
  | Classified n => Z.of_nat n
  | NoValidData w => w
  | Skipped => batch_size
  | Ended => 0
  end.

(** The widths of the first [n] turns that follow the state [st]. *)
Fixpoint widths (n : nat) (st : batch_processor.state) : list Z :=
  match n with
  | O => []
  | S n' =>
      width (kind_of st)
      :: widths n' (batch_processor.turn cfg df batch_size end_index st)
  end.

Definition total (l : list Z) : Z := foldr Z.add 0%Z l.

(** The checkpoint's [last_processed_index]. *)
Definition lpi (st : batch_processor.state) : Z :=
  Checkpoint.last_processed_index (batch_processor.checkpoint st).

(** The reading of the checkpoint property of section 8, with the widths
    by which the source moves: after each turn that takes place,
    [last_processed_index] is the start index plus the widths so far, and
    it has not decreased. *)
Definition checkpoint_follows_widths (st0 : batch_processor.state) : Prop :=
  forall n,
    let st := batch_processor.after cfg df batch_size end_index n st0 in
    let st' := batch_processor.after cfg df batch_size end_index (S n) st0 in
    kind_of st <> Ended ->
    lpi st' = (batch_processor.current_index st0 + total (widths (S n) st0))%Z
    /\ (lpi st <= lpi st')%Z.

End Orchestrator.

(** ** Result log and final CSV (sections 3 and 4.5) *)

(** "last write wins": the outcome of the log that counts for an index is
    the last one recorded under it. *)
Definition authoritative (results : list Outcome.t) (idx : Z)
  : option Outcome.t :=
  last (filter (fun r => Outcome.index r = idx) results).

(** "rows with no matching result keep empty defaults" *)
Definition keeps_defaults (fr : final_row) : Prop :=
  predicted_labels fr = [] /\ prediction_confidence fr = []
  /\ model_used fr = [] /\ classification_success fr = false.

(** The columns that the source writes for an outcome that counts. *)
Definition joined_with (o : Outcome.t) (fr : final_row) : Prop :=
  if Outcome.success o then
    exists entries,
      Outcome.labels o = Some entries
      /\ predicted_labels fr = Py.join (u "; ") (map label entries)
      /\ prediction_confidence fr
         = Py.join (u "; ")
             (map batch_processor.format_2f (map confidence entries))
      /\ model_used fr = default [] (Metadata.model_used (Outcome.metadata o))
      /\ classification_success fr = true
  else keeps_defaults fr.

Definition joined (results : list Outcome.t) (idx : Z) (fr : final_row) : Prop :=
  match authoritative results idx with
  | Some o => joined_with o fr
  | None => keeps_defaults fr
  end.


(** A log as [classify_batch] writes it: a successful outcome has its list
    of labels. *)
Definition well_formed_log (results : list Outcome.t) : Prop :=
  Forall (fun o => Outcome.success o = true -> is_Some (Outcome.labels o))
         results.

End Spec.

(* ===================================================================== *)
(** * Vocabulary of the further properties *)
(* ===================================================================== *)

(** Like the vocabulary of the specification, these definitions are not
    translations of the source: the properties of the last part are
    stated with them. *)

Module Terms.

Section WithRuntime.
Context `{PyRuntime}.

(** The entries on which [validate_labels] does not raise. *)
Definition tolerated (item : json) : Prop :=
  match item with
  | JObj d =>
      match Json.get d (u "label") with
      | None => True
      | Some (JStr s) =>
          Py.mem (Py.strip s) labels.get_label_list = true ->
          match Json.get d (u "confidence") with
          | Some c => py_float c <> FloatOverflow
          | None => True
          end
      | Some _ => False
      end
  | _ => False
  end.

(** The rows that [validate_text_record] passes: three texts that are not
    blank, with a title of five characters or more once stripped. *)
Definition usable (r : row) : bool :=
  match Tieu_de r, Description r, Noi_dung_tin_bai r with
  | CStr t, CStr d, CStr c =>
      negb (Py.eqb (Py.strip t) []) && negb (Py.eqb (Py.strip d) [])
      && negb (Py.eqb (Py.strip c) []) && (5 <=? length (Py.strip t))%nat
  | _, _, _ => false
  end.

(** The record prepared for position [idx], if its row is usable. *)
Definition prepared (df : list row) (idx : Z) : option Batch.record :=
  match data_processor.iloc df idx with
  | Ok r =>
      if usable r
      then Some (Batch.Record_ idx (Tieu_de r) (Description r)
                               (Noi_dung_tin_bai r))
      else None
  | Raise _ => None
  end.

End WithRuntime.

(** A record for which [classify_text] reaches the service: its prompt is
    built, which takes a content that is a text, and the tokenizer accepts
    the two messages. *)
Definition counted `{PyRuntime} (data : Batch.record) : Prop :=
  exists prompt n,
    api_client.classification_prompt (Batch.title data)
      (Batch.description data) (Batch.content data) = Ok prompt
    /\ api_client.count_input_tokens (api_client.messages prompt) = Ok n.

(** The model that a call names: [model or self.model]. *)
Definition model_called (cfg : config) (use_fallback : bool) : pystr :=
  if use_fallback
  then if Py.eqb (FALLBACK_MODEL cfg) [] then DEFAULT_MODEL cfg
       else FALLBACK_MODEL cfg
  else DEFAULT_MODEL cfg.

(** A label of the taxonomy with a confidence of the unit interval. *)
Definition clean (p : label_pred) : Prop :=
  Spec.in_taxonomy (label p) /\ Float.in_unit (confidence p).

(** The shape of an entry of [classify_batch]: a success lists clean
    labels and fills its metadata; a failure has an error and nothing
    else. *)
Definition well_shaped (o : Outcome.t) : Prop :=
  if Outcome.success o then
    exists labels model cost warnings issues,
      Outcome.labels o = Some labels /\ Forall clean labels
      /\ Outcome.error o = None
      /\ Metadata.model_used (Outcome.metadata o) = Some model
      /\ Metadata.cost (Outcome.metadata o) = Some cost
      /\ Metadata.warnings (Outcome.metadata o) = Some warnings
      /\ Metadata.quality_issues (Outcome.metadata o) = Some issues
  else
    Outcome.labels o = None /\ is_Some (Outcome.error o)
    /\ Outcome.metadata o = Metadata.empty.

(** The model that a successful entry names, and its fallback flag. *)
Definition names_model (cfg : config) (o : Outcome.t) : Prop :=
  Outcome.success o = true ->
  (Metadata.used_fallback (Outcome.metadata o) = None
   /\ Metadata.model_used (Outcome.metadata o) = Some (DEFAULT_MODEL cfg))
  \/ (Metadata.used_fallback (Outcome.metadata o) = Some true
      /\ Metadata.model_used (Outcome.metadata o)
         = Some (if Py.eqb (FALLBACK_MODEL cfg) [] then DEFAULT_MODEL cfg
                 else FALLBACK_MODEL cfg)).

(** The cost of a successful entry is the cost of the tokens that a
    completion of the service reported. *)
Definition priced (service : nat -> api_reply) (o : Outcome.t) : Prop :=
  Outcome.success o = true ->
  exists n content p q,
    service n = Completion content p q
    /\ Metadata.cost (Outcome.metadata o)
       = Some (cost_calculator.calculate_cost p q).

(** A data set that [process_dataset] loads: it has a row, and pandas read
    none of its three columns as numbers. *)
Definition loadable (df : list row) : Prop :=
  df <> []
  /\ data_processor.numeric (map Tieu_de df) = false
  /\ data_processor.numeric (map Description df) = false
  /\ data_processor.numeric (map Noi_dung_tin_bai df) = false.

Section Run.
Context `{PyRuntime}.
Variable cfg : config.
Variable df : list row.
Variables batch_size end_index : Z.

(** The outcomes that a turn of the loop records: those of the batch that
    it classifies, if it classifies one. *)
Definition turn_outcomes (st : batch_processor.state) : list Outcome.t :=
  if (batch_processor.current_index st <? end_index)%Z then
    match data_processor.process_batch df (batch_processor.current_index st)
            (Z.min batch_size (end_index - batch_processor.current_index st))
    with
    | Ok (data :: rest) =>
        fst (api_client.classify_batch cfg (data :: rest)
               (batch_processor.outside st))
    | _ => []
    end
  else [].

(** The outcomes that [n] turns record, in their order. *)
Fixpoint run_outcomes (n : nat) (st : batch_processor.state)
  : list Outcome.t :=
  match n with
  | O => []
  | S n' =>
      run_outcomes n' st
      ++ turn_outcomes (batch_processor.after cfg df batch_size end_index n' st)
  end.

End Run.

(** The index at which a run that is given no start index begins. *)
Definition resume_index (st : batch_processor.state) : Z :=
  Checkpoint.last_processed_index
    (batch_processor.load_checkpoint (batch_processor.checkpoint_file st)).

(** A turn that classifies nothing. *)
Definition quiet (k : Spec.kind) : Prop :=
  match k with
  | Spec.Classified _ => False
  | _ => True
  end.

End Terms.

(* ===================================================================== *)
(** * Sample inputs *)
(* ===================================================================== *)

Module Samples.

(** An interpreter that parses three texts: ["[]"], ["{}"] and the text
    [good]; its numbers are whole, and its tokens are the characters of a
    text, which must not hold the special token [<|endoftext|>]. *)
Definition khac (c : Q) : json :=
  validators.label_object (JStr (u "Khác")) (JFloat (Fin c)).

Definition runtime : PyRuntime := {|
  json_loads := fun s =>
    if Py.eqb s (u "[]") then inr (JArr [])
    else if Py.eqb s (u "{}") then inr (JObj [])
    else if Py.eqb s (u "good") then inr (JArr [khac 0.9])
    else inl (u "Expecting value: line 1 column 1 (char 0)");
  float_of_str := fun s => if Py.eqb s (u "0.9") then Some (Fin 0.9) else None;
  repr_list := fun l =>
    u "[" ++ Py.join (u ", ") (map (fun k => u "'" ++ k ++ u "'") l) ++ u "]";
  str_of_number := fun q =>
    (if Qle_bool 0 q then [] else u "-")
    ++ Py.str_of_N (Z.to_N (Z.abs (Qnum q) / Z.pos (Qden q)));
  type_of_number := fun _ => u "numpy.int64";
  tiktoken_encode := fun s =>
    if Py.contains s (u "<|endoftext|>")
    then inl (u "Encountered text corresponding to disallowed special token '<|endoftext|>'.")
    else inr (map Z.of_N s)
|}.

Definition cfg : config :=
  Config (u "gpt-4o-mini-2024-07-18") (u "gpt-4o-mini") (Fin 0.7) 10.

(** Candidate entries: two confidences out of range, a label outside the
    taxonomy, an entry without confidence, a confidence that is no number. *)
Definition candidates : list json :=
  [ khac (-0.3); khac 1.7;
    validators.label_object (JStr (u "Thể thao")) (JFloat (Fin 0.8));
    JObj [(u "label", JStr (u " Khác "))];
    validators.label_object (JStr (u "Khác")) JNull ].

(** A payload of two labels. *)
Definition payload : list label_pred :=
  [LabelPred (u "Môi trường") (Fin 0.9); LabelPred (u "Khác") (Fin 0.4)].

(** A data set of three rows; the title of the second is too short. *)
Definition article : row :=
  Row (CStr (u "Bảo vệ môi trường biển")) (CStr (u "Mô tả ngắn"))
      (CStr (u "Nội dung bài viết")).

Definition untitled : row :=
  Row (CStr (u "Tin")) (CStr (u "Mô tả ngắn")) (CStr (u "Nội dung bài viết")).

Definition df : list row := [article; untitled; article].

(** A data set whose column of descriptions pandas read as numbers. *)
Definition numbered : list row :=
  [Row (CStr (u "Bảo vệ môi trường biển")) (CNum 1) (CStr (u "Nội dung"));
   Row (CStr (u "Quan trắc chất lượng nước")) (CNum 2) (CStr (u "Nội dung"))].

(** A service that always answers with the text [good]; one that is always
    down; and one that is down for the three attempts of the primary model
    and then answers with a text that is not JSON. *)
Definition always_good : world :=
  World (fun _ => Completion (Some (u "good")) 1000 1000) 0 [].

Definition always_down : world :=
  World (fun _ => ApiFailed (u "Connection error.")) 0 [].

(** A service whose exceptions have no message. *)
Definition always_crashing : world := World (fun _ => Crashed []) 0 [].

Definition down_then_garbled : world :=
  World (fun n => if (n <? 3)%nat then ApiFailed (u "Connection error.")
                  else Completion (Some (u "Sorry, I cannot help.")) 900 12)
        0 [].

(** A second run over [df]: the checkpoint of a complete first run is on
    disk and the command line passes its default start index 0. *)
Definition rerun : batch_processor.state :=
  batch_processor.initial_state
    (Some 0%Z) (Some (Checkpoint.Make 3 0 3 (Some 2%Z))) None always_good.

(** A first run over [df]. *)
Definition first_run : batch_processor.state :=
  batch_processor.initial_state None None None always_good.

(** A run asked to start ten rows before the end of [df]. *)
Definition before_start : batch_processor.state :=
  batch_processor.initial_state (Some (-10)%Z) None None always_good.

(** The first record of the data set, as prepared. *)
Definition first_record : Batch.record :=
  Batch.Record_ 0 (Tieu_de article) (Description article)
                (Noi_dung_tin_bai article).

(** A record whose content is a number, and one whose content holds a
    special token. *)
Definition numeric_record : Batch.record :=
  Batch.Record_ 7 (CStr (u "Quan trắc năm")) (CStr (u "Mô tả ngắn"))
                (CNum 2024).

Definition special_record : Batch.record :=
  Batch.Record_ 8 (CStr (u "Bảo vệ môi trường biển")) (CStr (u "Mô tả ngắn"))
                (CStr (u "Nội dung <|endoftext|> bài viết")).

(** The text [good] inside a markdown fence. *)
Definition fenced : pystr :=
  u "```json" ++ [10%N] ++ u "good" ++ [10%N] ++ u "```".

(** A result log with two outcomes for index 2, the later one a failure. *)
Definition log : list Outcome.t :=
  [ Outcome.Make 0 true
      (Some [LabelPred (u "Môi trường") (Fin 0.9); LabelPred (u "Khác") (Fin 0.125)])
      None
      (Metadata.Make (Some (u "gpt-4o-mini")) (Some 0.0003%Q) (Some []) (Some [])
                     None);
    Outcome.Make 2 true (Some [LabelPred (u "Khác") (Fin 1)]) None
      (Metadata.Make (Some (u "gpt-4o-mini")) (Some 0.0003%Q) (Some []) (Some [])
                     None);
    Outcome.Make 2 false None (Some (u "Invalid response format"))
      Metadata.empty ].

(** A chain of five keys. *)
Definition deep_path : list pystr := [u "a"; u "b"; u "c"; u "d"; u "e"].

(** The fenced text with white space around it. *)
Definition padded_fence : pystr :=
  u " " ++ u "```json" ++ ([10%N] ++ u "good" ++ [10%N]) ++ u "```" ++ [10%N].

(** The third record of the data set, as prepared. *)
Definition third_record : Batch.record :=
  Batch.Record_ 2 (Tieu_de Samples.article) (Description Samples.article)
                (Noi_dung_tin_bai Samples.article).

(** Two contents that differ after their first 2000 characters. *)
Definition long_content : pystr := repeat 97%N 2000 ++ u "b".
Definition longer_content : pystr := repeat 97%N 2000 ++ u "cd".

(** An interpreter that reads every text as one object: a list under the
    known key [data], and a label array below another key. *)
Definition wrapped : json :=
  JObj [(u "result", JObj [(u "x", JArr [Samples.khac 0.4])]);
        (u "data", JArr [Samples.khac 0.9])].

Definition wrapping : PyRuntime := {|
  json_loads := fun _ => inr wrapped;
  float_of_str := fun _ => None;
  repr_list := fun _ => [];
  str_of_number := fun _ => [];
  type_of_number := fun _ => [];
  tiktoken_encode := fun _ => inr []
|}.

End Samples.

(* ===================================================================== *)
(** * Properties *)
(* ===================================================================== *)

(** ** Floats *)

Lemma Qle_bool_false (p q : Q) : Qle_bool p q = false <-> (q < p)%Q.
Proof.
  split; intros Hq.
  - apply Qnot_le_lt. intros Hle. apply Qle_bool_iff in Hle. congruence.
  - destruct (Qle_bool p q) eqn:E; [|done].
    apply Qle_bool_iff in E. exfalso. apply (Qlt_not_le _ _ Hq E).
Qed.

Lemma clamp_clamped (x : pyfloat) : Spec.clamped x (validators.clamp x).
Proof.
  destruct x as [q| | |]; try reflexivity.
  unfold Spec.clamped, validators.clamp, Float.min, Float.max, Float.ltb.
  destruct (Qle_bool 1 q) eqn:E1; simpl.
  - apply Qle_bool_iff in E1.
    destruct (Qle_bool q 1) eqn:E2.
    + apply Qle_bool_iff in E2. right; right. split; [lra|].
      exists 1%Q. split; [done|lra].
    + apply Qle_bool_false in E2. right; left. done.
  - apply Qle_bool_false in E1.
    destruct (Qle_bool q 0) eqn:E3; simpl.
    + apply Qle_bool_iff in E3.
      destruct (Qlt_le_dec q 0) as [Hlt|Hge]; [left; done|].
      right; right. split; [lra|]. exists 0%Q. split; [done|lra].
    + apply Qle_bool_false in E3. right; right. split; [lra|].
      exists q. split; [done|reflexivity].
Qed.

Lemma clamped_in_unit (x y : pyfloat) : Spec.clamped x y -> Float.in_unit y.
Proof.
  destruct x as [q| | |]; simpl.
  - intros [[_ ->]|[[_ ->]|[Hq (q' & -> & Hq')]]]; simpl; lra.
  - intros ->; simpl; lra.
  - intros ->; simpl; lra.
  - intros ->; simpl; lra.
Qed.

Lemma clamp_in_unit (x : pyfloat) : Float.in_unit (validators.clamp x).
Proof. eapply clamped_in_unit, clamp_clamped. Qed.

(** ** Label validation *)

Lemma str_eqb_eq (s t : pystr) : Py.eqb s t = true <-> s = t.
Proof. unfold Py.eqb. apply bool_decide_eq_true. Qed.

Lemma mem_in_taxonomy (l : pystr) :
  Py.mem l labels.get_label_list = true <-> Spec.in_taxonomy l.
Proof.
  unfold Py.mem, Spec.in_taxonomy. rewrite existsb_exists. split.
  - intros (x & Hx & Heq). apply str_eqb_eq in Heq. by subst.
  - intros Hin. exists l. split; [done|]. by apply str_eqb_eq.
Qed.

Section LabelValidation.
Context `{PyRuntime}.

(** One candidate entry: it is dropped with a warning, or its confidence
    is too large an integer and the conversion raises, or it is kept under
    the rule for its confidence. *)
Lemma validate_label_candidate (item : json) :
  Spec.candidate item ->
  if Py.mem (Spec.trimmed_label item) labels.get_label_list
  then
    if Spec.oversized item
    then validators.validate_label item = Raise overflow_error
    else exists y (warned : bool) w,
        validators.validate_label item
        = Ok (Some (LabelPred (Spec.trimmed_label item) y),
              if warned then Some w else None)
        /\ Spec.confidence_rule item y warned
  else exists w, validators.validate_label item = Ok (None, Some w).
Proof.
  destruct item as [| | | | |?|d]; try done.
  intros Hl. unfold Spec.candidate in Hl.
  unfold validators.validate_label, Spec.trimmed_label.
  assert (Hconf : forall l : pystr,
    if Spec.oversized (JObj d)
    then
      match py_float match Json.get d (u "confidence") with
                     | Some c => c
                     | None => JFloat (Fin 0)
                     end with
      | FloatOk confidence =>
          Ok (Some (LabelPred l (validators.clamp confidence)), None)
      | FloatOverflow => Raise overflow_error
      | _ => Ok (Some (LabelPred l (Fin 0.5)),
                 Some (u "Invalid confidence for '" ++ l
                       ++ u "' - using default 0.5"))
      end = Raise overflow_error
    else
      exists y (warned : bool) w,
        match py_float match Json.get d (u "confidence") with
                       | Some c => c
                       | None => JFloat (Fin 0)
                       end with
        | FloatOk confidence =>
            Ok (Some (LabelPred l (validators.clamp confidence)), None)
        | FloatOverflow => Raise overflow_error
        | _ => Ok (Some (LabelPred l (Fin 0.5)),
                   Some (u "Invalid confidence for '" ++ l
                         ++ u "' - using default 0.5"))
        end = Ok (Some (LabelPred l y), if warned then Some w else None)
        /\ Spec.confidence_rule (JObj d) y warned).
  { intros l. unfold Spec.oversized. cbn [Spec.confidence_field].
    destruct (Json.get d (u "confidence")) as [c|] eqn:Ec.
    - destruct (py_float c) as [x| | |] eqn:Ex; [| | |done].
      + exists (validators.clamp x), false, []. split; [done|].
        eapply Spec.rule_numeric; eauto using clamp_clamped.
      + eexists (Fin 0.5), true, _. split; [done|].
        eapply Spec.rule_default; eauto.
      + eexists (Fin 0.5), true, _. split; [done|].
        eapply Spec.rule_default; eauto.
    - exists (Fin 0), false, []. split; [done|]. by apply Spec.rule_missing. }
  destruct (Json.get d (u "label")) as [[| | | |s| |]|] eqn:El; try done.
  - cbn [bind]. destruct (Py.mem (Py.strip s) labels.get_label_list);
      cbn [negb]; [apply Hconf|eauto].
  - cbn [bind]. change (Py.strip []) with (@nil Py.char).
    destruct (Py.mem [] labels.get_label_list);
      cbn [negb]; [apply Hconf|eauto].
Qed.

Lemma confidence_rule_warned (item : json) (y : pyfloat) (warned : bool) :
  Spec.confidence_rule item y warned -> warned = Spec.not_a_number item.
Proof.
  unfold Spec.not_a_number.
  intros [Hc _ ->|c x Hc Hx _ ->|c Hc Hx _ ->]; rewrite Hc; [done| |].
  - by rewrite Hx.
  - by destruct Hx as [-> | ->].
Qed.

Lemma confidence_rule_in_unit (item : json) (y : pyfloat) (warned : bool) :
  Spec.confidence_rule item y warned -> Float.in_unit y.
Proof.
  intros [_ -> _|c x _ _ Hy _|c _ _ -> _]; simpl; [lra| |lra].
  by eapply clamped_in_unit.
Qed.

(** C6, amended.  Take a list of candidate entries: objects whose label,
    when present, is a string.  When an entry whose trimmed label is in the
    taxonomy has for confidence an integer too large for a float,
    [validate_labels] raises the [OverflowError] of the conversion.
    Otherwise it returns; it keeps, in order and under their trimmed label,
    exactly the entries whose trimmed label is in the taxonomy; it emits one
    warning for each entry dropped and one for each kept entry whose
    confidence is present but does not convert to a float; the confidence
    of a kept entry is the clamp of the given one, or 0.0 when the entry has
    none, or 0.5 when the given one does not convert; in every case it lies
    in [0, 1]. *)
Theorem C6_validate_labels_amended (items : list json) :
  Forall Spec.candidate items ->
  if existsb Spec.oversized (Spec.kept items)
  then validators.validate_labels items = Raise overflow_error
  else
    exists cleaned warnings,
      validators.validate_labels items = Ok (cleaned, warnings)
      /\ map label cleaned = map Spec.trimmed_label (Spec.kept items)
      /\ length warnings = (Spec.drops items + Spec.defaults items)%nat
      /\ Forall2 (fun item p =>
                    Spec.confidence_rule item (confidence p)
                                         (Spec.not_a_number item))
                 (Spec.kept items) cleaned
      /\ Forall (fun p => Float.in_unit (confidence p)) cleaned.
Proof.
  induction 1 as [|item rest Hitem _ IH].
  { exists [], []. repeat split; constructor. }
  pose proof (validate_label_candidate item Hitem) as Hone.
  unfold Spec.kept, Spec.drops, Spec.defaults in *.
  cbn [validators.validate_labels List.filter].
  destruct (Py.mem (Spec.trimmed_label item) labels.get_label_list) eqn:Emem.
  - cbn [existsb]. destruct (Spec.oversized item).
    { by rewrite Hone. }
    destruct Hone as (y & warned & w & -> & Hy). cbn [orb bind].
    destruct (existsb Spec.oversized _).
    { by rewrite IH. }
    destruct IH as (cleaned & warnings & -> & Hlabels & Hwarn & Hrule & Hunit).
    pose proof (confidence_rule_warned _ _ _ Hy) as Hw. subst warned.
    eexists _, _. split; [reflexivity|]. cbn.
    repeat split.
    + by rewrite Hlabels.
    + destruct (Spec.not_a_number item); cbn; rewrite ?length_app, Hwarn; cbn; lia.
    + by constructor.
    + constructor; [|done]. by eapply confidence_rule_in_unit.
  - destruct Hone as (w & ->). cbn [bind].
    destruct (existsb Spec.oversized _).
    { by rewrite IH. }
    destruct IH as (cleaned & warnings & -> & Hlabels & Hwarn & Hrule & Hunit).
    eexists _, _. split; [reflexivity|]. cbn.
    repeat split; try done. by rewrite Hwarn.
Qed.

End LabelValidation.

(** ** Response parsing: what a valid answer contains *)

Lemma in_unit_iff (x : pyfloat) :
  Float.leb (Fin 0) x && Float.leb x (Fin 1) = true <-> Float.in_unit x.
Proof.
  destruct x as [q| | |]; simpl; try (split; [discriminate|tauto]).
  rewrite andb_true_iff, !Qle_bool_iff. tauto.
Qed.

Lemma clamp_same_value (x : pyfloat) :
  Float.in_unit x -> Spec.same_value (validators.clamp x) x.
Proof.
  intros Hx. pose proof (clamp_clamped x) as Hc.
  destruct x as [q| | |]; try done. simpl in Hx, Hc.
  destruct Hc as [[? _]|[[? _]|[_ (q' & -> & Hq)]]]; [lra|lra|done].
Qed.

Section ResponseParsing.
Context `{PyRuntime}.

Lemma check_items_checked (labels_data : list json) (i : nat) :
  validators.check_items i labels_data = Ok None ->
  Forall Spec.checked_item labels_data.
Proof.
  revert i. induction labels_data as [|item rest IH]; intros i Hcheck.
  { constructor. }
  cbn [validators.check_items] in Hcheck.
  destruct item as [| | | | | |d]; try discriminate.
  destruct (Json.has d (u "label")) eqn:El; [|discriminate].
  destruct (Json.get d (u "confidence")) as [c|] eqn:Ec; [|discriminate].
  destruct (py_float c) as [x| | |] eqn:Ex; try discriminate.
  destruct (Float.leb (Fin 0) x && Float.leb x (Fin 1)) eqn:Er; [|discriminate].
  cbn [negb] in Hcheck. constructor; [|by eapply IH].
  exists d, c, x. repeat split; try done. by apply in_unit_iff.
Qed.

Lemma validate_parsed_valid (parsed : json) (items : option (list json))
    (msg : pystr) :
  validators.validate_parsed parsed = Ok (true, items, msg) ->
  exists l, items = Some l /\ validators.check_items 0 l = Ok None.
Proof.
  unfold validators.validate_parsed.
  match goal with |- bind ?a _ = _ -> _ => destruct a as [[m|l]|e] end;
    cbn [bind]; try discriminate.
  destruct (validators.check_items 0 l) as [[m|]|e] eqn:Ec;
    cbn [bind]; try discriminate.
  intros [= <- _]. eauto.
Qed.

Lemma validate_json_response_valid (response : option pystr)
    (items : option (list json)) (msg : pystr) :
  validators.validate_json_response response = (true, items, msg) ->
  exists l, items = Some l /\ validators.check_items 0 l = Ok None.
Proof.
  unfold validators.validate_json_response.
  destruct response as [response|]; [|discriminate].
  destruct (json_loads _) as [e|parsed]; [discriminate|].
  destruct (validators.validate_parsed parsed) as [r|e] eqn:Ep; [|discriminate].
  intros ->. by eapply validate_parsed_valid.
Qed.

(** An item whose confidence converts to a float outside [0, 1] stops the
    check with the diagnostic of its position. *)
Lemma check_items_out_of_range (before after : list json) (d : Json.dict)
    (c : json) (x : pyfloat) (i : nat) :
  Forall Spec.checked_item before ->
  Json.has d (u "label") = true ->
  Json.get d (u "confidence") = Some c ->
  py_float c = FloatOk x ->
  ~ Float.in_unit x ->
  validators.check_items i (before ++ JObj d :: after)
  = Ok (Some (validators.message_item (i + length before)
                " confidence must be between 0.0 and 1.0")).
Proof.
  intros Hbefore Hl Hc Hx Hout. revert i.
  induction Hbefore as [|item before Hitem _ IH]; intros i.
  - cbn [app validators.check_items length]. rewrite Hl, Hc, Hx. cbn [negb].
    destruct (Float.leb (Fin 0) x && Float.leb x (Fin 1)) eqn:Er.
    + apply in_unit_iff in Er. done.
    + cbn [negb]. by rewrite Nat.add_0_r.
  - destruct Hitem as (d' & c' & x' & -> & Hl' & Hc' & Hx' & Hin).
    cbn [app validators.check_items length]. rewrite Hl', Hc', Hx'. cbn [negb].
    apply in_unit_iff in Hin. rewrite Hin. cbn [negb].
    rewrite IH. do 3 f_equal. lia.
Qed.

Lemma validate_json_response_parsed (response : pystr) (parsed : json)
    (r : bool * option (list json) * pystr) :
  json_loads (validators.clean_response response) = inr parsed ->
  validators.validate_parsed parsed = Ok r ->
  validators.validate_json_response (Some response) = r.
Proof.
  intros Hloads Hparsed. unfold validators.validate_json_response.
  by rewrite Hloads, Hparsed.
Qed.

(** C9.  When [validate_json_response] answers [is_valid = true], the list
    it returns consists of objects that have a label and a confidence, and
    the confidence converts to a float of [0, 1], which the clamp of
    [validate_labels] leaves as it is.  A response that is a direct array
    with an item whose confidence converts to a float outside [0, 1]
    (after items that pass) is refused with the diagnostic of that item. *)
Theorem C9_valid_response_items_in_range :
  (forall (response : option pystr) (items : option (list json)) (msg : pystr),
      validators.validate_json_response response = (true, items, msg) ->
      exists l,
        items = Some l
        /\ Forall Spec.checked_item l
        /\ Forall (fun item => forall c x,
                     Spec.confidence_field item = Some c ->
                     py_float c = FloatOk x ->
                     Float.in_unit x
                     /\ Spec.same_value (validators.clamp x) x) l)
  /\ (forall (response : pystr) (before after : list json) (d : Json.dict)
             (c : json) (x : pyfloat),
         json_loads (validators.clean_response response)
         = inr (JArr (before ++ JObj d :: after)) ->
         Forall Spec.checked_item before ->
         Json.has d (u "label") = true ->
         Json.get d (u "confidence") = Some c ->
         py_float c = FloatOk x ->
         ~ Float.in_unit x ->
         validators.validate_json_response (Some response)
         = (false, None,
            validators.message_item (length before)
              " confidence must be between 0.0 and 1.0")).
Proof.
  split.
  - intros response items msg Hvalid.
    destruct (validate_json_response_valid _ _ _ Hvalid) as (l & -> & Hcheck).
    apply check_items_checked in Hcheck.
    exists l. repeat split; [done|].
    eapply Forall_impl; [exact Hcheck|].
    intros item (d & c & x & -> & _ & Hc & Hx & Hin) c' x' Hc' Hx'.
    simpl in Hc'. rewrite Hc in Hc'. injection Hc' as <-.
    rewrite Hx in Hx'. injection Hx' as <-.
    split; [done|]. by apply clamp_same_value.
  - intros response before after d c x Hloads Hbefore Hl Hc Hx Hout.
    eapply validate_json_response_parsed; [exact Hloads|].
    unfold validators.validate_parsed. cbn [bind].
    by rewrite (check_items_out_of_range before after d c x 0).
Qed.

End ResponseParsing.

(** ** Record preparation *)

Lemma lstrip_length (s : pystr) : (length (Py.lstrip s) <= length s)%nat.
Proof.
  induction s as [|c s IH]; cbn; [lia|]. destruct (Py.isspace c); cbn; lia.
Qed.

Lemma strip_length (s : pystr) : (length (Py.strip s) <= length s)%nat.
Proof.
  unfold Py.strip, Py.rstrip. rewrite length_rev.
  etransitivity; [apply lstrip_length|]. rewrite length_rev.
  apply lstrip_length.
Qed.

Section RecordPreparation.
Context `{PyRuntime}.

Lemma is_blank_text (s : pystr) :
  validators.is_blank (CStr s) = Ok (Py.eqb (Py.strip s) []).
Proof.
  unfold validators.is_blank, validators.truthy, validators.cell_strip.
  destruct (Py.eqb s []) eqn:E; cbn; [|done].
  apply str_eqb_eq in E. by subst.
Qed.

(** A record passes only if its three cells are texts that are not blank
    and its trimmed title has five characters or more. *)
Lemma validate_text_record_passes (title description content : cell)
    (errors : list pystr) :
  validators.validate_text_record title description content = Ok (true, errors) ->
  exists t d c,
    title = CStr t /\ description = CStr d /\ content = CStr c
    /\ Py.strip t <> [] /\ Py.strip d <> [] /\ Py.strip c <> []
    /\ (5 <= length (Py.strip t))%nat.
Proof.
  unfold validators.validate_text_record.
  destruct title as [t|q].
  2:{ unfold validators.is_blank at 1, validators.cell_strip.
      destruct (negb (validators.truthy (CNum q))); cbn [bind]; [|discriminate].
      destruct (validators.is_blank description); cbn [bind]; [|discriminate].
      destruct (validators.is_blank content); cbn [bind]; discriminate. }
  rewrite is_blank_text. cbn [bind].
  destruct description as [d|q].
  2:{ unfold validators.is_blank at 1, validators.cell_strip.
      destruct (negb (validators.truthy (CNum q))); cbn [bind]; [|discriminate].
      destruct (validators.is_blank content); cbn [bind]; [|discriminate].
      destruct (Py.eqb (Py.strip t) []), (length (Py.strip t) <? 5)%nat;
        cbn; try destruct a; discriminate. }
  rewrite is_blank_text. cbn [bind].
  destruct content as [c|q].
  2:{ unfold validators.is_blank at 1, validators.cell_strip.
      destruct (negb (validators.truthy (CNum q))); cbn [bind]; [|discriminate].
      destruct (Py.eqb (Py.strip t) []), (Py.eqb (Py.strip d) []),
        (length (Py.strip t) <? 5)%nat; cbn; discriminate. }
  rewrite is_blank_text. cbn [bind validators.cell_strip].
  destruct (Py.eqb (Py.strip t) []) eqn:Et, (Py.eqb (Py.strip d) []) eqn:Ed,
    (Py.eqb (Py.strip c) []) eqn:Ec, (length (Py.strip t) <? 5)%nat eqn:El;
    cbn; try discriminate.
  intros _. exists t, d, c. repeat split; try done.
  - intros E. apply str_eqb_eq in E. congruence.
  - intros E. apply str_eqb_eq in E. congruence.
  - intros E. apply str_eqb_eq in E. congruence.
  - apply Nat.ltb_ge in El. done.
Qed.

Lemma rejected_not_passes (r : row) : Spec.rejected r -> ~ Spec.passes r.
Proof.
  intros Hrej [errors Hpass].
  apply validate_text_record_passes in Hpass
    as (t & d & c & Ht & Hd & Hc & Hnt & Hnd & Hnc & Hlen).
  unfold Spec.rejected, Spec.blank, Spec.short_title in Hrej.
  rewrite Ht, Hd, Hc in Hrej.
  destruct Hrej as [?|[?|[?|Hshort]]]; try done.
  pose proof (strip_length t). lia.
Qed.

Lemma prepare_records_passes (df : list row) (idxs : list Z)
    (batch : list Batch.record) :
  data_processor.prepare_records df idxs = Ok batch ->
  Forall (fun data =>
            exists r, data_processor.iloc df (Batch.index data) = Ok r
                      /\ data = Batch.Record_ (Batch.index data) (Tieu_de r)
                                  (Description r) (Noi_dung_tin_bai r)
                      /\ Spec.passes r /\ In (Batch.index data) idxs) batch.
Proof.
  revert batch. induction idxs as [|idx idxs IH]; intros batch; cbn.
  { intros [= <-]. constructor. }
  unfold data_processor.prepare_record.
  destruct (data_processor.iloc df idx) as [r|e] eqn:Er; cbn [bind]; [|discriminate].
  destruct (data_processor.prepare_records df idxs) as [rest|e] eqn:Erest.
  2:{ destruct (validators.validate_text_record _ _ _) as [[[] ?]|]; discriminate. }
  specialize (IH rest eq_refl).
  assert (Hrest : Forall (fun data =>
            exists r, data_processor.iloc df (Batch.index data) = Ok r
                      /\ data = Batch.Record_ (Batch.index data) (Tieu_de r)
                                  (Description r) (Noi_dung_tin_bai r)
                      /\ Spec.passes r /\ In (Batch.index data) (idx :: idxs)) rest).
  { eapply Forall_impl; [exact IH|]. intros data (r' & ? & ? & ? & ?).
    exists r'. repeat split; try done. by right. }
  destruct (validators.validate_text_record _ _ _) as [[[] errors]|] eqn:Ev;
    cbn [bind option_list app]; intros [= <-]; try done.
  constructor; [|done]. exists r. cbn. repeat split; try done.
  - by exists errors.
  - by left.
Qed.

End RecordPreparation.

(** ** The client: effects on the outside *)

Lemma grows_refl (P : event -> Prop) (w : world) : Spec.grows P w w.
Proof. split; [done|]. exists []. by rewrite app_nil_r. Qed.

Lemma grows_trans (P : event -> Prop) (w1 w2 w3 : world) :
  Spec.grows P w1 w2 -> Spec.grows P w2 w3 -> Spec.grows P w1 w3.
Proof.
  intros [Hr1 (e1 & Ht1 & Hp1)] [Hr2 (e2 & Ht2 & Hp2)]. split; [congruence|].
  exists (e1 ++ e2). rewrite Ht2, Ht1, app_assoc. split; [done|].
  by apply Forall_app.
Qed.

Lemma grows_impl (P Q : event -> Prop) (w w' : world) :
  (forall ev, P ev -> Q ev) -> Spec.grows P w w' -> Spec.grows Q w w'.
Proof.
  intros HPQ [Hr (evs & Ht & Hp)]. split; [done|]. exists evs. split; [done|].
  eapply Forall_impl; eauto.
Qed.

Lemma grows_sleep (P : event -> Prop) (seconds : Z) (w : world) :
  P (Sleep seconds) -> Spec.grows P w (sleep seconds w).
Proof. intros HP. split; [done|]. exists [Sleep seconds]. split; [done|]. by constructor. Qed.

Lemma retry_grows {A} (P : event -> Prop) (f : world -> result A * world)
    (backoff : Z) :
  (forall seconds, P (Sleep seconds)) ->
  (forall w, Spec.grows P w (snd (f w))) ->
  forall tries delay w, Spec.grows P w (snd (retry tries delay backoff f w)).
Proof.
  intros Hsleep Hf. induction tries as [|tries IH]; intros delay w; cbn.
  { apply grows_refl. }
  specialize (Hf w). destruct (f w) as [[a|e] w']; cbn in *; [done|].
  destruct tries as [|tries]; [done|].
  eapply grows_trans; [exact Hf|]. eapply grows_trans; [|apply IH].
  by apply grows_sleep.
Qed.

Section ClientEffects.
Context `{PyRuntime}.
Variable cfg : config.

Lemma api_attempt_grows (t d c : cell) (model : pystr) (w : world) :
  Spec.grows (Spec.calls_for t d c) w (snd (api_client.api_attempt cfg t d c model w)).
Proof.
  unfold api_client.api_attempt.
  destruct (replies w (calls w)); cbn; (split; [done|]).
  - eexists [_]. split; [done|]. by repeat constructor.
  - eexists [_; _]. split; [cbn; by rewrite <- app_assoc|]. by repeat constructor.
  - eexists [_]. split; [done|]. by repeat constructor.
  - eexists [_]. split; [done|]. by repeat constructor.
Qed.

Lemma call_and_validate_grows (t d c : cell) (model : pystr) (w : world) :
  Spec.grows (Spec.calls_for t d c) w
        (snd (api_client.call_and_validate cfg t d c model w)).
Proof.
  unfold api_client.call_and_validate, api_client._make_api_call.
  pose proof (retry_grows (Spec.calls_for t d c)
                (api_client.api_attempt cfg t d c model)
                2 (fun _ => I) (api_attempt_grows t d c _) 3 1 w) as Hg.
  destruct (retry 3 1 2 _ w) as [[[[resp model_used]|]|e] w']; cbn in *; try done.
  destruct (validators.validate_json_response _) as [[[] parsed] msg]; [|done].
  destruct (validators.validate_labels _) as [[cleaned warnings]|e]; [|done].
  by destruct (validators.check_response_quality _ _).
Qed.

(** What [classify_text] does, by the three ways it can end: the prompt
    raises; the token count raises; the service is called. *)
Lemma classify_text_cases (t d c : cell) (use_fallback : bool) (w : world) :
  (exists e, api_client.classification_prompt t d c = Raise e
             /\ api_client.classify_text cfg t d c use_fallback w
                = (Raise e, w))
  \/ (exists prompt e,
        api_client.classification_prompt t d c = Ok prompt
        /\ api_client.count_input_tokens (api_client.messages prompt)
           = Raise e
        /\ api_client.classify_text cfg t d c use_fallback w
           = (Ok (false, api_client.failure (exn_text e) None None), w))
  \/ (exists prompt n,
        api_client.classification_prompt t d c = Ok prompt
        /\ api_client.count_input_tokens (api_client.messages prompt) = Ok n
        /\ api_client.classify_text cfg t d c use_fallback w
           = (Ok (fst (api_client.call_and_validate cfg t d c
                         (if use_fallback
                          then api_client.self_fallback_model cfg
                          else api_client.self_model cfg) w)),
              snd (api_client.call_and_validate cfg t d c
                     (if use_fallback
                      then api_client.self_fallback_model cfg
                      else api_client.self_model cfg) w))).
Proof.
  unfold api_client.classify_text.
  destruct (api_client.classification_prompt t d c) as [prompt|e].
  2:{ left. by exists e. }
  right.
  destruct (api_client.count_input_tokens _) as [n|e] eqn:En.
  2:{ left. by exists prompt, e. }
  right. exists prompt, n. split; [done|]. split; [done|].
  by destruct (api_client.call_and_validate _ _ _ _ _ _).
Qed.

Lemma classify_text_grows (t d c : cell) (use_fallback : bool) (w : world) :
  Spec.grows (Spec.calls_for t d c) w
        (snd (api_client.classify_text cfg t d c use_fallback w)).
Proof.
  destruct (classify_text_cases t d c use_fallback w)
    as [(e & _ & ->)|[(prompt & e & _ & _ & ->)|(prompt & n & _ & _ & ->)]];
    cbn [snd]; [apply grows_refl|apply grows_refl|].
  apply call_and_validate_grows.
Qed.

Lemma classify_record_grows (data : Batch.record) (w : world) :
  Spec.grows (Spec.calls_for (Batch.title data) (Batch.description data)
                   (Batch.content data))
        w (snd (api_client.classify_record cfg data w)).
Proof.
  unfold api_client.classify_record.
  pose proof (classify_text_grows (Batch.title data) (Batch.description data)
                (Batch.content data) false w) as H1.
  destruct (api_client.classify_text cfg _ _ _ false w) as [[[[] res]|e] w1];
    cbn in *; [done| |done].
  pose proof (classify_text_grows (Batch.title data) (Batch.description data)
                (Batch.content data) true w1) as H2.
  destruct (api_client.classify_text cfg _ _ _ true w1) as [[[[] res2]|e] w2];
    cbn in *; by eapply grows_trans.
Qed.

Lemma success_entry_index (index : Z) (res : Result.t)
    (used_fallback : option bool) (entry : Outcome.t) :
  api_client.success_entry index res used_fallback = Ok entry ->
  Outcome.index entry = index /\ Outcome.success entry = true.
Proof.
  unfold api_client.success_entry, py_item.
  destruct (Result.labels res), (Result.model_used res), (Result.cost res);
    cbn; try discriminate.
  by intros [= <-].
Qed.

Lemma classify_record_index (data : Batch.record) (w w1 : world)
    (entry : Outcome.t) :
  api_client.classify_record cfg data w = (Ok entry, w1) ->
  Outcome.index entry = Batch.index data.
Proof.
  unfold api_client.classify_record.
  destruct (api_client.classify_text cfg _ _ _ false w) as [[[[] res]|e] w'];
    [| |discriminate].
  { intros [= Hentry _]. by apply success_entry_index in Hentry as []. }
  destruct (api_client.classify_text cfg _ _ _ true w') as [[[[] res2]|e] w2];
    [| |discriminate].
  { intros [= Hentry _]. by apply success_entry_index in Hentry as []. }
  by intros [= <- _].
Qed.

(** [classify_batch] returns one entry for each record, in order and under
    the index of the record, and touches the outside for these records
    only. *)
Lemma classify_batch_entries (batch : list Batch.record) (w : world) :
  map Outcome.index (fst (api_client.classify_batch cfg batch w))
  = map Batch.index batch
  /\ Spec.grows (Spec.about batch) w (snd (api_client.classify_batch cfg batch w)).
Proof.
  revert w. induction batch as [|data rest IH]; intros w; cbn.
  { split; [done|apply grows_refl]. }
  pose proof (classify_record_grows data w) as H1.
  pose proof (classify_record_index data w) as Hi.
  destruct (api_client.classify_record cfg data w) as [r w1]; cbn in H1.
  assert (Hdata : forall ev,
    Spec.calls_for (Batch.title data) (Batch.description data) (Batch.content data) ev
    -> Spec.about (data :: rest) ev).
  { intros [m t d c|]; [|done]. intros (-> & -> & ->).
    exists data. repeat split. by left. }
  assert (Hrest : forall ev, Spec.about rest ev -> Spec.about (data :: rest) ev).
  { intros [m t d c|]; [|done]. intros (x & Hin & ?). exists x. split; [by right|done]. }
  apply (grows_impl _ _ _ _ Hdata) in H1.
  destruct r as [entry|e].
  - specialize (Hi w1 entry eq_refl).
    set (w2 := match rest with [] => w1 | _ :: _ => sleep 1 w1 end).
    assert (Hw2 : Spec.grows (Spec.about (data :: rest)) w1 w2).
    { subst w2. destruct rest; [apply grows_refl|by apply grows_sleep]. }
    destruct (IH w2) as [Hidx Hg].
    destruct (api_client.classify_batch cfg rest w2) as [entries w3].
    cbn in *. split; [by f_equal|].
    eapply grows_trans; [exact H1|]. eapply grows_trans; [exact Hw2|].
    by eapply grows_impl.
  - destruct (IH w1) as [Hidx Hg].
    destruct (api_client.classify_batch cfg rest w1) as [entries w3].
    cbn in *. split; [by f_equal|].
    eapply grows_trans; [exact H1|]. by eapply grows_impl.
Qed.

End ClientEffects.

(** ** Rejected rows never reach the client *)

Section RejectedRows.
Context `{PyRuntime}.
Variable cfg : config.

(** C7.  A row that the specification rejects (a blank title, description
    or content, or a title of fewer than five characters) does not pass
    [validate_text_record].  Every record that [process_batch] returns is
    a row of the data frame that passes it; so a rejected row is in no
    batch, [classify_batch] returns no entry under its index, and every
    call to the service is made for a record of the batch. *)
Theorem C7_rejected_rows_excluded (df : list row) (start_idx batch_size : Z)
    (batch : list Batch.record) (w : world) :
  data_processor.process_batch df start_idx batch_size = Ok batch ->
  Forall (fun data =>
            exists r, data_processor.iloc df (Batch.index data) = Ok r
                      /\ data = Batch.Record_ (Batch.index data) (Tieu_de r)
                                  (Description r) (Noi_dung_tin_bai r)
                      /\ Spec.passes r /\ ~ Spec.rejected r) batch
  /\ (forall idx r,
         data_processor.iloc df idx = Ok r -> Spec.rejected r ->
         ~ In idx (map Batch.index batch)
         /\ ~ In idx (map Outcome.index
                        (fst (api_client.classify_batch cfg batch w))))
  /\ Spec.grows (Spec.about batch) w (snd (api_client.classify_batch cfg batch w)).
Proof.
  intros Hbatch. apply prepare_records_passes in Hbatch.
  destruct (classify_batch_entries cfg batch w) as [Hidx Hgrows].
  assert (Hexcluded : forall idx r,
    data_processor.iloc df idx = Ok r -> Spec.rejected r ->
    ~ In idx (map Batch.index batch)).
  { intros idx r Hr Hrej Hin. apply in_map_iff in Hin as (data & <- & Hin).
    rewrite Forall_forall in Hbatch.
    apply list_elem_of_In, Hbatch in Hin as (r' & Hr' & _ & Hpass & _).
    rewrite Hr in Hr'. injection Hr' as <-.
    by apply (rejected_not_passes r). }
  split; [|split; [|done]].
  - eapply Forall_impl; [exact Hbatch|].
    intros data (r & Hr & Hdata & Hpass & _). exists r. repeat split; try done.
    intros Hrej. by apply (rejected_not_passes r).
  - intros idx r Hr Hrej. split; [by eapply Hexcluded|].
    rewrite Hidx. by eapply Hexcluded.
Qed.

End RejectedRows.

(** ** The client: results of one classification *)

Lemma no_attribute_text (v : pystr) (attr : string) :
  exn_text (no_attribute v attr) <> [].
Proof. unfold no_attribute. cbn. discriminate. Qed.

Section ClientResults.
Context `{PyRuntime}.
Variable cfg : config.

Lemma validate_labels_raise_text (labels_data : list json) (e : exn) :
  validators.validate_labels labels_data = Raise e -> exn_text e <> [].
Proof.
  induction labels_data as [|item rest IH]; cbn; [discriminate|].
  destruct (validators.validate_label item) as [r|e'] eqn:Ei; cbn [bind].
  - destruct (validators.validate_labels rest); cbn [bind]; [discriminate|].
    intros [= <-]. by apply IH.
  - intros [= <-]. unfold validators.validate_label in Ei.
    destruct item as [| | | | | |d];
      try (injection Ei as <-; apply no_attribute_text).
    destruct (Json.get d (u "label")) as [[]|]; cbn [bind] in Ei;
      try (injection Ei as <-; apply no_attribute_text).
    + destruct (negb _); [discriminate|].
      destruct (py_float _); try discriminate. by injection Ei as <-.
    + destruct (negb _); [discriminate|].
      destruct (py_float _); try discriminate. by injection Ei as <-.
Qed.

(** An exception that leaves the retried call was raised by an attempt. *)
Lemma retry_raise {A} (I : world -> Prop) (Q : exn -> Prop)
    (f : world -> result A * world) (backoff : Z) :
  (forall w, I w -> I (snd (f w)) /\ forall e, fst (f w) = Raise e -> Q e) ->
  (forall seconds w, I w -> I (sleep seconds w)) ->
  forall tries delay w e,
    I w -> fst (retry tries delay backoff f w) = Raise e -> Q e.
Proof.
  intros Hf Hsleep. induction tries as [|tries IH]; intros delay w e Hw; cbn.
  { discriminate. }
  destruct (Hf w Hw) as [Hw' He]. destruct (f w) as [[a|e'] w']; cbn in *.
  { discriminate. }
  destruct tries as [|tries]; cbn.
  { intros [= <-]. by apply He. }
  apply IH. by apply Hsleep.
Qed.

Lemma api_attempt_raise (t d c : cell) (model : pystr) (w : world) (e : exn) :
  fst (api_client.api_attempt cfg t d c model w) = Raise e ->
  Spec.failure_text (replies w (calls w)) = Some (exn_text e).
Proof.
  unfold api_client.api_attempt.
  destruct (replies w (calls w)); cbn; [discriminate| | |]; by intros [= <-].
Qed.

(** A successful classification carries its labels, model and cost; a
    failed one carries an error text. *)
Lemma call_and_validate_result (t d c : cell) (model : pystr) (w : world) :
  match api_client.call_and_validate cfg t d c model w with
  | ((true, res), _) =>
      exists labels model_used cost,
        Result.labels res = Some labels
        /\ Result.model_used res = Some model_used
        /\ Result.cost res = Some cost
  | ((false, res), _) =>
      exists error,
        Result.error res = Some error
        /\ (Spec.service_describes_failures w -> error <> [])
  end.
Proof.
  unfold api_client.call_and_validate, api_client._make_api_call.
  assert (Hraise : forall e,
    fst (retry 3 1 2 (api_client.api_attempt cfg t d c model) w) = Raise e ->
    Spec.service_describes_failures w -> exn_text e <> []).
  { intros e. apply (retry_raise (fun w' => replies w' = replies w)
      (fun e => Spec.service_describes_failures w -> exn_text e <> [])); [| |done].
    - intros w0 Hw0. split.
      + destruct (api_attempt_grows cfg t d c model w0) as [-> _]. done.
      + intros e0 He0 Hdesc. apply api_attempt_raise in He0.
        rewrite Hw0 in He0. by eapply Hdesc.
    - done. }
  destruct (retry 3 1 2 _ w) as [[[[resp model_used]|]|e] w'] eqn:Er; cbn.
  - destruct (validators.validate_json_response _) as [[[] parsed] msg].
    + destruct (validators.validate_labels _) as [[cleaned warnings]|e] eqn:El.
      * destruct (validators.check_response_quality _ _). cbn.
        by eexists _, _, _.
      * eexists. split; [done|]. intros _.
        by eapply validate_labels_raise_text.
    + eexists. split; [done|]. intros _. cbn. discriminate.
  - eexists. split; [done|]. intros _. cbn. discriminate.
  - eexists. split; [done|]. by apply Hraise.
Qed.

Lemma count_input_tokens_raise (contents : list pystr) (e : exn) :
  api_client.count_input_tokens contents = Raise e ->
  Spec.tokenizer_describes_failures -> exn_text e <> [].
Proof.
  intros He Hdesc. induction contents as [|content rest IH]; [discriminate|].
  cbn in He. unfold cost_calculator.count_tokens in He.
  destruct (tiktoken_encode content) as [message|tokens] eqn:Et; cbn in He.
  { injection He as <-. cbn. by eapply Hdesc. }
  destruct (api_client.count_input_tokens rest); cbn in He; [discriminate|].
  injection He as <-. by apply IH.
Qed.

Lemma classification_prompt_raise (t d c : cell) (e : exn) :
  api_client.classification_prompt t d c = Raise e ->
  exn_class_of e = TypeError /\ exn_text e <> []
  /\ exists q, c = CNum q.
Proof.
  unfold api_client.classification_prompt. destruct c as [s|q]; [discriminate|].
  intros [= <-]. split; [done|]. split; [cbn; discriminate|]. by exists q.
Qed.

(** The result of [classify_text]: a success carries its labels, model and
    cost; a failure carries an error text; an exception is that of the
    prompt, and nothing has been called. *)
Lemma classify_text_result (t d c : cell) (use_fallback : bool) (w : world) :
  match api_client.classify_text cfg t d c use_fallback w with
  | (Ok (true, res), _) =>
      exists labels model_used cost,
        Result.labels res = Some labels
        /\ Result.model_used res = Some model_used
        /\ Result.cost res = Some cost
  | (Ok (false, res), _) =>
      exists error,
        Result.error res = Some error
        /\ (Spec.service_describes_failures w ->
            Spec.tokenizer_describes_failures -> error <> [])
  | (Raise e, w') =>
      w' = w /\ api_client.classification_prompt t d c = Raise e
  end.
Proof.
  destruct (classify_text_cases cfg t d c use_fallback w)
    as [(e & He & ->)|[(prompt & e & _ & He & ->)|(prompt & n & _ & _ & ->)]].
  - done.
  - eexists. split; [done|]. intros _ Hdesc.
    by eapply count_input_tokens_raise.
  - pose proof (call_and_validate_result t d c
                  (if use_fallback then api_client.self_fallback_model cfg
                   else api_client.self_model cfg) w) as Hr.
    destruct (api_client.call_and_validate _ _ _ _ _ _) as [[[] res] w'];
      cbn [fst snd]; [done|].
    destruct Hr as (error & He & Hne). exists error. split; [done|]. auto.
Qed.

(** The [try] body of [classify_batch] raises only when the prompt of the
    record does, before anything is called. *)
Lemma classify_record_cases (data : Batch.record) (w : world) :
  (exists e,
      api_client.classification_prompt (Batch.title data)
        (Batch.description data) (Batch.content data) = Raise e
      /\ api_client.classify_text cfg (Batch.title data)
           (Batch.description data) (Batch.content data) false w
         = (Raise e, w)
      /\ api_client.classify_record cfg data w = (Raise e, w))
  \/ (exists entry w1 s1 r1 w',
        api_client.classify_text cfg (Batch.title data)
          (Batch.description data) (Batch.content data) false w
        = (Ok (s1, r1), w')
        /\ api_client.classify_record cfg data w = (Ok entry, w1)
        /\ if s1 then w1 = w' /\ Outcome.success entry = true
           else exists s2 r2,
                  api_client.classify_text cfg (Batch.title data)
                    (Batch.description data) (Batch.content data) true w'
                  = (Ok (s2, r2), w1)
                  /\ Outcome.success entry = s2
                  /\ (s2 = false ->
                      entry = api_client.failure_entry (Batch.index data)
                                (default (u "Unknown error")
                                         (Result.error r1)))).
Proof.
  unfold api_client.classify_record.
  pose proof (classify_text_result (Batch.title data) (Batch.description data)
                (Batch.content data) false w) as H1.
  destruct (api_client.classify_text cfg _ _ _ false w)
    as [[[[] res]|e] w1] eqn:E1.
  - right. destruct H1 as (l & m & c & Hl & Hm & Hc).
    unfold api_client.success_entry. rewrite Hl, Hm, Hc. cbn.
    by eexists _, w1, true, res, w1.
  - pose proof (classify_text_result (Batch.title data)
                  (Batch.description data) (Batch.content data) true w1) as H2.
    destruct (api_client.classify_text cfg _ _ _ true w1)
      as [[[[] res2]|e] w2] eqn:E2.
    + right. destruct H2 as (l & m & c & Hl & Hm & Hc).
      unfold api_client.success_entry. rewrite Hl, Hm, Hc. cbn.
      eexists _, w2, false, res, w1. split; [done|]. split; [done|].
      by exists true, res2.
    + right. eexists _, w2, false, res, w1. split; [done|]. split; [done|].
      by exists false, res2.
    + destruct H2 as [_ H2].
      destruct (classify_text_cases cfg (Batch.title data)
                  (Batch.description data) (Batch.content data) false w)
        as [(e' & _ & He')|[(p & e' & Hp & _)|(p & n & Hp & _)]];
        congruence.
  - left. destruct H1 as [-> H1]. by exists e.
Qed.

Lemma classify_record_failure (data : Batch.record) (w w' : world)
    (entry : Outcome.t) :
  api_client.classify_record cfg data w = (Ok entry, w') ->
  Outcome.success entry = false ->
  exists e, Outcome.error entry = Some e
            /\ (Spec.service_describes_failures w ->
                Spec.tokenizer_describes_failures -> e <> []).
Proof.
  intros Hrec Hs.
  destruct (classify_record_cases data w)
    as [(e & _ & _ & Hraise)|(entry' & w1 & s1 & r1 & w0 & H1 & Hrec' & Hcase)];
    [congruence|].
  rewrite Hrec in Hrec'. injection Hrec' as <- <-.
  destruct s1.
  { destruct Hcase as [_ Hcase]. congruence. }
  destruct Hcase as (s2 & r2 & _ & Hs2 & Hentry).
  rewrite Hs in Hs2. rewrite (Hentry (eq_sym Hs2)).
  pose proof (classify_text_result (Batch.title data) (Batch.description data)
                (Batch.content data) false w) as Hres.
  rewrite H1 in Hres. destruct Hres as (e & -> & Hne). cbn. eauto.
Qed.

(** The entry of a record: the one its [try] body computed, followed by a
    second of sleep unless the record is the last; or the one of the
    handler, for the exception of the [try] body. *)
Lemma classify_batch_cons (data : Batch.record) (rest : list Batch.record)
    (w : world) :
  api_client.classify_batch cfg (data :: rest) w
  = match api_client.classify_record cfg data w with
    | (Ok entry, w1) =>
        let w2 := match rest with [] => w1 | _ :: _ => sleep 1 w1 end in
        (entry :: fst (api_client.classify_batch cfg rest w2),
         snd (api_client.classify_batch cfg rest w2))
    | (Raise e, w1) =>
        (api_client.failure_entry (Batch.index data) (exn_text e)
         :: fst (api_client.classify_batch cfg rest w1),
         snd (api_client.classify_batch cfg rest w1))
    end.
Proof.
  cbn [api_client.classify_batch].
  destruct (api_client.classify_record cfg data w) as [[entry|e] w1]; cbn zeta.
  - by destruct (api_client.classify_batch cfg rest _).
  - by destruct (api_client.classify_batch cfg rest _).
Qed.

Lemma classify_batch_replies (batch : list Batch.record) (w : world) :
  replies (snd (api_client.classify_batch cfg batch w)) = replies w.
Proof. by destruct (classify_batch_entries cfg batch w) as [_ [-> _]]. Qed.

Lemma classify_batch_failures (batch : list Batch.record) (w0 w : world) :
  replies w = replies w0 ->
  Forall (fun o =>
            Outcome.success o = false ->
            exists e, Outcome.error o = Some e
                      /\ (Spec.service_describes_failures w0 ->
                          Spec.tokenizer_describes_failures -> e <> []))
         (fst (api_client.classify_batch cfg batch w)).
Proof.
  revert w. induction batch as [|data rest IH]; intros w Hw.
  { constructor. }
  rewrite classify_batch_cons.
  pose proof (classify_record_grows cfg data w) as [Hr _].
  destruct (classify_record_cases data w)
    as [(e & He & _ & Hrec)|(entry & w1 & s1 & r1 & w' & _ & Hrec & _)];
    rewrite Hrec in Hr |- *; cbn [fst snd] in Hr |- *.
  - constructor; [|by apply IH].
    intros _. eexists. split; [done|]. intros _ _.
    by apply classification_prompt_raise in He as (_ & ? & _).
  - constructor.
    + intros Hs.
      destruct (classify_record_failure _ _ _ _ Hrec Hs) as (e & He & Hne).
      exists e. split; [done|]. intros Hdesc. apply Hne.
      unfold Spec.service_describes_failures in *. by rewrite Hw.
    + apply IH. destruct rest; cbn; congruence.
Qed.

(** C2.  [classify_batch] returns one entry for each record, in the order
    and under the index of the records: no exception leaves it.  When
    [classify_text] raises for a record, which it does while it builds the
    prompt of a content that is not a text, nothing is called and the
    handler records a failure with the text of the exception.  Otherwise the
    entry of the record is computed by the [try] body: when the primary call
    of [classify_text] succeeds there is no further call; when it fails, the
    fallback call of [classify_text] is made once, and the record succeeds
    exactly if that call does.  An entry with [success = false] has an
    error text; the text is [str(e)] of an exception, and it is not empty
    when the exceptions of the service and of the tokenizer come with a
    description. *)
Theorem C2_classify_batch_escalates_once (batch : list Batch.record) (w : world) :
  map Outcome.index (fst (api_client.classify_batch cfg batch w))
  = map Batch.index batch
  /\ Forall (fun o =>
               Outcome.success o = false ->
               exists e, Outcome.error o = Some e
                         /\ (Spec.service_describes_failures w ->
                             Spec.tokenizer_describes_failures -> e <> []))
            (fst (api_client.classify_batch cfg batch w))
  /\ (forall data rest w0,
         match api_client.classify_text cfg (Batch.title data)
                 (Batch.description data) (Batch.content data) false w0 with
         | (Raise e, w') =>
             w' = w0 /\ exn_class_of e = TypeError /\ exn_text e <> []
             /\ (exists q, Batch.content data = CNum q)
             /\ api_client.classify_batch cfg (data :: rest) w0
                = (api_client.failure_entry (Batch.index data) (exn_text e)
                   :: fst (api_client.classify_batch cfg rest w0),
                   snd (api_client.classify_batch cfg rest w0))
         | (Ok (success, _), w') =>
             exists entry w1,
               api_client.classify_record cfg data w0 = (Ok entry, w1)
               /\ api_client.classify_batch cfg (data :: rest) w0
                  = (entry :: fst (api_client.classify_batch cfg rest
                                match rest with [] => w1 | _ :: _ => sleep 1 w1 end),
                     snd (api_client.classify_batch cfg rest
                            match rest with [] => w1 | _ :: _ => sleep 1 w1 end))
               /\ if success then w1 = w' /\ Outcome.success entry = true
                  else exists success_fallback result_fallback,
                         api_client.classify_text cfg (Batch.title data)
                           (Batch.description data) (Batch.content data)
                           true w'
                         = (Ok (success_fallback, result_fallback), w1)
                         /\ Outcome.success entry = success_fallback
         end).
Proof.
  split; [apply (classify_batch_entries cfg)|].
  split; [by apply classify_batch_failures|].
  intros data rest w0. rewrite classify_batch_cons.
  destruct (classify_record_cases data w0)
    as [(e & He & -> & ->)|(entry & w1 & s1 & r1 & w' & -> & -> & Hcase)].
  - by apply classification_prompt_raise in He as (? & ? & ?).
  - exists entry, w1. split; [done|]. split; [done|].
    destruct s1; [done|].
    destruct Hcase as (s2 & r2 & H2 & Hs & _). by exists s2, r2.
Qed.

(** C10.  When the primary and the fallback call of [classify_text] both
    fail for a record, the entry recorded for it is the failure entry with
    the error text of the primary result; the result of the fallback call
    does not enter it. *)
Theorem C10_primary_error_recorded (data : Batch.record)
    (rest : list Batch.record) (w w1 w2 : world) (r1 r2 : Result.t) :
  api_client.classify_text cfg (Batch.title data) (Batch.description data)
    (Batch.content data) false w = (Ok (false, r1), w1) ->
  api_client.classify_text cfg (Batch.title data) (Batch.description data)
    (Batch.content data) true w1 = (Ok (false, r2), w2) ->
  exists e1,
    Result.error r1 = Some e1
    /\ api_client.classify_record cfg data w
       = (Ok (api_client.failure_entry (Batch.index data) e1), w2)
    /\ head (fst (api_client.classify_batch cfg (data :: rest) w))
       = Some (Outcome.Make (Batch.index data) false None (Some e1)
                            Metadata.empty).
Proof.
  intros H1 H2.
  pose proof (classify_text_result (Batch.title data) (Batch.description data)
                (Batch.content data) false w) as Hres.
  rewrite H1 in Hres. destruct Hres as (e1 & He1 & _).
  assert (Hrec : api_client.classify_record cfg data w
                 = (Ok (api_client.failure_entry (Batch.index data) e1), w2)).
  { unfold api_client.classify_record. rewrite H1, H2, He1. done. }
  exists e1. split; [done|]. split; [done|].
  cbn [api_client.classify_batch]. rewrite Hrec.
  by destruct (api_client.classify_batch cfg rest _).
Qed.

End ClientResults.

(** ** The retried call *)

Section RetriedCall.
Context `{PyRuntime}.
Variable cfg : config.

(** C5.  [_make_api_call] makes between one and three calls of the
    service, stopping at the first that completes; it sleeps 1 second
    after a first failure and 2 seconds after a second one; a rate-limit
    failure is followed at once by a sleep of 60 seconds, before the
    exception is raised again to the retry, also on the third attempt.
    The result is the first completion, or the exception of the third
    attempt. *)
Theorem C5_make_api_call_schedule (t d c : cell) (model : pystr) (w : world) :
  let model_to_use := if Py.eqb model [] then DEFAULT_MODEL cfg else model in
  let r1 := replies w (calls w) in
  let r2 := replies w (S (calls w)) in
  let r3 := replies w (S (S (calls w))) in
  let '(res, w') := api_client._make_api_call cfg t d c model w in
  trace w' = trace w ++ Spec.schedule (Call model_to_use t d c) r1 r2 r3
  /\ calls w' = (calls w + Spec.attempts r1 r2 r3)%nat
  /\ (1 <= Spec.attempts r1 r2 r3 <= 3)%nat
  /\ replies w' = replies w
  /\ match Spec.deciding r1 r2 r3 with
     | Completion content p o =>
         res = Ok (Some (api_client.Response content p o, model_to_use))
     | RateLimited text => res = Raise (Exn RateLimitError text)
     | ApiFailed text => res = Raise (Exn APIError text)
     | Crashed text => res = Raise (Exn OtherError text)
     end.
Proof.
  unfold api_client._make_api_call, api_client.api_attempt,
    api_client.self_model.
  cbn [retry].
  destruct (replies w (calls w)) eqn:E1; cbn;
    rewrite ?E1; cbn;
    try (rewrite <- ?app_assoc; repeat split; (done || lia));
    destruct (replies w (S (calls w))) eqn:E2; cbn;
    rewrite ?E2; cbn;
    try (rewrite <- ?app_assoc; cbn; repeat split; (done || lia));
    destruct (replies w (S (S (calls w)))) eqn:E3; cbn;
    rewrite ?E3; cbn;
    rewrite <- ?app_assoc; cbn; repeat split; (done || lia).
Qed.

End RetriedCall.

(** ** Two decimals *)




(** ** The join of the data set with the result log *)

Lemma results_mapping_lookup (results : list Outcome.t) (idx : Z) :
  batch_processor.results_mapping results !! idx = Spec.authoritative results idx.
Proof.
  unfold batch_processor.results_mapping, Spec.authoritative.
  induction results as [|r results IH] using rev_ind; [done|].
  rewrite foldl_app, filter_app. cbn [foldl].
  rewrite lookup_insert. case_decide as Hidx.
  - rewrite filter_cons_True by done. by rewrite filter_nil, last_snoc.
  - rewrite filter_cons_False by done. by rewrite filter_nil, app_nil_r.
Qed.

Lemma authoritative_in (results : list Outcome.t) (idx : Z) (o : Outcome.t) :
  Spec.authoritative results idx = Some o -> o ∈ results /\ Outcome.index o = idx.
Proof.
  unfold Spec.authoritative. intros Hlast.
  apply last_Some_elem_of in Hlast.
  by apply list_elem_of_filter in Hlast as [? ?].
Qed.

Lemma join_row_joined (results : list Outcome.t) (idx : Z) (r : row) :
  Spec.well_formed_log results ->
  exists fr,
    batch_processor.join_row (batch_processor.results_mapping results) idx r
    = Ok fr
    /\ original fr = r /\ Spec.joined results idx fr.
Proof.
  intros Hwf. unfold batch_processor.join_row, Spec.joined.
  rewrite results_mapping_lookup.
  destruct (Spec.authoritative results idx) as [o|] eqn:Ho.
  2:{ eexists. by repeat split. }
  unfold Spec.joined_with. destruct (Outcome.success o) eqn:Hs.
  2:{ eexists. by repeat split. }
  apply authoritative_in in Ho as [Hin _].
  unfold Spec.well_formed_log in Hwf. rewrite Forall_forall in Hwf.
  destruct (Hwf o Hin Hs) as [entries Hentries].
  rewrite Hentries. cbn. eexists. split; [done|]. split; [done|].
  exists entries. by repeat split.
Qed.

Lemma join_rows_joined (results : list Outcome.t) (rows : list row) (idx : Z) :
  Spec.well_formed_log results ->
  exists out,
    batch_processor.join_rows (batch_processor.results_mapping results) idx rows
    = Ok out
    /\ length out = length rows
    /\ forall (i : nat) (r : row),
         rows !! i = Some r ->
         exists fr, out !! i = Some fr /\ original fr = r
                    /\ Spec.joined results (idx + Z.of_nat i) fr.
Proof.
  intros Hwf. revert idx. induction rows as [|r rows IH]; intros idx.
  { exists []. by repeat split. }
  cbn [batch_processor.join_rows].
  destruct (join_row_joined results idx r Hwf) as (fr & -> & Ho & Hj).
  destruct (IH (idx + 1)%Z) as (out & -> & Hlen & Hrows).
  cbn [bind]. exists (fr :: out). split; [done|]. split; [cbn; lia|].
  intros [|i] r' Hr'.
  - injection Hr' as <-. exists fr. repeat split; try done.
    by rewrite Z.add_0_r.
  - destruct (Hrows i r' Hr') as (fr' & ? & ? & Hj').
    exists fr'. repeat split; try done.
    by replace (idx + Z.of_nat (S i))%Z with (idx + 1 + Z.of_nat i)%Z by lia.
Qed.


(** ** The loop of the orchestrator *)

Section Loop.
Context `{PyRuntime}.
Variable cfg : config.
Variable df : list row.
Variables batch_size end_index : Z.

#[local] Abbreviation turn := (batch_processor.turn cfg df batch_size end_index).
#[local] Abbreviation after := (batch_processor.after cfg df batch_size end_index).
#[local] Abbreviation kind_of := (Spec.kind_of df batch_size end_index).
#[local] Abbreviation widths := (Spec.widths cfg df batch_size end_index).
#[local] Abbreviation width := (Spec.width batch_size).

Lemma after_succ_r (n : nat) (st : batch_processor.state) :
  after (S n) st = after n (turn st).
Proof. unfold batch_processor.after. by rewrite Nat.iter_succ_r. Qed.

Lemma process_batch_nonpositive (start_idx n : Z) :
  (n <= 0)%Z -> data_processor.process_batch df start_idx n = Ok [].
Proof.
  intros Hn. unfold data_processor.process_batch, data_processor.range.
  replace (Z.to_nat _) with 0%nat by lia. done.
Qed.

(** One turn, by its kind. *)
Lemma turn_kind (st : batch_processor.state) :
  match kind_of st with
  | Spec.Classified n =>
      (1 <= n)%nat
      /\ batch_processor.current_index (turn st)
         = (batch_processor.current_index st + Z.of_nat n)%Z
      /\ Spec.lpi (turn st) = batch_processor.current_index (turn st)
      /\ batch_processor.checkpoint_file (turn st)
         = Some (batch_processor.checkpoint (turn st))
      /\ (1 <= batch_size)%Z
  | Spec.NoValidData w =>
      turn st = batch_processor.advance w st
      /\ w = Z.min batch_size (end_index - batch_processor.current_index st)
      /\ (batch_processor.current_index st < end_index)%Z
  | Spec.Skipped => turn st = batch_processor.advance batch_size st
  | Spec.Ended => turn st = st
  end.
Proof.
  unfold Spec.kind_of, batch_processor.turn, batch_processor.batch_iteration,
    batch_processor.try_body.
  destruct (batch_processor.current_index st <? end_index)%Z eqn:Hrun; [|done].
  apply Z.ltb_lt in Hrun.
  destruct (Z_le_gt_dec batch_size 0) as [Hbs|Hbs].
  { rewrite process_batch_nonpositive by lia. done. }
  destruct (data_processor.process_batch _ _ _) as [[|data rest]|e]; try done.
  destruct (api_client.classify_batch _ _ _) as [batch_results w].
  cbn. repeat split; lia.
Qed.

Lemma turn_current_index (st : batch_processor.state) :
  batch_processor.current_index (turn st)
  = (batch_processor.current_index st + width (kind_of st))%Z.
Proof.
  pose proof (turn_kind st) as Hk.
  destruct (kind_of st) as [n|w| |]; cbn.
  - by destruct Hk as (_ & -> & _).
  - by destruct Hk as [-> _].
  - by rewrite Hk.
  - rewrite Hk. lia.
Qed.

Lemma after_current_index (n : nat) (st0 : batch_processor.state) :
  batch_processor.current_index (after n st0)
  = (batch_processor.current_index st0 + Spec.total (widths n st0))%Z.
Proof.
  revert st0. induction n as [|n IH]; intros st0.
  { cbn. lia. }
  rewrite after_succ_r, IH, turn_current_index.
  cbn [Spec.widths]. unfold Spec.total. cbn [foldr]. lia.
Qed.

(** The checkpoint stays at or behind the position of the loop. *)
Lemma after_lpi_behind (n : nat) (st0 : batch_processor.state) :
  (1 <= batch_size)%Z ->
  (Spec.lpi st0 <= batch_processor.current_index st0)%Z ->
  (Spec.lpi (after n st0) <= batch_processor.current_index (after n st0))%Z.
Proof.
  intros Hbs. induction n as [|n IH]; intros H0; [done|].
  specialize (IH H0). change (after (S n) st0) with (turn (after n st0)).
  set (st := after n st0) in *.
  pose proof (turn_kind st) as Hk. pose proof (turn_current_index st) as Hc.
  destruct (kind_of st) as [k|w| |]; cbn in Hc.
  - destruct Hk as (_ & _ & -> & _). lia.
  - destruct Hk as (Hst & Hw & Hrun). rewrite Hc. rewrite Hst.
    unfold Spec.lpi in *. cbn. lia.
  - rewrite Hc, Hk. unfold Spec.lpi in *. cbn. lia.
  - by rewrite Hk.
Qed.

Lemma turn_running (st : batch_processor.state) :
  (batch_processor.current_index st < end_index)%Z ->
  turn st = batch_processor.batch_iteration cfg df batch_size end_index st.
Proof.
  intros Hrun. unfold batch_processor.turn.
  by apply Z.ltb_lt in Hrun as ->.
Qed.

(** With a positive batch size every turn moves forward, so the loop ends:
    the fuel [end_index - current_index] is enough, and the final state is
    the state after some number of turns. *)
Lemma while_loop_terminates (fuel : nat) (st : batch_processor.state) :
  (1 <= batch_size)%Z ->
  (end_index - batch_processor.current_index st <= Z.of_nat fuel)%Z ->
  exists st' n,
    batch_processor.while_loop cfg df batch_size end_index fuel st = Some st'
    /\ st' = after n st
    /\ (end_index <= batch_processor.current_index st')%Z.
Proof.
  intros Hbs. revert st. induction fuel as [|fuel IH]; intros st Hfuel.
  - cbn. destruct (batch_processor.current_index st <? end_index)%Z eqn:Hrun.
    { apply Z.ltb_lt in Hrun. lia. }
    apply Z.ltb_ge in Hrun. exists st, 0%nat. by repeat split.
  - cbn [batch_processor.while_loop].
    destruct (batch_processor.current_index st <? end_index)%Z eqn:Hrun.
    2:{ apply Z.ltb_ge in Hrun. exists st, 0%nat. by repeat split. }
    apply Z.ltb_lt in Hrun. rewrite <- (turn_running st Hrun).
    pose proof (turn_kind st) as Hk. pose proof (turn_current_index st) as Hc.
    destruct (IH (turn st)) as (st' & n & Hloop & Hafter & Hend).
    { rewrite Hc. destruct (kind_of st) as [k|w| |] eqn:Ek; cbn.
      - destruct Hk as (? & _). lia.
      - destruct Hk as (_ & -> & _). lia.
      - lia.
      - unfold Spec.kind_of in Ek. apply Z.ltb_lt in Hrun. rewrite Hrun in Ek.
        by destruct (data_processor.process_batch _ _ _) as [[|]|]. }
    exists st', (S n). repeat split; try done. by rewrite after_succ_r.
Qed.

(** C1, amended.  After every turn, [current_index] is the start index
    plus the widths of the turns so far (the number of valid records for a
    batch that is classified, the width of the slice when it holds no valid
    record, [batch_size] for a batch that is skipped).  A turn that
    classifies a batch writes the checkpoint, with [last_processed_index]
    equal to the new [current_index], whatever the outcomes of the records;
    any other turn leaves the checkpoint and its file as they are.
    [last_processed_index] does not decrease in a run that starts at or
    after the loaded checkpoint. *)
Theorem C1_checkpoint_follows_classified_batches
    (st0 : batch_processor.state) (n : nat) :
  let st := after n st0 in
  let st' := after (S n) st0 in
  batch_processor.current_index st'
  = (batch_processor.current_index st0 + Spec.total (widths (S n) st0))%Z
  /\ match kind_of st with
     | Spec.Classified k =>
         (1 <= k)%nat
         /\ Spec.lpi st' = batch_processor.current_index st'
         /\ batch_processor.checkpoint_file st'
            = Some (batch_processor.checkpoint st')
     | _ =>
         batch_processor.checkpoint st' = batch_processor.checkpoint st
         /\ batch_processor.checkpoint_file st'
            = batch_processor.checkpoint_file st
     end
  /\ ((Spec.lpi st0 <= batch_processor.current_index st0)%Z ->
      (Spec.lpi st <= Spec.lpi st')%Z).
Proof.
  cbn zeta. split; [apply after_current_index|].
  change (after (S n) st0) with (turn (after n st0)).
  set (st := after n st0).
  pose proof (turn_kind st) as Hk. pose proof (turn_current_index st) as Hc.
  split.
  - destruct (kind_of st) as [k|w| |].
    + by destruct Hk as (? & _ & ? & ? & _).
    + by destruct Hk as (-> & _).
    + by rewrite Hk.
    + by rewrite Hk.
  - intros H0. destruct (kind_of st) as [k|w| |]; cbn in Hc.
    + destruct Hk as (? & _ & -> & _ & Hbs).
      pose proof (after_lpi_behind n st0 Hbs H0) as Hbehind.
      fold st in Hbehind. lia.
    + destruct Hk as (-> & _). done.
    + by rewrite Hk.
    + by rewrite Hk.
Qed.

(** C4.  When the [try] body of a turn raises an exception, nothing of the
    batch has been recorded by then: no outcome, no checkpoint, no call to
    the service.  The handler moves [current_index] by [batch_size],
    whatever the width of the slice was, and the loop goes on from
    there. *)
Theorem C4_exception_skips_batch (st : batch_processor.state) (e : exn) :
  (batch_processor.current_index st < end_index)%Z ->
  fst (batch_processor.try_body cfg df batch_size end_index st) = Raise e ->
  let st' := batch_processor.batch_iteration cfg df batch_size end_index st in
  snd (batch_processor.try_body cfg df batch_size end_index st) = st
  /\ batch_processor.current_index st'
     = (batch_processor.current_index st + batch_size)%Z
  /\ batch_processor.results_file st' = batch_processor.results_file st
  /\ batch_processor.all_batch_results st' = batch_processor.all_batch_results st
  /\ batch_processor.checkpoint st' = batch_processor.checkpoint st
  /\ batch_processor.checkpoint_file st' = batch_processor.checkpoint_file st
  /\ batch_processor.total_processed st' = batch_processor.total_processed st
  /\ batch_processor.total_successful st' = batch_processor.total_successful st
  /\ batch_processor.total_cost st' = batch_processor.total_cost st
  /\ batch_processor.outside st' = batch_processor.outside st
  /\ forall fuel,
       batch_processor.while_loop cfg df batch_size end_index (S fuel) st
       = batch_processor.while_loop cfg df batch_size end_index fuel st'.
Proof.
  intros Hrun Hraise. cbn zeta.
  assert (Hbody : batch_processor.try_body cfg df batch_size end_index st
                  = (Raise e, st)).
  { revert Hraise. unfold batch_processor.try_body.
    destruct (data_processor.process_batch _ _ _) as [[|data rest]|e'].
    - cbn. discriminate.
    - destruct (api_client.classify_batch cfg (data :: rest) _). cbn.
      discriminate.
    - cbn. by intros [= ->]. }
  unfold batch_processor.batch_iteration. rewrite Hbody. cbn.
  repeat split.
  intros fuel. cbn [batch_processor.while_loop].
  apply Z.ltb_lt in Hrun as ->.
  unfold batch_processor.batch_iteration. by rewrite Hbody.
Qed.

End Loop.

(** ** The four shapes of an answer *)

Lemma get_here (k : pystr) (v : json) (d : Json.dict) :
  Json.get ((k, v) :: d) k = Some v.
Proof. cbn. by rewrite (proj2 (str_eqb_eq k k)). Qed.

Lemma get_next (k k' : pystr) (v : json) (d : Json.dict) :
  k <> k' -> Json.get ((k', v) :: d) k = Json.get d k.
Proof.
  intros Hne. cbn. destruct (Py.eqb k k') eqn:E; [|done].
  by apply str_eqb_eq in E.
Qed.

Lemma get_not_in (d : Json.dict) (k : pystr) :
  ~ In k (Json.keys d) -> Json.get d k = None.
Proof.
  induction d as [|[k' v] d IH]; [done|]. intros Hnot.
  unfold Json.keys in *. cbn [map fst In] in Hnot.
  rewrite get_next by (intros ->; tauto). apply IH. tauto.
Qed.

Lemma get_in_keys (d : Json.dict) (k : pystr) (v : json) :
  Json.get d k = Some v -> In k (Json.keys d).
Proof.
  induction d as [|[k' v'] d IH]; [done|]. cbn.
  destruct (Py.eqb k k') eqn:E; [apply str_eqb_eq in E; auto|auto].
Qed.

Lemma get_app_not_in (pre d : Json.dict) (k : pystr) :
  ~ In k (Json.keys pre) -> Json.get (pre ++ d) k = Json.get d k.
Proof.
  induction pre as [|[k' v] pre IH]; [done|]. intros Hnot.
  unfold Json.keys in *. cbn [map fst In app] in *.
  rewrite get_next by (intros ->; tauto). apply IH. tauto.
Qed.

Lemma get_in (d : Json.dict) (k : pystr) (v : json) :
  Json.get d k = Some v -> In (k, v) d.
Proof.
  induction d as [|[k' v'] d IH]; [done|]. cbn.
  destruct (Py.eqb k k') eqn:E; [|auto].
  apply str_eqb_eq in E. intros [= ->]. left. by subst.
Qed.

Lemma chars_of_uint_inj (d1 d2 : Decimal.uint) :
  Py.chars_of_uint d1 = Py.chars_of_uint d2 -> d1 = d2.
Proof.
  revert d2. induction d1; destruct d2; cbn; intros [=]; f_equal; auto.
Qed.

Lemma str_of_nat_inj (i j : nat) : Py.str_of_nat i = Py.str_of_nat j -> i = j.
Proof.
  unfold Py.str_of_nat, Py.str_of_N. intros Heq.
  apply chars_of_uint_inj, DecimalN.Unsigned.to_uint_inj in Heq. lia.
Qed.

Lemma u_label : u "label" = [108; 97; 98; 101; 108]%N.
Proof. reflexivity. Qed.

Lemma u_confidence :
  u "confidence" = [99; 111; 110; 102; 105; 100; 101; 110; 99; 101]%N.
Proof. reflexivity. Qed.

Lemma label_key_inj (i j : nat) :
  u "label" ++ Py.str_of_nat i = u "label" ++ Py.str_of_nat j -> i = j.
Proof. intros Heq. by apply app_inv_head, str_of_nat_inj in Heq. Qed.

Lemma confidence_key_inj (i j : nat) :
  u "confidence" ++ Py.str_of_nat i = u "confidence" ++ Py.str_of_nat j -> i = j.
Proof. intros Heq. by apply app_inv_head, str_of_nat_inj in Heq. Qed.

Lemma label_key_not_confidence (a b : pystr) :
  u "label" ++ a <> u "confidence" ++ b.
Proof. rewrite u_label, u_confidence. cbn. discriminate. Qed.

Lemma find_known_key_scalar (d : Json.dict) (keys : list pystr) :
  Spec.scalar_fields d -> validators.find_known_key d keys = None.
Proof.
  intros Hd. induction keys as [|k keys IH]; [done|].
  cbn [validators.find_known_key].
  destruct (Json.get d k) as [v|] eqn:Ev; [|done].
  apply get_in in Ev. unfold Spec.scalar_fields in Hd. rewrite Forall_forall in Hd.
  apply list_elem_of_In, Hd in Ev. cbn in Ev. by destruct v.
Qed.

Lemma find_array_scalar (d : Json.dict) (depth : nat) :
  Spec.scalar_fields d -> validators.find_array_recursive depth (JObj d) = None.
Proof.
  intros Hd. destruct depth as [|depth]; [done|].
  cbn [validators.find_array_recursive].
  induction Hd as [|[k v] d Hv _ IH]; [done|].
  rewrite IH. cbn in Hv. destruct v; try done; by destruct depth.
Qed.

Lemma numbered_fields_scalar (i : nat) (payload : list label_pred) :
  Spec.scalar_fields (Spec.numbered_fields i payload).
Proof.
  revert i. induction payload as [|p payload IH]; intros i; [constructor|].
  cbn [Spec.numbered_fields]. constructor; [done|]. constructor; [done|].
  apply IH.
Qed.

Lemma keyed_fields_scalar (keys : list (pystr * pystr))
    (payload : list label_pred) :
  Spec.scalar_fields (Spec.keyed_fields keys payload).
Proof.
  revert payload. induction keys as [|[lk ck] keys IH]; intros payload.
  { cbn. constructor. }
  destruct payload as [|p payload]; [cbn; constructor|].
  cbn [Spec.keyed_fields]. constructor; [done|]. constructor; [done|].
  apply IH.
Qed.

Lemma get_numbered_label (payload : list label_pred) (i j : nat) :
  Json.get (Spec.numbered_fields i payload) (u "label" ++ Py.str_of_nat j)
  = if (i <=? j)%nat
    then option_map (fun p => JStr (label p)) (payload !! (j - i)%nat)
    else None.
Proof.
  revert i. induction payload as [|p payload IH]; intros i.
  { cbn. by destruct (i <=? j)%nat. }
  cbn [Spec.numbered_fields].
  destruct (decide (i = j)) as [->|Hne].
  { rewrite get_here, Nat.leb_refl, Nat.sub_diag. done. }
  rewrite get_next by (intros Heq; by apply label_key_inj in Heq).
  rewrite get_next by apply label_key_not_confidence.
  rewrite IH. destruct (i <=? j)%nat eqn:Hij.
  - apply Nat.leb_le in Hij.
    replace (S i <=? j)%nat with true by (symmetry; apply Nat.leb_le; lia).
    by replace (j - i)%nat with (S (j - S i)) by lia.
  - apply Nat.leb_gt in Hij.
    by replace (S i <=? j)%nat with false by (symmetry; apply Nat.leb_gt; lia).
Qed.

Lemma get_numbered_confidence (payload : list label_pred) (i j : nat) :
  Json.get (Spec.numbered_fields i payload) (u "confidence" ++ Py.str_of_nat j)
  = if (i <=? j)%nat
    then option_map (fun p => JFloat (confidence p)) (payload !! (j - i)%nat)
    else None.
Proof.
  revert i. induction payload as [|p payload IH]; intros i.
  { cbn. by destruct (i <=? j)%nat. }
  cbn [Spec.numbered_fields].
  rewrite get_next
    by (intros Heq; symmetry in Heq; by apply label_key_not_confidence in Heq).
  destruct (decide (i = j)) as [->|Hne].
  { rewrite get_here, Nat.leb_refl, Nat.sub_diag. done. }
  rewrite get_next by (intros Heq; by apply confidence_key_inj in Heq).
  rewrite IH. destruct (i <=? j)%nat eqn:Hij.
  - apply Nat.leb_le in Hij.
    replace (S i <=? j)%nat with true by (symmetry; apply Nat.leb_le; lia).
    by replace (j - i)%nat with (S (j - S i)) by lia.
  - apply Nat.leb_gt in Hij.
    by replace (S i <=? j)%nat with false by (symmetry; apply Nat.leb_gt; lia).
Qed.

Section Shapes.
Context `{PyRuntime}.

(** The numbered loop reads the entries back, one pair a turn, and stops at
    the first number without a pair. *)
Lemma numbered_pairs_fields (payload : list label_pred) (fuel k : nat) :
  (length payload - k < fuel)%nat ->
  validators.numbered_pairs fuel (Spec.numbered_fields 1 payload) (S k)
  = Ok (Some (Spec.normalized (drop k payload))).
Proof.
  revert k. induction fuel as [|fuel IH]; intros k Hfuel; [lia|].
  cbn [validators.numbered_pairs].
  rewrite get_numbered_label, get_numbered_confidence. cbn [Nat.leb].
  replace (S k - 1)%nat with k by lia.
  destruct (payload !! k) as [p|] eqn:Ep; cbn [option_map].
  - cbn [py_float]. rewrite IH.
    2:{ apply lookup_lt_Some in Ep. lia. }
    cbn [bind option_map]. by rewrite (drop_S _ _ _ Ep).
  - apply lookup_ge_None in Ep. by rewrite drop_ge.
Qed.

Lemma entry_is_label_object (p : label_pred) :
  validators.is_label_object (Spec.entry p) = true.
Proof. unfold Spec.entry, validators.label_object. cbn. done. Qed.

Lemma check_items_normalized (payload : list label_pred) (i : nat) :
  Spec.label_payload payload ->
  validators.check_items i (Spec.normalized payload) = Ok None.
Proof.
  intros Hp. revert i. induction Hp as [|p payload Hp _ IH]; intros i; [done|].
  cbn [Spec.normalized map validators.check_items Spec.entry
       validators.label_object].
  unfold Json.has. rewrite get_here. cbn [negb].
  rewrite get_next by (vm_compute; discriminate). rewrite get_here.
  cbn [py_float]. apply in_unit_iff in Hp. rewrite Hp. cbn [negb].
  apply IH.
Qed.

(** An object from which one of the four formats extracts the list [l]. *)
Lemma validate_parsed_object (d : Json.dict) (l : list json) :
  match validators.find_known_key d validators.possible_keys with
  | Some l' => l' = l
  | None =>
      match validators.find_array_recursive 5 (JObj d) with
      | Some l' => l' = l
      | None => validators._try_reconstruct_from_flat_structure d = Ok (Some l)
      end
  end ->
  validators.check_items 0 l = Ok None ->
  validators.validate_parsed (JObj d) = Ok (true, Some l, u "Valid").
Proof.
  intros Hfound Hcheck. unfold validators.validate_parsed.
  destruct (validators.find_known_key d validators.possible_keys) as [l'|].
  { subst l'. cbn [bind]. by rewrite Hcheck. }
  destruct (validators.find_array_recursive 5 (JObj d)) as [l'|].
  { subst l'. cbn [bind]. by rewrite Hcheck. }
  rewrite Hfound. cbn [bind]. by rewrite Hcheck.
Qed.

Lemma parses_as_array (payload : list label_pred) :
  Spec.label_payload payload -> Spec.accepts payload (Spec.as_array payload).
Proof.
  intros Hp. unfold Spec.accepts, Spec.as_array, validators.validate_parsed.
  cbn [bind]. by rewrite check_items_normalized.
Qed.

Lemma find_known_key_single (keys : list pystr) (key : pystr) (v : json) :
  validators.find_known_key [(key, v)] keys
  = match v with
    | JArr l => if Py.mem key keys then Some l else None
    | _ => None
    end.
Proof.
  induction keys as [|k keys IH]; cbn [validators.find_known_key].
  { by destruct v. }
  cbn [Json.get Py.mem existsb]. rewrite IH.
  rewrite (eq_true_iff_eq (Py.eqb k key) (Py.eqb key k)); last first.
  { rewrite !str_eqb_eq. split; congruence. }
  destruct (Py.eqb key k); [|done]. by destruct v.
Qed.

Lemma mem_possible_keys (key : pystr) :
  In key validators.possible_keys -> Py.mem key validators.possible_keys = true.
Proof.
  intros Hin. unfold Py.mem. apply existsb_exists. exists key.
  split; [done|]. by apply str_eqb_eq.
Qed.

Lemma parses_under_key (key : pystr) (payload : list label_pred) :
  Spec.label_payload payload -> In key validators.possible_keys ->
  Spec.accepts payload (Spec.under_key key payload).
Proof.
  intros Hp Hkey. apply validate_parsed_object; [|by apply check_items_normalized].
  unfold Spec.as_array. rewrite find_known_key_single. cbv beta iota.
  by rewrite mem_possible_keys.
Qed.

Lemma find_array_nested (path : list pystr) (payload : list label_pred)
    (depth : nat) :
  payload <> [] -> (length path < depth)%nat ->
  validators.find_array_recursive depth (Spec.nested path payload)
  = Some (Spec.normalized payload).
Proof.
  intros Hne. revert depth. induction path as [|key path IH]; intros depth Hd.
  - destruct depth as [|depth]; [cbn in Hd; lia|].
    destruct payload as [|p payload]; [done|].
    cbn [Spec.nested Spec.as_array Spec.normalized map
         validators.find_array_recursive].
    by rewrite entry_is_label_object.
  - destruct depth as [|depth]; [cbn in Hd; lia|].
    cbn [Spec.nested validators.find_array_recursive].
    rewrite IH by (cbn in Hd; lia). done.
Qed.

Lemma parses_nested (path : list pystr) (payload : list label_pred) :
  Spec.label_payload payload -> payload <> [] ->
  (1 <= length path <= 4)%nat ->
  Spec.accepts payload (Spec.nested path payload).
Proof.
  intros Hp Hne Hlen. destruct path as [|key path]; [cbn in Hlen; lia|].
  cbn [Spec.nested]. apply validate_parsed_object;
    [|by apply check_items_normalized].
  rewrite find_known_key_single.
  pose proof (find_array_nested (key :: path) payload 5 Hne) as Hf.
  cbn [Spec.nested] in Hf. rewrite Hf by (cbn in *; lia).
  destruct path as [|key' path]; cbn [Spec.nested Spec.as_array]; [|done].
  by destruct (Py.mem key validators.possible_keys).
Qed.

Lemma numbered_fields_length (i : nat) (payload : list label_pred) :
  length (Spec.numbered_fields i payload) = (2 * length payload)%nat.
Proof.
  revert i. induction payload as [|p payload IH]; intros i; [done|].
  cbn [Spec.numbered_fields length]. rewrite IH. lia.
Qed.

Lemma parses_flat_numbered (payload : list label_pred) :
  Spec.label_payload payload -> payload <> [] ->
  Spec.accepts payload (Spec.flat_numbered payload).
Proof.
  intros Hp Hne. apply validate_parsed_object;
    [|by apply check_items_normalized].
  rewrite find_known_key_scalar, find_array_scalar
    by apply numbered_fields_scalar.
  unfold validators._try_reconstruct_from_flat_structure.
  rewrite (numbered_pairs_fields payload _ 0)
    by (rewrite numbered_fields_length; lia).
  rewrite drop_0. cbn [bind]. by destruct payload.
Qed.

(** Keys of a flat object with one pair for each entry. *)
Lemma keyed_fields_keys (keys : list (pystr * pystr))
    (payload : list label_pred) :
  length keys = length payload ->
  Json.keys (Spec.keyed_fields keys payload)
  = flat_map (fun k => [fst k; snd k]) keys.
Proof.
  revert payload. induction keys as [|[lk ck] keys IH]; intros [|p payload];
    cbn; try done.
  intros [= Hlen]. f_equal. f_equal. by apply IH.
Qed.

Lemma filter_label_keys (keys : list (pystr * pystr)) :
  Forall (fun k => Spec.names_label (fst k) = true
                   /\ Spec.names_confidence (fst k) = false
                   /\ Spec.names_confidence (snd k) = true
                   /\ Spec.names_label (snd k) = false) keys ->
  List.filter Spec.names_label (flat_map (fun k => [fst k; snd k]) keys)
  = map fst keys
  /\ List.filter Spec.names_confidence (flat_map (fun k => [fst k; snd k]) keys)
     = map snd keys.
Proof.
  induction 1 as [|[lk ck] keys (Hl1 & Hl2 & Hc1 & Hc2) _ [IH1 IH2]]; [done|].
  cbn in *. rewrite Hl1, Hl2, Hc1, Hc2, IH1, IH2. done.
Qed.

Lemma sorted_in_order (l : list pystr) : Spec.in_order l -> Py.sorted l = l.
Proof.
  unfold Py.sorted. induction l as [|x l IH]; [done|].
  intros [Hx Hl]. cbn [foldr]. rewrite IH by done.
  destruct l as [|y l]; [done|]. cbn. by rewrite Hx.
Qed.

Lemma names_differ (a b : pystr) :
  Spec.names_confidence a = false -> Spec.names_confidence b = true -> a <> b.
Proof. intros Ha Hb ->. congruence. Qed.

Lemma keyed_pairs_fields (keys : list (pystr * pystr))
    (payload : list label_pred) (pre : Json.dict) :
  length keys = length payload ->
  Forall (fun k => Spec.names_label (fst k) = true
                   /\ Spec.names_confidence (fst k) = false
                   /\ Spec.names_confidence (snd k) = true
                   /\ Spec.names_label (snd k) = false) keys ->
  NoDup (map fst keys) -> NoDup (map snd keys) ->
  (forall k, In k keys ->
             ~ In (fst k) (Json.keys pre) /\ ~ In (snd k) (Json.keys pre)) ->
  validators.keyed_pairs (pre ++ Spec.keyed_fields keys payload) keys
  = Ok (Some (Spec.normalized payload)).
Proof.
  revert payload pre.
  induction keys as [|[lk ck] keys IH]; intros [|p payload] pre Hlen Hnames
    Hnd1 Hnd2 Hpre; try done.
  cbn [Spec.keyed_fields validators.keyed_pairs].
  apply Forall_cons in Hnames as [(Hl1 & Hl2 & Hc1 & Hc2) Hnames].
  cbn [map fst snd] in Hnd1, Hnd2.
  apply NoDup_cons in Hnd1 as [Hlk Hnd1]. apply NoDup_cons in Hnd2 as [Hck Hnd2].
  destruct (Hpre (lk, ck) ltac:(by left)) as [Hpl Hpc]. cbn [fst snd] in *.
  rewrite (get_app_not_in pre _ lk Hpl), get_here.
  rewrite (get_app_not_in pre _ ck Hpc).
  rewrite get_next by (intros ->; congruence). rewrite get_here.
  cbn [py_float].
  replace (pre ++ (lk, JStr (label p)) :: (ck, JFloat (confidence p))
               :: Spec.keyed_fields keys payload)
    with ((pre ++ [(lk, JStr (label p)); (ck, JFloat (confidence p))])
            ++ Spec.keyed_fields keys payload)
    by (by rewrite <- app_assoc).
  rewrite IH; [done|by injection Hlen|done|done|done|].
  intros [lk' ck'] Hin. cbn [fst snd].
  destruct (Hpre (lk', ck') ltac:(by right)) as [Hpl' Hpc']. cbn [fst snd] in *.
  assert (Hin1 : In lk' (map fst keys)) by (apply in_map_iff; by exists (lk', ck')).
  assert (Hin2 : In ck' (map snd keys)) by (apply in_map_iff; by exists (lk', ck')).
  rewrite Forall_forall in Hnames.
  destruct (Hnames (lk', ck') ltac:(by apply list_elem_of_In))
    as (Hl1' & Hl2' & Hc1' & Hc2'). cbn [fst snd] in *.
  unfold Json.keys in *. rewrite map_app, !in_app_iff. cbn [map fst In].
  split.
  - intros [?|[<-|[<-|[]]]]; [done| |congruence].
    apply Hlk. by apply list_elem_of_In.
  - intros [?|[<-|[<-|[]]]]; [done|congruence|].
    apply Hck. by apply list_elem_of_In.
Qed.

Lemma parses_flat_keyed (keys : list (pystr * pystr))
    (payload : list label_pred) :
  Spec.label_payload payload -> payload <> [] ->
  Spec.key_family keys payload ->
  Spec.accepts payload (Spec.flat_keyed keys payload).
Proof.
  intros Hp Hne (Hlen & Hnames & Hnd1 & Hnd2 & Ho1 & Ho2 & Hnot).
  apply validate_parsed_object; [|by apply check_items_normalized].
  rewrite find_known_key_scalar, find_array_scalar
    by apply keyed_fields_scalar.
  unfold validators._try_reconstruct_from_flat_structure.
  set (data := Spec.keyed_fields keys payload).
  assert (Hkeys : Json.keys data = flat_map (fun k => [fst k; snd k]) keys)
    by (by apply keyed_fields_keys).
  destruct (filter_label_keys keys Hnames) as [Hf1 Hf2].
  assert (Hnum : validators.numbered_pairs (S (length data)) data 1
                 = Ok (Some [])).
  { cbn [validators.numbered_pairs].
    destruct (Json.get data (u "label" ++ Py.str_of_nat 1)) as [l|] eqn:El;
      [|done].
    destruct (Json.get data (u "confidence" ++ Py.str_of_nat 1)) as [c|] eqn:Ec;
      [|done].
    exfalso. apply Hnot.
    apply get_in_keys in El, Ec. rewrite Hkeys in El, Ec.
    apply in_flat_map in El as ([lk ck] & Hin & Hk).
    apply in_flat_map in Ec as ([lk' ck'] & Hin' & Hk').
    rewrite Forall_forall in Hnames.
    destruct (Hnames _ (proj2 (list_elem_of_In _ _) Hin)) as (_ & _ & Hc1 & _).
    destruct (Hnames _ (proj2 (list_elem_of_In _ _) Hin')) as (Hl1 & _ & _ & _).
    cbn [fst snd In] in *. split.
    - destruct Hk as [Hk|[Hk|[]]].
      + apply in_map_iff. exists (lk, ck). split; [|done]. done.
      + exfalso. rewrite Hk in Hc1. vm_compute in Hc1. discriminate.
    - destruct Hk' as [Hk'|[Hk'|[]]].
      + exfalso. rewrite Hk' in Hl1. vm_compute in Hl1. discriminate.
      + apply in_map_iff. exists (lk', ck'). split; [|done]. done. }
  rewrite Hnum. cbn [bind]. rewrite Hkeys.
  change (fun k => Py.contains (Py.lower k) (u "label")) with Spec.names_label.
  change (fun k => Py.contains (Py.lower k) (u "confidence")
                   || Py.contains (Py.lower k) (u "conf"))
    with Spec.names_confidence.
  rewrite Hf1, Hf2, !length_map, Nat.eqb_refl.
  replace (0 <? length keys)%nat with true.
  2:{ symmetry. apply Nat.ltb_lt. rewrite Hlen. destruct payload; [done|cbn; lia]. }
  cbn [andb]. rewrite !sorted_in_order by done. rewrite zip_fst_snd.
  pose proof (keyed_pairs_fields keys payload [] Hlen Hnames Hnd1 Hnd2) as Hk.
  cbn [app] in Hk. fold data in Hk. rewrite Hk by (intros k _; split; intros []).
  cbn [bind]. by destruct payload.
Qed.

Lemma accepts_parses_to (payload : list label_pred) (doc : json) :
  Spec.accepts payload doc -> Spec.parses_to payload doc.
Proof.
  intros Hdoc response Hloads. by eapply validate_json_response_parsed.
Qed.

(** C3, amended.  For every label payload that is not empty, the four
    shapes parse to the same normalized list: the direct array; the array
    under each of the seven known keys; the array below a chain of one to
    four keys; the flat object with numbered pairs; and the flat object
    with pairs of label and confidence keys listed in sorted order. *)
Theorem C3_shapes_parse_alike (payload : list label_pred) :
  Spec.label_payload payload -> payload <> [] ->
  Spec.all_shapes_parse payload.
Proof.
  intros Hp Hne. split; [|split; [|split; [|split]]].
  - by apply accepts_parses_to, parses_as_array.
  - intros key Hkey. by apply accepts_parses_to, parses_under_key.
  - intros path Hlen. by apply accepts_parses_to, parses_nested.
  - by apply accepts_parses_to, parses_flat_numbered.
  - intros keys Hkeys. by apply accepts_parses_to, parses_flat_keyed.
Qed.

End Shapes.

(** ** The numbered loop ends within its fuel *)

Lemma numbered_labels_bounded (data : Json.dict) (k : nat) :
  (forall j, (1 <= j <= k)%nat ->
             Json.has data (u "label" ++ Py.str_of_nat j) = true) ->
  (k <= length data)%nat.
Proof.
  intros Hpresent.
  assert (Hincl : incl (map (fun j => u "label" ++ Py.str_of_nat j) (seq 1 k))
                       (Json.keys data)).
  { intros key Hkey. apply in_map_iff in Hkey as (j & <- & Hj).
    apply in_seq in Hj. specialize (Hpresent j ltac:(lia)).
    unfold Json.has in Hpresent.
    destruct (Json.get data _) as [v|] eqn:Ev; [|discriminate].
    by eapply get_in_keys. }
  apply NoDup_incl_length in Hincl.
  - unfold Json.keys in Hincl. by rewrite !length_map, length_seq in Hincl.
  - apply Finite.Injective_map_NoDup; [|apply seq_NoDup].
    intros i j Heq. by apply label_key_inj.
Qed.

Section NumberedLoop.
Context `{PyRuntime}.

(** The fuel [S (length data)] of the numbered loop is never used up: with
    more fuel the loop gives the same result. *)
Lemma numbered_pairs_fuel (data : Json.dict) (fuel fuel' i : nat) :
  (forall j, (1 <= j < i)%nat ->
             Json.has data (u "label" ++ Py.str_of_nat j) = true) ->
  (length data + 1 < i + fuel)%nat -> (fuel <= fuel')%nat ->
  validators.numbered_pairs fuel' data i = validators.numbered_pairs fuel data i.
Proof.
  revert fuel' i. induction fuel as [|fuel IH]; intros fuel' i Hpresent Hlen Hle.
  { pose proof (numbered_labels_bounded data (i - 1)) as Hb.
    assert (i - 1 <= length data)%nat; [|lia].
    apply Hb. intros j Hj. apply Hpresent. lia. }
  destruct fuel' as [|fuel']; [lia|].
  cbn [validators.numbered_pairs].
  destruct (Json.get data (u "label" ++ Py.str_of_nat i)) as [l|] eqn:El; [|done].
  destruct (Json.get data (u "confidence" ++ Py.str_of_nat i)) as [c|]; [|done].
  destruct (py_float c); try done.
  rewrite (IH fuel' (S i)); [done| |lia|lia].
  intros j Hj. destruct (decide (j = i)) as [->|Hne].
  - unfold Json.has. by rewrite El.
  - apply Hpresent. lia.
Qed.

Lemma try_reconstruct_fuel (data : Json.dict) (fuel : nat) :
  (S (length data) <= fuel)%nat ->
  validators.numbered_pairs fuel data 1
  = validators.numbered_pairs (S (length data)) data 1.
Proof.
  intros Hle. apply numbered_pairs_fuel; [|lia|done].
  intros j Hj. lia.
Qed.

End NumberedLoop.

(** ** The properties on the sample inputs *)

Section OnSamples.
#[local] Existing Instance Samples.runtime.

(** C6 as stated fails: an entry without confidence gets 0.0 and no
    warning, not 0.5 with a warning. *)
Lemma C6_missing_confidence_counterexample :
  let item := JObj [(u "label", JStr (u "Khác"))] in
  Spec.confidence_field item = None
  /\ validators.validate_labels [item] = Ok ([LabelPred (u "Khác") (Fin 0)], [])
  /\ ~ (exists w,
          validators.validate_labels [item]
          = Ok ([LabelPred (u "Khác") (Fin 0.5)], [w])).
Proof.
  cbn zeta. split; [reflexivity|]. split; [vm_compute; reflexivity|].
  intros [w Hw]. vm_compute in Hw. discriminate.
Qed.

Lemma C6_witness :
  Forall Spec.candidate Samples.candidates
  /\ exists cleaned warnings,
       validators.validate_labels Samples.candidates = Ok (cleaned, warnings)
       /\ map label cleaned = map Spec.trimmed_label (Spec.kept Samples.candidates)
       /\ length warnings = 2%nat.
Proof.
  assert (Hc : Forall Spec.candidate Samples.candidates).
  { repeat constructor. }
  split; [exact Hc|].
  pose proof (C6_validate_labels_amended Samples.candidates Hc) as Hok.
  assert (Hfits : existsb Spec.oversized (Spec.kept Samples.candidates)
                  = false) by (vm_compute; reflexivity).
  rewrite Hfits in Hok.
  destruct Hok as (cleaned & warnings & Heq & Hl & Hw & _).
  exists cleaned, warnings. split; [exact Heq|]. split; [exact Hl|].
  rewrite Hw. vm_compute. reflexivity.
Defined.

(** An integer confidence beyond the range of a float: the conversion
    raises, and so does [validate_labels]. *)
Example validate_labels_oversized :
  validators.validate_labels
    [Samples.khac 0.9;
     validators.label_object (JStr (u "Khác")) (JInt (2 ^ 1024))]
  = Raise overflow_error.
Proof. vm_compute. reflexivity. Qed.

(** One valid and one invalid label: one entry, one warning; -0.3 becomes
    0.0 and 1.7 becomes 1.0; a confidence that is no number becomes 0.5. *)
Example validate_labels_samples :
  validators.validate_labels Samples.candidates
  = Ok ([LabelPred (u "Khác") (Fin 0); LabelPred (u "Khác") (Fin 1);
         LabelPred (u "Khác") (Fin 0); LabelPred (u "Khác") (Fin 0.5)],
        [u "Invalid label: 'Thể thao' - skipping";
         u "Invalid confidence for 'Khác' - using default 0.5"]).
Proof. vm_compute. reflexivity. Qed.

Example validate_labels_numeric_label :
  validators.validate_labels [validators.label_object (JInt 5) (JFloat (Fin 0.9))]
  = Raise (Exn AttributeError (u "'int' object has no attribute 'strip'")).
Proof. vm_compute. reflexivity. Qed.

Lemma C9_witness :
  validators.validate_json_response (Some Samples.fenced)
  = (true, Some [Samples.khac 0.9], u "Valid")
  /\ Forall Spec.checked_item [Samples.khac 0.9].
Proof.
  assert (Hv : validators.validate_json_response (Some Samples.fenced)
               = (true, Some [Samples.khac 0.9], u "Valid")).
  { vm_compute. reflexivity. }
  split; [exact Hv|].
  destruct (proj1 C9_valid_response_items_in_range _ _ _ Hv)
    as (l & Hl & Hchecked & _).
  injection Hl as <-. exact Hchecked.
Defined.

(** Confidences of -0.3 and 1.7 are refused by the parser. *)
Example out_of_range_refused :
  validators.validate_parsed (JArr [Samples.khac (-0.3)])
  = Ok (false, None, u "Item 0 confidence must be between 0.0 and 1.0")
  /\ validators.validate_parsed (JArr [Samples.khac 0.9; Samples.khac 1.7])
     = Ok (false, None, u "Item 1 confidence must be between 0.0 and 1.0").
Proof. split; vm_compute; reflexivity. Qed.

(** C3 as stated fails: the empty payload is accepted as a direct array
    and under a known key, but it is found neither below another key nor
    in a flat object. *)
Lemma C3_empty_payload_counterexample :
  Spec.label_payload []
  /\ validators.validate_json_response (Some (u "[]"))
     = (true, Some [], u "Valid")
  /\ validators.validate_json_response (Some (u "{}"))
     = (false, None,
        u "No valid label array found in response. Available keys: []")
  /\ validators.validate_parsed (Spec.nested [u "response"; u "answer"] [])
     = Ok (false, None,
           u "No valid label array found in response. Available keys: ['response']")
  /\ ~ Spec.all_shapes_parse [].
Proof.
  split; [constructor|]. split; [vm_compute; reflexivity|].
  split; [vm_compute; reflexivity|]. split; [vm_compute; reflexivity|].
  intros (_ & _ & _ & Hflat & _).
  specialize (Hflat (u "{}") ltac:(vm_compute; reflexivity)).
  vm_compute in Hflat. discriminate.
Qed.

Lemma C3_witness : Spec.all_shapes_parse Samples.payload.
Proof.
  apply C3_shapes_parse_alike.
  - repeat constructor; vm_compute; intros Hd; discriminate Hd.
  - discriminate.
Defined.

(** Below five keys the array is out of reach of the search. *)
Example nested_below_five_keys :
  validators.validate_parsed
    (Spec.nested [u "a"; u "b"; u "c"; u "d"; u "e"] Samples.payload)
  = Ok (false, None,
        u "No valid label array found in response. Available keys: ['a']").
Proof. vm_compute. reflexivity. Qed.

Lemma C7_witness :
  data_processor.process_batch Samples.df 0 3
  = Ok [Batch.Record_ 0 (Tieu_de Samples.article) (Description Samples.article)
          (Noi_dung_tin_bai Samples.article);
        Batch.Record_ 2 (Tieu_de Samples.article) (Description Samples.article)
          (Noi_dung_tin_bai Samples.article)]
  /\ Spec.rejected Samples.untitled
  /\ ~ In 1%Z (map Outcome.index
                 (fst (api_client.classify_batch Samples.cfg
                         [Batch.Record_ 0 (Tieu_de Samples.article)
                            (Description Samples.article)
                            (Noi_dung_tin_bai Samples.article);
                          Batch.Record_ 2 (Tieu_de Samples.article)
                            (Description Samples.article)
                            (Noi_dung_tin_bai Samples.article)]
                         Samples.always_good))).
Proof.
  assert (Hb : data_processor.process_batch Samples.df 0 3
    = Ok [Batch.Record_ 0 (Tieu_de Samples.article) (Description Samples.article)
            (Noi_dung_tin_bai Samples.article);
          Batch.Record_ 2 (Tieu_de Samples.article) (Description Samples.article)
            (Noi_dung_tin_bai Samples.article)]).
  { vm_compute. reflexivity. }
  assert (Hr : Spec.rejected Samples.untitled).
  { right. right. right. vm_compute. lia. }
  split; [exact Hb|]. split; [exact Hr|].
  destruct (C7_rejected_rows_excluded Samples.cfg Samples.df 0 3 _
              Samples.always_good Hb) as (_ & Hex & _).
  apply (Hex 1%Z Samples.untitled); [vm_compute; reflexivity|exact Hr].
Defined.

(** C2 as stated fails: the error recorded is [str(e)] of the exception
    caught, and an exception of the service without a message leaves it
    empty. *)
Lemma C2_empty_error_counterexample :
  fst (api_client.classify_batch Samples.cfg [Samples.first_record]
         Samples.always_crashing)
  = [Outcome.Make 0 false None (Some []) Metadata.empty]
  /\ ~ (exists o e,
          fst (api_client.classify_batch Samples.cfg [Samples.first_record]
                 Samples.always_crashing) = [o]
          /\ Outcome.error o = Some e /\ e <> []).
Proof.
  split; [vm_compute; reflexivity|].
  intros (o & e & Ho & He & Hne). vm_compute in Ho. injection Ho as <-.
  cbn in He. injection He as <-. by apply Hne.
Qed.

Lemma C2_witness :
  Spec.service_describes_failures Samples.always_down
  /\ Spec.tokenizer_describes_failures
  /\ exists o e,
       fst (api_client.classify_batch Samples.cfg [Samples.first_record]
              Samples.always_down) = [o]
       /\ Outcome.success o = false /\ Outcome.error o = Some e /\ e <> [].
Proof.
  assert (Hd : Spec.service_describes_failures Samples.always_down).
  { intros n text Ht. injection Ht as <-. vm_compute. discriminate. }
  assert (Ht : Spec.tokenizer_describes_failures).
  { intros s text. cbn.
    destruct (Py.contains s _); [|discriminate].
    intros [= <-]. vm_compute. discriminate. }
  split; [exact Hd|]. split; [exact Ht|].
  destruct (C2_classify_batch_escalates_once Samples.cfg [Samples.first_record]
              Samples.always_down) as (_ & Hf & _).
  remember (fst (api_client.classify_batch Samples.cfg [Samples.first_record]
                   Samples.always_down)) as os eqn:Hos.
  vm_compute in Hos. subst os.
  apply Forall_cons in Hf as [Hf _].
  destruct (Hf eq_refl) as (e & He & Hne).
  eexists _, e. split; [reflexivity|]. split; [reflexivity|].
  split; [exact He|exact (Hne Hd Ht)].
Defined.

(** A content that is a number: the prompt raises, nothing is called, and
    the handler of [classify_batch] records the text of the exception; the
    next record follows without a sleep. *)
Example classify_batch_numeric_content :
  api_client.classify_batch Samples.cfg
    [Samples.numeric_record; Samples.first_record] Samples.always_good
  = (Outcome.Make 7 false None
       (Some (u "object of type 'numpy.int64' has no len()")) Metadata.empty
     :: fst (api_client.classify_batch Samples.cfg [Samples.first_record]
               Samples.always_good),
     snd (api_client.classify_batch Samples.cfg [Samples.first_record]
            Samples.always_good)).
Proof. vm_compute. reflexivity. Qed.

(** The service is down for the primary model and garbles the answer to
    the fallback model: the entry keeps the error of the primary call. *)
Lemma C10_witness :
  fst (api_client.classify_text Samples.cfg (Batch.title Samples.first_record)
         (Batch.description Samples.first_record) (Batch.content Samples.first_record)
         true
         (snd (api_client.classify_text Samples.cfg
                 (Batch.title Samples.first_record)
                 (Batch.description Samples.first_record)
                 (Batch.content Samples.first_record) false
                 Samples.down_then_garbled)))
  = Ok (false,
        api_client.failure (u "Invalid response format")
          (Some (u "Invalid JSON: Expecting value: line 1 column 1 (char 0)"))
          (Some (Some (u "Sorry, I cannot help."))))
  /\ head (fst (api_client.classify_batch Samples.cfg [Samples.first_record]
                  Samples.down_then_garbled))
     = Some (Outcome.Make 0 false None (Some (u "Connection error."))
               Metadata.empty).
Proof.
  split; [vm_compute; reflexivity|].
  set (t1 := api_client.classify_text Samples.cfg (Batch.title Samples.first_record)
               (Batch.description Samples.first_record) (Batch.content Samples.first_record)
               false Samples.down_then_garbled).
  set (t2 := api_client.classify_text Samples.cfg (Batch.title Samples.first_record)
               (Batch.description Samples.first_record) (Batch.content Samples.first_record)
               true (snd t1)).
  set (r1 := api_client.failure (u "Connection error.") None None).
  set (r2 := api_client.failure (u "Invalid response format")
               (Some (u "Invalid JSON: Expecting value: line 1 column 1 (char 0)"))
               (Some (Some (u "Sorry, I cannot help.")))).
  assert (E1 : t1 = (Ok (false, r1), snd t1)) by (vm_compute; reflexivity).
  assert (E2 : t2 = (Ok (false, r2), snd t2)) by (vm_compute; reflexivity).
  destruct (C10_primary_error_recorded Samples.cfg Samples.first_record []
              Samples.down_then_garbled _ _ _ _ E1 E2)
    as (e1 & He1 & _ & Hhead).
  vm_compute in He1. injection He1 as <-. exact Hhead.
Defined.

(** A rate limit, then a crash, then a completion. *)
Example make_api_call_sample :
  trace (snd (api_client._make_api_call Samples.cfg (CStr []) (CStr [])
                (CStr []) (u "m")
                (World (fun n => match n with
                                 | O => RateLimited (u "429")
                                 | S O => Crashed (u "boom")
                                 | _ => Completion (Some (u "[]")) 1 1
                                 end) 0 [])))
  = [Call (u "m") (CStr []) (CStr []) (CStr []); Sleep 60; Sleep 1;
     Call (u "m") (CStr []) (CStr []) (CStr []); Sleep 2;
     Call (u "m") (CStr []) (CStr []) (CStr [])].
Proof. vm_compute. reflexivity. Qed.


(** The first row is joined with its only outcome; the second has none;
    for the third the later outcome, a failure, counts. *)
Example create_final_csv_sample :
  batch_processor.create_final_csv Samples.df (Some Samples.log)
  = Ok [FinalRow Samples.article (u "Môi trường; Khác") (u "0.90; 0.12")
          (u "gpt-4o-mini") true;
        FinalRow Samples.untitled [] [] [] false;
        FinalRow Samples.article [] [] [] false].
Proof. vm_compute. reflexivity. Qed.

#[local] Abbreviation sample_after :=
  (batch_processor.after Samples.cfg Samples.df 1 3).

(** C1 as stated fails on a second run over the sample data set: the first
    turn classifies row 0 and writes 1 over the 3 of the checkpoint on
    disk; the second turn finds no valid record, moves on and leaves the
    checkpoint at 1, one behind the widths so far. *)
Lemma C1_rerun_counterexample :
  Spec.lpi Samples.rerun = 3%Z
  /\ Spec.lpi (sample_after 1 Samples.rerun) = 1%Z
  /\ Spec.lpi (sample_after 2 Samples.rerun) = 1%Z
  /\ Spec.widths Samples.cfg Samples.df 1 3 2 Samples.rerun = [1%Z; 1%Z]
  /\ ~ Spec.checkpoint_follows_widths Samples.cfg Samples.df 1 3 Samples.rerun.
Proof.
  split; [vm_compute; reflexivity|]. split; [vm_compute; reflexivity|].
  split; [vm_compute; reflexivity|]. split; [vm_compute; reflexivity|].
  intros Hclaim. destruct (Hclaim 0%nat) as [_ Hmono].
  { vm_compute. discriminate. }
  vm_compute in Hmono. by apply Hmono.
Qed.

Lemma C1_witness :
  (Spec.lpi Samples.first_run
   <= batch_processor.current_index Samples.first_run)%Z
  /\ (Spec.lpi (sample_after 2 Samples.first_run)
      <= Spec.lpi (sample_after 3 Samples.first_run))%Z.
Proof.
  assert (H0 : (Spec.lpi Samples.first_run
                <= batch_processor.current_index Samples.first_run)%Z).
  { vm_compute. discriminate. }
  split; [exact H0|].
  exact (proj2 (proj2 (C1_checkpoint_follows_classified_batches
                         Samples.cfg Samples.df 1 3 Samples.first_run 2)) H0).
Defined.

(** A run asked to start ten rows before the end of a data set of three
    rows, for at most two records: the slice has width 2, reading its
    first row raises [IndexError], and the turn moves by the batch size 4. *)
Lemma C4_witness :
  let st := Samples.before_start in
  let st' := batch_processor.batch_iteration Samples.cfg Samples.df 4 (-8) st in
  (batch_processor.current_index st < -8)%Z
  /\ Z.min 4 (-8 - batch_processor.current_index st) = 2%Z
  /\ batch_processor.current_index st' = (-6)%Z
  /\ batch_processor.results_file st' = None
  /\ batch_processor.while_loop Samples.cfg Samples.df 4 (-8) 1 st = Some st'.
Proof.
  cbn zeta.
  assert (Hrun : (batch_processor.current_index Samples.before_start < -8)%Z).
  { vm_compute. reflexivity. }
  assert (Hraise : fst (batch_processor.try_body Samples.cfg Samples.df 4 (-8)
                          Samples.before_start)
          = Raise (Exn IndexError (u "single positional indexer is out-of-bounds"))).
  { vm_compute. reflexivity. }
  destruct (C4_exception_skips_batch Samples.cfg Samples.df 4 (-8)
              Samples.before_start _ Hrun Hraise)
    as (_ & Hidx & Hres & _ & _ & _ & _ & _ & _ & _ & Hloop).
  split; [exact Hrun|]. split; [vm_compute; reflexivity|].
  split; [rewrite Hidx; vm_compute; reflexivity|].
  split; [rewrite Hres; vm_compute; reflexivity|].
  rewrite Hloop. vm_compute. reflexivity.
Defined.

(** The whole sample run: rows 0 and 2 are classified, row 1 is skipped,
    and the fuel 3 is enough. *)
Example process_dataset_sample :
  match batch_processor.process_dataset Samples.cfg Samples.df 3
          (Some 1%Z) None None None None Samples.always_good with
  | Ok (Some (summary, st)) =>
      records_processed summary = 2%Z
      /\ batch_processor.current_index st = 3%Z
      /\ option_map (map Outcome.index) (batch_processor.results_file st)
         = Some [0%Z; 2%Z]
      /\ option_map Checkpoint.last_processed_index
           (batch_processor.checkpoint_file st) = Some 3%Z
  | _ => False
  end.
Proof. vm_compute. repeat split. Qed.

(** A data set without rows, and one whose descriptions are numbers, are
    refused before the loop. *)
Example process_dataset_empty :
  batch_processor.process_dataset Samples.cfg [] 3 None None None None None
    Samples.always_good
  = Raise (Exn ValueError
             (u "Data validation failed: ['Dataset is empty']")).
Proof. vm_compute. reflexivity. Qed.

Example process_dataset_numeric_column :
  batch_processor.process_dataset Samples.cfg Samples.numbered 3 None None
    None None None Samples.always_good
  = Raise (Exn AttributeError
             (u "Can only use .str accessor with string values!")).
Proof. vm_compute. reflexivity. Qed.

End OnSamples.

(* ===================================================================== *)
(** * Further properties *)
(* ===================================================================== *)

(** ** Responses and labels *)

Lemma filter_nil_iff {A} (f : A -> bool) (l : list A) :
  List.filter f l = [] <-> Forall (fun x => f x = false) l.
Proof.
  induction l as [|x l IH]; cbn.
  - split; [constructor|done].
  - destruct (f x) eqn:E.
    + split; [done|]. intros Hf. inversion Hf; congruence.
    + rewrite IH. split.
      * intros Hl. by constructor.
      * intros Hf. by inversion Hf.
Qed.

Section Quality.
Context `{PyRuntime}.

(** X1.  [check_response_quality] accepts a list of labels exactly when it
    is not empty, holds at most four labels, and no confidence is below the
    threshold.  It accepts exactly when it reports no issue; it reports at
    most two issues, and the empty list is the one with the single issue
    ["No labels predicted"]. *)
Theorem check_response_quality_accepts (labels_data : list label_pred)
    (min_confidence : pyfloat) :
  let '(is_quality, issues) :=
    validators.check_response_quality labels_data min_confidence in
  (is_quality = true <->
     labels_data <> [] /\ (length labels_data <= 4)%nat
     /\ Forall (fun item => Float.ltb (confidence item) min_confidence = false)
               labels_data)
  /\ (is_quality = true <-> issues = [])
  /\ (1 <= length issues <= 2 \/ issues = [])%nat
  /\ (labels_data = [] <-> issues = [u "No labels predicted"]).
Proof.
  unfold validators.check_response_quality.
  destruct labels_data as [|p l] eqn:El.
  { split; [|split; [|split]]; try done.
    - split; [done|]. by intros [? _].
    - left. cbn. lia. }
  rewrite <- El. assert (Hne : labels_data <> []) by (by rewrite El).
  clear El.
  pose proof (filter_nil_iff
    (fun item => Float.ltb (confidence item) min_confidence) labels_data) as Hf.
  destruct (List.filter _ labels_data) as [|q low] eqn:Efilter;
    cbn [map]; destruct (4 <? length labels_data)%nat eqn:Elen;
    [apply Nat.ltb_lt in Elen|apply Nat.ltb_ge in Elen
    |apply Nat.ltb_lt in Elen|apply Nat.ltb_ge in Elen];
    cbn [app length Nat.eqb]; (split; [|split; [|split]]).
  all: try (split; [done|]).
  all: try (split; [|done]).
  all: try (intros (_ & ? & Hall); first [lia | by apply Hf in Hall]).
  all: try (intros _; split; [done|split; [lia|by apply Hf]]).
  all: try (by right).
  all: try (left; lia).
  all: try done.
  all: intros [= E]; revert E; vm_compute; done.
Qed.

End Quality.

Section Arrays.
Context `{PyRuntime}.

Lemma check_items_complete (labels_data : list json) (i : nat) :
  Forall Spec.checked_item labels_data ->
  validators.check_items i labels_data = Ok None.
Proof.
  intros Hall. revert i.
  induction Hall as [|item rest (d & c & x & -> & Hl & Hc & Hx & Hu) _ IH];
    intros i; [done|].
  cbn [validators.check_items]. rewrite Hl, Hc, Hx. cbn [negb].
  apply in_unit_iff in Hu. rewrite Hu. cbn [negb]. apply IH.
Qed.

(** X2.  When the cleaned text of a response parses to an array, the
    response is valid exactly when every item of the array is an object
    with a label and with a confidence that converts to a float of [0, 1];
    the array is then returned as it is.  Otherwise the response is refused
    and no list is returned. *)
Theorem direct_array_valid_iff (response : pystr) (labels_data : list json) :
  json_loads (validators.clean_response response) = inr (JArr labels_data) ->
  (validators.validate_json_response (Some response)
   = (true, Some labels_data, u "Valid")
   <-> Forall Spec.checked_item labels_data)
  /\ (~ Forall Spec.checked_item labels_data ->
      exists message,
        validators.validate_json_response (Some response)
        = (false, None, message)).
Proof.
  intros Hparsed. unfold validators.validate_json_response. rewrite Hparsed.
  unfold validators.validate_parsed. cbn [bind].
  destruct (validators.check_items 0 labels_data) as [[message|]|e] eqn:E;
    cbn [bind].
  - split; [split; [done|]|by eauto].
    intros Hall. by rewrite (check_items_complete _ 0 Hall) in E.
  - apply check_items_checked in E. split; [done|]. by intros [].
  - split; [split; [done|]|by eauto].
    intros Hall. by rewrite (check_items_complete _ 0 Hall) in E.
Qed.

End Arrays.

(** Stripping white space. *)

Lemma lstrip_spaces (pre s : pystr) :
  forallb Py.isspace pre = true -> Py.lstrip (pre ++ s) = Py.lstrip s.
Proof.
  induction pre as [|c pre IH]; [done|]. cbn [forallb app Py.lstrip].
  intros [Hc Hpre]%andb_prop. rewrite Hc. by apply IH.
Qed.

Lemma lstrip_snoc (s : pystr) (c : Py.char) :
  Py.isspace c = false -> Py.lstrip (s ++ [c]) = Py.lstrip s ++ [c].
Proof.
  intros Hc. induction s as [|d s IH]; cbn [app Py.lstrip].
  - by rewrite Hc.
  - by destruct (Py.isspace d).
Qed.

Lemma rstrip_cons (c : Py.char) (s : pystr) :
  Py.isspace c = false -> Py.rstrip (c :: s) = c :: Py.rstrip s.
Proof.
  intros Hc. unfold Py.rstrip. cbn [rev].
  by rewrite lstrip_snoc, rev_unit.
Qed.

Lemma rstrip_spaces (s post : pystr) :
  forallb Py.isspace post = true -> Py.rstrip (s ++ post) = Py.rstrip s.
Proof.
  intros Hpost. unfold Py.rstrip. rewrite rev_app_distr.
  rewrite lstrip_spaces; [done|].
  rewrite forallb_forall in *. intros c Hc. apply Hpost.
  by apply in_rev.
Qed.

Lemma rstrip_snoc (s : pystr) (c : Py.char) :
  Py.isspace c = false -> Py.rstrip (s ++ [c]) = s ++ [c].
Proof.
  intros Hc. unfold Py.rstrip. rewrite rev_unit. cbn [Py.lstrip].
  rewrite Hc. cbn [rev]. by rewrite rev_involutive.
Qed.

Lemma startswith_app (p s : pystr) : Py.startswith (p ++ s) p = true.
Proof.
  induction p as [|c p IH]; [by destruct s|].
  cbn [app Py.startswith]. by rewrite N.eqb_refl.
Qed.

Lemma endswith_app (s p : pystr) : Py.endswith (s ++ p) p = true.
Proof. unfold Py.endswith. rewrite rev_app_distr. apply startswith_app. Qed.

Lemma u_fence_json : u "```json" = [96; 96; 96; 106; 115; 111; 110]%N.
Proof. reflexivity. Qed.

Lemma u_fence : u "```" = [96; 96; 96]%N.
Proof. reflexivity. Qed.

Lemma strip_fenced (pre opening body post : pystr) :
  forallb Py.isspace pre = true -> forallb Py.isspace post = true ->
  Py.startswith opening (u "`") = true ->
  Py.strip (pre ++ opening ++ body ++ u "```" ++ post)
  = opening ++ body ++ u "```".
Proof.
  intros Hpre Hpost Hopen. unfold Py.strip. rewrite lstrip_spaces by done.
  destruct opening as [|c opening]; [done|].
  change (u "`") with [96%N] in Hopen.
  cbn [Py.startswith] in Hopen. apply andb_prop in Hopen as [Hc _].
  apply N.eqb_eq in Hc. subst c.
  cbn [app Py.lstrip]. change (Py.isspace 96%N) with false. cbv iota.
  rewrite rstrip_cons by done. f_equal.
  rewrite !app_assoc. rewrite rstrip_spaces by done.
  rewrite u_fence. change [96; 96; 96]%N with ([96; 96]%N ++ [96%N]).
  rewrite app_assoc. by rewrite rstrip_snoc.
Qed.

(** X3.  A markdown fence tagged [json] is removed together with the white
    space around it: what is parsed is the stripped body.  A fence without
    the tag is removed at its end only, so the text handed to the parser
    still begins with the three backquotes. *)
Theorem clean_response_fence (pre body post : pystr) :
  forallb Py.isspace pre = true -> forallb Py.isspace post = true ->
  validators.clean_response (pre ++ u "```json" ++ body ++ u "```" ++ post)
  = Py.strip body
  /\ (Py.startswith (body ++ u "```") (u "json") = false ->
      validators.clean_response (pre ++ u "```" ++ body ++ u "```" ++ post)
      = u "```" ++ Py.rstrip body).
Proof.
  intros Hpre Hpost. split.
  - unfold validators.clean_response.
    rewrite strip_fenced by done.
    rewrite startswith_app.
    replace (drop 7 (u "```json" ++ body ++ u "```")) with (body ++ u "```")
      by (by rewrite u_fence_json).
    rewrite endswith_app. rewrite length_app, u_fence. cbn [length].
    replace (length body + 3 - 3)%nat with (length body) by lia.
    by rewrite take_app_length.
  - intros Hjson. unfold validators.clean_response.
    rewrite strip_fenced by done.
    replace (Py.startswith (u "```" ++ body ++ u "```") (u "```json"))
      with (Py.startswith (body ++ u "```") (u "json")) by done.
    rewrite Hjson.
    rewrite (app_assoc _ body), endswith_app.
    rewrite length_app. rewrite (u_fence) at 2. cbn [length].
    replace (length (u "```" ++ body) + 3 - 3)%nat
      with (length (u "```" ++ body)) by lia.
    rewrite take_app_length. unfold Py.strip.
    change (u "```" ++ body) with (96%N :: 96%N :: 96%N :: body).
    cbn [Py.lstrip].
    change (Py.isspace 96%N) with false. cbv iota.
    by rewrite !rstrip_cons.
Qed.

Section Depth.
Context `{PyRuntime}.

Lemma find_array_beyond_depth (depth : nat) (path : list pystr)
    (payload : list label_pred) :
  (depth <= length path)%nat ->
  validators.find_array_recursive depth (Spec.nested path payload) = None.
Proof.
  revert path. induction depth as [|depth IH]; intros path Hlen; [done|].
  destruct path as [|key path]; cbn [length] in Hlen; [lia|].
  cbn [Spec.nested validators.find_array_recursive].
  rewrite IH by lia. done.
Qed.

Lemma reconstruct_single_object (key : pystr) (d : Json.dict) :
  validators._try_reconstruct_from_flat_structure [(key, JObj d)] = Ok None.
Proof.
  unfold validators._try_reconstruct_from_flat_structure.
  cbn [length validators.numbered_pairs Json.get].
  destruct (Py.eqb (u "label" ++ Py.str_of_nat 1) key) eqn:El;
    destruct (Py.eqb (u "confidence" ++ Py.str_of_nat 1) key) eqn:Ec.
  { apply str_eqb_eq in El, Ec. subst key.
    symmetry in Ec. by apply label_key_not_confidence in Ec. }
  all: cbn [bind Json.keys map fst List.filter].
  all: fold (Spec.names_label key); fold (Spec.names_confidence key).
  all: destruct (Spec.names_label key), (Spec.names_confidence key);
    cbn [length Nat.eqb Nat.ltb Nat.leb andb]; try done.
  all: cbn [Py.sorted foldr Py.insert_sorted zip zip_with
            validators.keyed_pairs Json.get].
  all: assert (Py.eqb key key = true) as -> by (by apply str_eqb_eq).
  all: done.
Qed.

(** X4.  The recursive search stops at depth five: an array below five keys
    or more is not found, and the response is refused with the message that
    lists the key of the outer object. *)
Theorem nested_beyond_depth (path : list pystr) (payload : list label_pred) :
  (5 <= length path)%nat ->
  validators.validate_parsed (Spec.nested path payload)
  = Ok (false, None,
        u "No valid label array found in response. Available keys: "
        ++ repr_list (take 1 path)).
Proof.
  intros Hlen.
  pose proof (find_array_beyond_depth 5 path payload Hlen) as Hfind.
  destruct path as [|key [|key' path]]; cbn [length] in Hlen; try lia.
  cbn [Spec.nested] in *. unfold validators.validate_parsed.
  rewrite find_known_key_single, Hfind.
  rewrite reconstruct_single_object. done.
Qed.

End Depth.

Lemma get_app (pre d : Json.dict) (k : pystr) :
  Json.get (pre ++ d) k
  = match Json.get pre k with
    | Some v => Some v
    | None => Json.get d k
    end.
Proof.
  induction pre as [|[k' v] pre IH]; [done|].
  cbn [app Json.get]. by destruct (Py.eqb k k').
Qed.

Section Gap.
Context `{PyRuntime}.

Lemma numbered_pairs_prefix (first later : list label_pred) (k fuel i : nat) :
  (length first + 1 < k)%nat ->
  (length first - i < fuel)%nat ->
  (i <= length first)%nat ->
  validators.numbered_pairs fuel
    (Spec.numbered_fields 1 first ++ Spec.numbered_fields k later) (S i)
  = Ok (Some (Spec.normalized (drop i first))).
Proof.
  intros Hk. revert i. induction fuel as [|fuel IH]; intros i Hfuel Hi; [lia|].
  cbn [validators.numbered_pairs].
  rewrite !get_app, !get_numbered_label, !get_numbered_confidence.
  cbn [Nat.leb]. replace (S i - 1)%nat with i by lia.
  assert ((k <=? S i)%nat = false) as -> by (apply Nat.leb_gt; lia).
  destruct (first !! i) as [p|] eqn:Ep; cbn [option_map].
  - cbn [py_float]. apply lookup_lt_Some in Ep as Hlt.
    rewrite IH by lia.
    cbn [bind option_map]. by rewrite (drop_S _ _ _ Ep).
  - apply lookup_ge_None in Ep. by rewrite drop_ge.
Qed.

(** X5.  The numbered pattern of a flat object stops at the first number
    without a pair: when the numbering has a gap, the pairs after the gap
    are dropped without a message, and the response is valid with the pairs
    before the gap. *)
Theorem numbering_gap_drops_later_pairs (first later : list label_pred)
    (k : nat) :
  Spec.label_payload first -> first <> [] -> (length first + 1 < k)%nat ->
  validators.validate_parsed
    (JObj (Spec.numbered_fields 1 first ++ Spec.numbered_fields k later))
  = Ok (true, Some (Spec.normalized first), u "Valid").
Proof.
  intros Hp Hne Hk.
  assert (Hscalar : Spec.scalar_fields
            (Spec.numbered_fields 1 first ++ Spec.numbered_fields k later)).
  { apply Forall_app; split; apply numbered_fields_scalar. }
  apply validate_parsed_object; [|by apply check_items_normalized].
  rewrite find_known_key_scalar, find_array_scalar by done.
  unfold validators._try_reconstruct_from_flat_structure.
  rewrite (numbered_pairs_prefix first later k _ 0);
    [|done|rewrite length_app, !numbered_fields_length; lia|lia].
  rewrite drop_0. cbn [bind]. by destruct first.
Qed.

End Gap.

Section Labels.
Context `{PyRuntime}.

Lemma validate_label_outcome (item : json) :
  match validators.validate_label item with
  | Ok (kept, warning) =>
      Terms.tolerated item
      /\ match kept with
         | Some p => Spec.in_taxonomy (label p) /\ Float.in_unit (confidence p)
         | None => is_Some warning
         end
  | Raise e =>
      ~ Terms.tolerated item
      /\ (exn_class_of e = AttributeError \/ exn_class_of e = OverflowError)
  end.
Proof.
  destruct item as [| | | | |l|d]; try (split; [by intros []|by left]).
  unfold validators.validate_label, Terms.tolerated.
  destruct (Json.get d (u "label")) as [[| | | |s| |]|];
    try (split; [by intros []|by left]); cbn [bind].
  - destruct (Py.mem (Py.strip s) labels.get_label_list) eqn:Emem; cbn [negb].
    2:{ split; [done|by eexists]. }
    destruct (Json.get d (u "confidence")) as [c|].
    + destruct (py_float c) as [x| | |] eqn:Ec.
      * split; [done|]. split; [by apply mem_in_taxonomy|apply clamp_in_unit].
      * split; [done|]. split; [by apply mem_in_taxonomy|]. cbn. lra.
      * split; [done|]. split; [by apply mem_in_taxonomy|]. cbn. lra.
      * split; [|by right]. intros Htol. by apply Htol.
    + cbn [py_float]. split; [done|].
      split; [by apply mem_in_taxonomy|apply clamp_in_unit].
  - split; [done|]. cbn. by eexists.
Qed.

Lemma validate_labels_clean (labels_data : list json)
    (cleaned_data : list label_pred) (warnings : list pystr) :
  validators.validate_labels labels_data = Ok (cleaned_data, warnings) ->
  Forall (fun p => Spec.in_taxonomy (label p) /\ Float.in_unit (confidence p))
         cleaned_data.
Proof.
  revert cleaned_data warnings.
  induction labels_data as [|item rest IH]; intros cleaned_data warnings.
  { intros [= <- <-]. constructor. }
  cbn [validators.validate_labels].
  pose proof (validate_label_outcome item) as Hitem.
  destruct (validators.validate_label item) as [[kept warning]|e]; [|done].
  cbn [bind].
  destruct (validators.validate_labels rest) as [[cleaned' warnings']|e];
    [|done].
  cbn [bind fst snd]. intros [= <- <-].
  apply Forall_app; split; [|by eapply IH].
  destruct Hitem as [_ Hkept]. destruct kept; cbn; [by constructor|done].
Qed.

(** X6.  [validate_labels] returns exactly on the lists of tolerated
    entries: objects whose label, if present, is a string, and whose
    confidence is not an integer too large for a float when the label is of
    the taxonomy.  What it returns holds labels of the taxonomy with
    confidences in [0, 1] only; every entry is kept or warned about, so the
    kept entries and the warnings are each at most as many as the entries,
    and together at least as many.  On any other list it raises
    [AttributeError] or [OverflowError]. *)
Theorem validate_labels_raises_iff (labels_data : list json) :
  match validators.validate_labels labels_data with
  | Ok (cleaned_data, warnings) =>
      Forall Terms.tolerated labels_data
      /\ Forall (fun p => Spec.in_taxonomy (label p)
                          /\ Float.in_unit (confidence p)) cleaned_data
      /\ (length cleaned_data <= length labels_data)%nat
      /\ (length warnings <= length labels_data)%nat
      /\ (length labels_data <= length cleaned_data + length warnings)%nat
  | Raise e =>
      ~ Forall Terms.tolerated labels_data
      /\ (exn_class_of e = AttributeError \/ exn_class_of e = OverflowError)
  end.
Proof.
  induction labels_data as [|item rest IH].
  { cbn. repeat split; try constructor. }
  cbn [validators.validate_labels].
  pose proof (validate_label_outcome item) as Hitem.
  destruct (validators.validate_label item) as [[kept warning]|e].
  2:{ cbn [bind]. destruct Hitem as [Hnot Hclass]. split; [|done].
      intros Hall. apply Hnot. by inversion Hall. }
  cbn [bind].
  destruct (validators.validate_labels rest) as [[cleaned' warnings']|e].
  2:{ cbn [bind]. destruct IH as [Hnot Hclass]. split; [|done].
      intros Hall. apply Hnot. by inversion Hall. }
  cbn [bind fst snd].
  destruct Hitem as [Htol Hkept], IH as (Hall & Hclean & Hc & Hw & Hcw).
  split; [by constructor|]. rewrite !length_app. cbn [length].
  split; [|destruct kept, warning; cbn; try lia; by destruct Hkept].
  apply Forall_app; split; [|done].
  destruct kept; cbn; [by constructor|done].
Qed.

End Labels.

Section Selection.
Context `{PyRuntime}.

Lemma usable_passes (r : row) :
  Terms.usable r = true ->
  validators.validate_text_record
    (Tieu_de r) (Description r) (Noi_dung_tin_bai r) = Ok (true, []).
Proof.
  unfold Terms.usable.
  destruct (Tieu_de r) as [t|], (Description r) as [d|],
    (Noi_dung_tin_bai r) as [c|]; try done.
  intros [[[Ht Hd]%andb_prop Hc]%andb_prop Hlen]%andb_prop.
  unfold validators.validate_text_record. rewrite !is_blank_text.
  apply negb_true_iff in Ht, Hd, Hc. rewrite Ht, Hd, Hc.
  cbn [bind validators.cell_strip].
  apply Nat.leb_le in Hlen.
  assert ((length (Py.strip t) <? 5)%nat = false) as ->
    by (apply Nat.ltb_ge; lia).
  done.
Qed.

Lemma passes_usable (r : row) : Spec.passes r <-> Terms.usable r = true.
Proof.
  split.
  - intros [errors Hpass].
    apply validate_text_record_passes in Hpass
      as (t & d & c & Ht & Hd & Hc & Hnt & Hnd & Hnc & Hlen).
    unfold Terms.usable. rewrite Ht, Hd, Hc.
    assert (Hneq : forall s : pystr, s <> [] -> Py.eqb s [] = false).
    { intros s Hs. destruct (Py.eqb s []) eqn:E; [|done].
      by apply str_eqb_eq in E. }
    rewrite !Hneq by done. cbn [negb andb]. by apply Nat.leb_le.
  - intros Hu. eexists. by apply usable_passes.
Qed.

Lemma prepare_record_prepared (df : list row) (idx : Z) (r : row) :
  data_processor.iloc df idx = Ok r ->
  data_processor.prepare_record df idx = Ok (Terms.prepared df idx).
Proof.
  intros Hr. unfold data_processor.prepare_record, Terms.prepared.
  rewrite Hr. cbn [bind].
  destruct (Terms.usable r) eqn:Hu.
  - by rewrite usable_passes.
  - destruct (validators.validate_text_record _ _ _) as [[[] errors]|e] eqn:E;
      try done.
    assert (Spec.passes r) as Hp%passes_usable by (by exists errors).
    congruence.
Qed.

Lemma iloc_in_range (df : list row) (idx : Z) :
  (- Z.of_nat (length df) <= idx < Z.of_nat (length df))%Z ->
  exists r, data_processor.iloc df idx = Ok r.
Proof.
  intros Hidx. unfold data_processor.iloc.
  set (pos := (if (idx <? 0)%Z then Z.of_nat (length df) + idx else idx)%Z).
  assert (Hpos : (0 <= pos < Z.of_nat (length df))%Z).
  { unfold pos. destruct (Z.ltb_spec idx 0); lia. }
  assert (((0 <=? pos) && (pos <? Z.of_nat (length df)))%Z = true) as ->.
  { apply andb_true_intro. split; [apply Z.leb_le|apply Z.ltb_lt]; lia. }
  destruct (df !! Z.to_nat pos) as [r|] eqn:E; [by exists r|].
  apply lookup_ge_None in E. lia.
Qed.

Lemma in_range (a b idx : Z) :
  In idx (data_processor.range a b) <-> (a <= idx < b)%Z.
Proof.
  unfold data_processor.range. rewrite in_map_iff. split.
  - intros (k & <- & Hk%in_seq). lia.
  - intros Hidx. exists (Z.to_nat (idx - a)). split; [lia|].
    apply in_seq. lia.
Qed.

Lemma prepare_records_prepared (df : list row) (idxs : list Z) :
  (forall idx, In idx idxs ->
               (- Z.of_nat (length df) <= idx < Z.of_nat (length df))%Z) ->
  data_processor.prepare_records df idxs = Ok (omap (Terms.prepared df) idxs).
Proof.
  induction idxs as [|idx idxs IH]; intros Hin; [done|].
  cbn [data_processor.prepare_records].
  destruct (iloc_in_range df idx) as [r Hr]; [apply Hin; by left|].
  rewrite (prepare_record_prepared df idx r Hr). cbn [bind].
  rewrite IH by (intros; apply Hin; by right). cbn [bind omap list_omap].
  destruct (Terms.prepared df idx); reflexivity.
Qed.

Lemma process_batch_prepared (df : list row) (start_idx batch_size : Z) :
  (- Z.of_nat (length df) <= start_idx)%Z ->
  data_processor.process_batch df start_idx batch_size
  = Ok (omap (Terms.prepared df)
          (data_processor.range start_idx
             (Z.min (start_idx + batch_size) (Z.of_nat (length df))))).
Proof.
  intros Hstart. apply prepare_records_prepared.
  intros idx Hidx%in_range. lia.
Qed.

(** X7.  [process_batch] returns, in the order of the data set, the records
    of exactly those rows of its slice that are usable: three texts, none of
    them blank, with a title of five characters or more once stripped.  This
    holds for every start index from minus the length of the data set on
    (negative positions count from the end); below that, a batch of positive
    size raises [IndexError]. *)
Theorem process_batch_selects (df : list row) (start_idx batch_size : Z) :
  let end_idx := Z.min (start_idx + batch_size) (Z.of_nat (length df)) in
  ((- Z.of_nat (length df) <= start_idx)%Z ->
   data_processor.process_batch df start_idx batch_size
   = Ok (omap (Terms.prepared df) (data_processor.range start_idx end_idx)))
  /\ ((start_idx < - Z.of_nat (length df))%Z -> (0 < batch_size)%Z ->
      exists e,
        data_processor.process_batch df start_idx batch_size = Raise e
        /\ exn_class_of e = IndexError).
Proof.
  intros end_idx. split; [apply process_batch_prepared|].
  unfold data_processor.process_batch. fold end_idx.
  - intros Hstart Hsize.
    unfold data_processor.range.
    destruct (Z.to_nat (end_idx - start_idx)) as [|n] eqn:En; [lia|].
    cbn [seq map data_processor.prepare_records].
    unfold data_processor.prepare_record at 1, data_processor.iloc.
    rewrite Z.add_0_r.
    assert ((start_idx <? 0)%Z = true) as -> by (apply Z.ltb_lt; lia).
    assert ((0 <=? Z.of_nat (length df) + start_idx)%Z = false) as ->
      by (apply Z.leb_gt; lia).
    cbn [andb bind]. by eexists.
Qed.

End Selection.

Section KnownKey.
Context `{PyRuntime}.

(** X22.  In an object, the first of the known keys that holds a list
    decides: the response is valid exactly when every item of that list
    passes the checks, and the list is returned as it is, whatever else the
    object holds (a label array nested below another key is not looked
    for). *)
Theorem known_key_decides (response : pystr) (d : Json.dict)
    (labels_data : list json) :
  json_loads (validators.clean_response response) = inr (JObj d) ->
  validators.find_known_key d validators.possible_keys = Some labels_data ->
  (validators.validate_json_response (Some response)
   = (true, Some labels_data, u "Valid")
   <-> Forall Spec.checked_item labels_data)
  /\ (~ Forall Spec.checked_item labels_data ->
      exists message,
        validators.validate_json_response (Some response)
        = (false, None, message)).
Proof.
  intros Hparsed Hkey. unfold validators.validate_json_response.
  rewrite Hparsed. unfold validators.validate_parsed. rewrite Hkey.
  cbn [bind].
  destruct (validators.check_items 0 labels_data) as [[message|]|e] eqn:E;
    cbn [bind].
  - split; [split; [done|]|by eauto].
    intros Hall. by rewrite (check_items_complete _ 0 Hall) in E.
  - apply check_items_checked in E. split; [done|]. by intros [].
  - split; [split; [done|]|by eauto].
    intros Hall. by rewrite (check_items_complete _ 0 Hall) in E.
Qed.

End KnownKey.

(** ** The client *)

Lemma retry_ok {A} (I : world -> Prop) (Q : A -> Prop)
    (f : world -> result A * world) (backoff : Z) :
  (forall w, I w -> I (snd (f w)) /\ forall a, fst (f w) = Ok a -> Q a) ->
  (forall seconds w, I w -> I (sleep seconds w)) ->
  forall tries delay w a,
    I w -> fst (retry tries delay backoff f w) = Ok (Some a) -> Q a.
Proof.
  intros Hf Hsleep. induction tries as [|tries IH]; intros delay w a Hw; cbn.
  { discriminate. }
  destruct (Hf w Hw) as [Hw' Ha]. destruct (f w) as [[a'|e'] w']; cbn in *.
  { intros [= <-]. by apply Ha. }
  destruct tries as [|tries]; cbn.
  { discriminate. }
  apply IH. by apply Hsleep.
Qed.

Lemma retry_calls {A} (f : world -> result A * world) (backoff : Z) :
  (forall w, calls (snd (f w)) = S (calls w)) ->
  forall tries delay w,
    (calls w + Nat.min 1 tries <= calls (snd (retry tries delay backoff f w))
     <= calls w + tries)%nat.
Proof.
  intros Hf. induction tries as [|tries IH]; intros delay w; cbn.
  { lia. }
  specialize (Hf w). destruct (f w) as [[a|e] w']; cbn in *.
  { lia. }
  destruct tries as [|tries]; cbn [snd].
  { lia. }
  specialize (IH (delay * backoff)%Z (sleep delay w')).
  change (calls (sleep delay w')) with (calls w') in IH. lia.
Qed.

Section Client.
Context `{PyRuntime}.
Variable cfg : config.

Lemma api_attempt_calls (t d c : cell) (model : pystr) (w : world) :
  calls (snd (api_client.api_attempt cfg t d c model w)) = S (calls w).
Proof.
  unfold api_client.api_attempt. by destruct (replies w (calls w)).
Qed.

Lemma api_attempt_ok (t d c : cell) (model : pystr) (w : world)
    (resp : api_client.response) (model_used : pystr) :
  fst (api_client.api_attempt cfg t d c model w) = Ok (resp, model_used) ->
  model_used = (if Py.eqb model [] then DEFAULT_MODEL cfg else model)
  /\ exists n,
       replies w n
       = Completion (api_client.message_content resp)
           (api_client.usage_prompt_tokens resp)
           (api_client.usage_completion_tokens resp).
Proof.
  unfold api_client.api_attempt.
  destruct (replies w (calls w)) eqn:Er; cbn; try discriminate.
  intros [= <- <-]. split; [done|]. by exists (calls w).
Qed.

(** A successful classification: the labels are clean, the model is the
    one called, and the cost is that of the tokens that a completion of the
    service reported. *)
Lemma call_and_validate_success (t d c : cell) (use_fallback : bool)
    (w w' : world) (res : Result.t) :
  api_client.call_and_validate cfg t d c
    (if use_fallback then api_client.self_fallback_model cfg
     else api_client.self_model cfg) w = ((true, res), w') ->
  exists labels warnings issues content p o n,
    Result.labels res = Some labels /\ Forall Terms.clean labels
    /\ Result.model_used res = Some (Terms.model_called cfg use_fallback)
    /\ replies w n = Completion content p o
    /\ Result.cost res = Some (cost_calculator.calculate_cost p o)
    /\ Result.warnings res = Some warnings
    /\ Result.quality_issues res = Some issues.
Proof.
  unfold api_client.call_and_validate, api_client._make_api_call.
  set (model := if use_fallback then api_client.self_fallback_model cfg
                else api_client.self_model cfg).
  assert (Hok : forall a,
    fst (retry 3 1 2 (api_client.api_attempt cfg t d c model) w) = Ok (Some a) ->
    snd a = Terms.model_called cfg use_fallback
    /\ exists n, replies w n
         = Completion (api_client.message_content (fst a))
             (api_client.usage_prompt_tokens (fst a))
             (api_client.usage_completion_tokens (fst a))).
  { intros a.
    apply (retry_ok (fun w' => replies w' = replies w)
             (fun a : api_client.response * pystr =>
                snd a = Terms.model_called cfg use_fallback
                /\ exists n, replies w n
                     = Completion (api_client.message_content (fst a))
                         (api_client.usage_prompt_tokens (fst a))
                         (api_client.usage_completion_tokens (fst a))));
      [| |done].
    - intros w0 Hw0. split.
      + destruct (api_attempt_grows cfg t d c model w0) as [-> _]. done.
      + intros [resp m] Ha. apply api_attempt_ok in Ha as [-> [n Hn]].
        rewrite Hw0 in Hn. split; [|by exists n].
        unfold model, Terms.model_called, api_client.self_fallback_model,
          api_client.self_model.
        destruct use_fallback; [done|].
        by destruct (Py.eqb (DEFAULT_MODEL cfg) []).
    - done. }
  destruct (retry 3 1 2 _ w) as [[[[resp model_used]|]|e] w0] eqn:Er; cbn;
    try discriminate.
  destruct (Hok _ eq_refl) as [Hm [n Hn]]. cbn [fst snd] in Hm, Hn.
  destruct (validators.validate_json_response _) as [[[] parsed] msg];
    [|discriminate].
  destruct (validators.validate_labels _) as [[cleaned warnings]|e] eqn:El;
    [|discriminate].
  destruct (validators.check_response_quality _ _) as [is_quality issues].
  intros [= <- _]. cbn. subst model_used.
  eexists cleaned, warnings, _, _, _, _, n.
  repeat split; try done. by eapply validate_labels_clean.
Qed.

Lemma classify_text_success (t d c : cell) (use_fallback : bool)
    (w w' : world) (res : Result.t) :
  api_client.classify_text cfg t d c use_fallback w = (Ok (true, res), w') ->
  exists labels warnings issues content p o n,
    Result.labels res = Some labels /\ Forall Terms.clean labels
    /\ Result.model_used res = Some (Terms.model_called cfg use_fallback)
    /\ replies w n = Completion content p o
    /\ Result.cost res = Some (cost_calculator.calculate_cost p o)
    /\ Result.warnings res = Some warnings
    /\ Result.quality_issues res = Some issues.
Proof.
  destruct (classify_text_cases cfg t d c use_fallback w)
    as [(e & _ & ->)|[(prompt & e & _ & _ & ->)|(prompt & n & _ & _ & ->)]];
    [discriminate|discriminate|].
  intros [= Hres Hw]. apply (call_and_validate_success t d c use_fallback w w').
  destruct (api_client.call_and_validate _ _ _ _ _ _) as [sr w0].
  cbn in Hres, Hw. by subst.
Qed.

Lemma classify_text_failure (t d c : cell) (use_fallback : bool)
    (w w' : world) (res : Result.t) :
  api_client.classify_text cfg t d c use_fallback w = (Ok (false, res), w') ->
  is_Some (Result.error res).
Proof.
  intros E. pose proof (classify_text_result cfg t d c use_fallback w) as Hr.
  rewrite E in Hr. destruct Hr as (e & -> & _). by eexists.
Qed.

Lemma call_and_validate_calls (t d c : cell) (model : pystr) (w : world) :
  (calls w + 1
   <= calls (snd (api_client.call_and_validate cfg t d c model w))
   <= calls w + 3)%nat.
Proof.
  unfold api_client.call_and_validate, api_client._make_api_call.
  pose proof (retry_calls (api_client.api_attempt cfg t d c model)
                2 (api_attempt_calls t d c _) 3 1 w) as Hc.
  destruct (retry 3 1 2 _ w) as [[[[resp model_used]|]|e] w']; cbn in *;
    try done.
  destruct (validators.validate_json_response _) as [[[] parsed] msg]; [|done].
  destruct (validators.validate_labels _) as [[cleaned warnings]|e]; [|done].
  by destruct (validators.check_response_quality _ _).
Qed.

(** [classify_text] makes at most three calls; it makes one at least when
    the messages of the record are built and their tokens counted, and
    leaves the outside as it is otherwise. *)
Lemma classify_text_calls (t d c : cell) (use_fallback : bool) (w : world) :
  (calls w <= calls (snd (api_client.classify_text cfg t d c use_fallback w))
   <= calls w + 3)%nat
  /\ (Terms.counted (Batch.Record_ 0 t d c) ->
      (calls w + 1
       <= calls (snd (api_client.classify_text cfg t d c use_fallback w)))%nat)
  /\ (~ Terms.counted (Batch.Record_ 0 t d c) ->
      snd (api_client.classify_text cfg t d c use_fallback w) = w).
Proof.
  pose proof (call_and_validate_calls t d c
                (if use_fallback then api_client.self_fallback_model cfg
                 else api_client.self_model cfg) w) as Hc.
  destruct (classify_text_cases cfg t d c use_fallback w)
    as [(e & He & ->)|[(prompt & e & Hp & He & ->)|(prompt & n & Hp & Hn & ->)]];
    cbn [snd].
  - split; [lia|]. split; [|done].
    intros (prompt & n & Hp & _). cbn in Hp. congruence.
  - split; [lia|]. split; [|done].
    intros (prompt' & n & Hp' & Hn). cbn in Hp'. congruence.
  - split; [lia|]. split; [lia|].
    intros Hnot. destruct Hnot. by exists prompt, n.
Qed.

Lemma classify_text_replies (t d c : cell) (use_fallback : bool) (w : world) :
  replies (snd (api_client.classify_text cfg t d c use_fallback w)) = replies w.
Proof. by destruct (classify_text_grows cfg t d c use_fallback w) as [-> _]. Qed.

Lemma success_entry_shape (index : Z) (res : Result.t) (use_fallback : bool)
    (w w' : world) (t d c : cell) :
  api_client.classify_text cfg t d c use_fallback w = (Ok (true, res), w') ->
  exists entry,
    api_client.success_entry index res
      (if use_fallback then Some true else None) = Ok entry
    /\ Terms.well_shaped entry /\ Terms.names_model cfg entry
    /\ Terms.priced (replies w) entry.
Proof.
  intros (labels & warnings & issues & content & p & o & n & Hl & Hclean & Hm
          & Hn & Hc & Hw & Hq)%classify_text_success.
  unfold api_client.success_entry. rewrite Hl, Hm, Hc, Hw, Hq.
  cbn [py_item bind default]. eexists. split; [done|].
  split; [|split].
  - cbn. by eexists _, _, _, _, _.
  - intros _. cbn. destruct use_fallback; [by right|by left].
  - intros _. cbn. by exists n, content, p, o.
Qed.

(** A failure entry is well shaped, names no model and has no cost. *)
Lemma failure_entry_shape (service : nat -> api_reply) (index : Z)
    (error : pystr) :
  Terms.well_shaped (api_client.failure_entry index error)
  /\ Terms.names_model cfg (api_client.failure_entry index error)
  /\ Terms.priced service (api_client.failure_entry index error).
Proof. cbn. by split; [|split]. Qed.

Lemma classify_record_entry (data : Batch.record) (w w1 : world)
    (entry : Outcome.t) :
  api_client.classify_record cfg data w = (Ok entry, w1) ->
  Terms.well_shaped entry /\ Terms.names_model cfg entry
  /\ Terms.priced (replies w) entry.
Proof.
  unfold api_client.classify_record.
  destruct (api_client.classify_text cfg _ _ _ false w)
    as [[[[] res]|e] w0] eqn:E1; [| |discriminate].
  { destruct (success_entry_shape (Batch.index data) _ _ _ _ _ _ _ E1)
      as (entry' & He & Hshape).
    cbn [negb] in He. rewrite He. by intros [= <- _]. }
  pose proof (classify_text_replies (Batch.title data) (Batch.description data)
                (Batch.content data) false w) as Hr.
  rewrite E1 in Hr. cbn [snd] in Hr.
  destruct (api_client.classify_text cfg _ _ _ true w0)
    as [[[[] res2]|e] w2] eqn:E2; [| |discriminate].
  { destruct (success_entry_shape (Batch.index data) _ _ _ _ _ _ _ E2)
      as (entry' & He & Hshape).
    cbn [negb] in He. rewrite He. rewrite Hr in Hshape. by intros [= <- _]. }
  intros [= <- _]. apply classify_text_failure in E1 as [e He].
  rewrite He. apply failure_entry_shape.
Qed.

(** The calls of the [try] body for one record. *)
Lemma classify_record_calls (data : Batch.record) (w : world) :
  (calls w <= calls (snd (api_client.classify_record cfg data w))
   <= calls w + 6)%nat
  /\ (Terms.counted data ->
      (calls w + 1
       <= calls (snd (api_client.classify_record cfg data w)))%nat)
  /\ (~ Terms.counted data ->
      calls (snd (api_client.classify_record cfg data w)) = calls w).
Proof.
  unfold api_client.classify_record.
  pose proof (classify_text_calls (Batch.title data) (Batch.description data)
                (Batch.content data) false w) as (H1 & H1' & H1'').
  destruct (api_client.classify_text cfg _ _ _ false w)
    as [[[[] res]|e] w0]; cbn [snd] in *.
  - split; [lia|]. split; [done|]. by intros ->%H1''.
  - pose proof (classify_text_calls (Batch.title data)
                  (Batch.description data) (Batch.content data) true w0)
      as (H2 & H2' & H2'').
    destruct (api_client.classify_text cfg _ _ _ true w0)
      as [[[[] res2]|e] w2]; cbn [snd] in *;
      (split; [lia|]; split;
       [intros Hc; specialize (H1' Hc); lia
       |intros Hc; rewrite (H2'' Hc); by rewrite (H1'' Hc)]).
  - split; [lia|]. split; [done|]. by intros ->%H1''.
Qed.

Lemma classify_batch_forall (Q : (nat -> api_reply) -> Outcome.t -> Prop) :
  (forall data w entry w1,
      api_client.classify_record cfg data w = (Ok entry, w1) ->
      Q (replies w) entry) ->
  (forall service index error,
      Q service (api_client.failure_entry index error)) ->
  forall batch w,
    Forall (Q (replies w)) (fst (api_client.classify_batch cfg batch w)).
Proof.
  intros Hrec Hfail. induction batch as [|data rest IH]; intros w.
  { constructor. }
  rewrite (classify_batch_cons cfg).
  pose proof (classify_record_grows cfg data w) as [Hr _].
  destruct (api_client.classify_record cfg data w) as [[entry|e] w1] eqn:Hentry;
    cbn [fst snd] in *.
  - constructor; [by eapply Hrec|].
    replace (replies w)
      with (replies match rest with [] => w1 | _ :: _ => sleep 1 w1 end)
      by (by destruct rest).
    apply IH.
  - constructor; [apply Hfail|]. rewrite <- Hr. apply IH.
Qed.

(** The entries of a batch: as many as records, well shaped, priced by
    completions of the service, which the batch leaves as it is. *)
Lemma classify_batch_well_formed (batch : list Batch.record) (w : world) :
  length (fst (api_client.classify_batch cfg batch w)) = length batch
  /\ Forall Terms.well_shaped (fst (api_client.classify_batch cfg batch w))
  /\ Forall (Terms.priced (replies w))
            (fst (api_client.classify_batch cfg batch w))
  /\ replies (snd (api_client.classify_batch cfg batch w)) = replies w.
Proof.
  split; [|split; [|split]].
  - pose proof (classify_batch_entries cfg batch w) as [Hidx _].
    apply (f_equal length) in Hidx. by rewrite !length_map in Hidx.
  - apply (classify_batch_forall (fun _ => Terms.well_shaped)).
    + intros data w0 entry w1 Hentry.
      by apply classify_record_entry in Hentry as [].
    + intros service index error.
      by destruct (failure_entry_shape service index error).
  - apply (classify_batch_forall Terms.priced).
    + intros data w0 entry w1 Hentry.
      by apply classify_record_entry in Hentry as (_ & _ & ?).
    + intros service index error.
      by destruct (failure_entry_shape service index error) as (_ & _ & ?).
  - by destruct (classify_batch_entries cfg batch w) as [_ [-> _]].
Qed.

(** X8.  Every entry that [classify_batch] returns is well shaped: a success
    lists labels of the taxonomy with confidences in [0, 1], has no error,
    and names its model, cost, warnings and quality issues; a failure has an
    error text, no labels and empty metadata. *)
Theorem classify_batch_well_shaped (batch : list Batch.record) (w : world) :
  Forall Terms.well_shaped (fst (api_client.classify_batch cfg batch w)).
Proof.
  apply (classify_batch_forall (fun _ => Terms.well_shaped)).
  - intros data w0 entry w1 Hentry.
    by apply classify_record_entry in Hentry as [].
  - intros service index error.
    by destruct (failure_entry_shape service index error).
Qed.

(** X9.  A successful entry without the fallback flag names the default
    model.  One with the flag names the fallback model, or the default
    model when the fallback model is the empty string: the second attempt
    then went to the same model as the first. *)
Theorem classify_batch_names_model (batch : list Batch.record) (w : world) :
  Forall (Terms.names_model cfg) (fst (api_client.classify_batch cfg batch w)).
Proof.
  apply (classify_batch_forall (fun _ => Terms.names_model cfg)).
  - intros data w0 entry w1 Hentry.
    by apply classify_record_entry in Hentry as (_ & ? & _).
  - intros service index error.
    by destruct (failure_entry_shape service index error) as (_ & ? & _).
Qed.

(** The calls of a batch: none for a record that is not counted, one to
    six for a record that is. *)
Lemma classify_batch_calls (batch : list Batch.record) (w : world) :
  (calls w <= calls (snd (api_client.classify_batch cfg batch w))
   <= calls w + 6 * length batch)%nat
  /\ (Forall Terms.counted batch ->
      (calls w + length batch
       <= calls (snd (api_client.classify_batch cfg batch w)))%nat)
  /\ (Forall (fun data => ~ Terms.counted data) batch ->
      calls (snd (api_client.classify_batch cfg batch w)) = calls w).
Proof.
  revert w. induction batch as [|data rest IH]; intros w.
  { cbn. split; [lia|]. split; [lia|done]. }
  rewrite (classify_batch_cons cfg).
  pose proof (classify_record_calls data w) as (Hc & Hc' & Hc'').
  destruct (api_client.classify_record cfg data w) as [[entry|e] w1];
    cbn [fst snd length] in *.
  - destruct (IH match rest with [] => w1 | _ :: _ => sleep 1 w1 end)
      as (Hr & Hr' & Hr'').
    replace (calls match rest with [] => w1 | _ :: _ => sleep 1 w1 end)
      with (calls w1) in Hr, Hr', Hr'' by (by destruct rest).
    split; [lia|]. split.
    + intros [Hd Hrest]%Forall_cons. specialize (Hc' Hd).
      specialize (Hr' Hrest). lia.
    + intros [Hd Hrest]%Forall_cons. rewrite (Hr'' Hrest). by apply Hc''.
  - destruct (IH w1) as (Hr & Hr' & Hr'').
    split; [lia|]. split.
    + intros [Hd Hrest]%Forall_cons. specialize (Hc' Hd).
      specialize (Hr' Hrest). lia.
    + intros [Hd Hrest]%Forall_cons. rewrite (Hr'' Hrest). by apply Hc''.
Qed.

(** X10.  [classify_batch] makes at most six calls of the service for each
    record: up to three attempts with the primary model and up to three
    with the fallback model.  It makes at least one call for each record
    when the records are counted, that is, when the content of each is a
    text and the tokenizer accepts the messages built for it.  It makes no
    call at all for a batch without such a record: the source raises while
    it builds the prompt of a content that is not a text, and a text that
    holds a special token makes the token count raise inside the [try] of
    [classify_text], before the call. *)
Theorem classify_batch_call_budget (batch : list Batch.record) (w : world) :
  (calls (snd (api_client.classify_batch cfg batch w))
   <= calls w + 6 * length batch)%nat
  /\ (Forall Terms.counted batch ->
      (calls w + length batch
       <= calls (snd (api_client.classify_batch cfg batch w)))%nat)
  /\ (Forall (fun data => ~ Terms.counted data) batch ->
      calls (snd (api_client.classify_batch cfg batch w)) = calls w).
Proof.
  destruct (classify_batch_calls batch w) as ([_ Hle] & Hcounted & Hnot).
  by split; [|split].
Qed.

End Client.

(** ** The run of the orchestrator *)

Lemma batch_cost_app (l1 l2 : list Outcome.t) :
  (batch_processor.batch_cost (l1 ++ l2)
   == batch_processor.batch_cost l1 + batch_processor.batch_cost l2)%Q.
Proof.
  unfold batch_processor.batch_cost. rewrite List.filter_app, map_app.
  induction (map _ (List.filter Outcome.success l1)) as [|q l IH]; cbn.
  - lra.
  - rewrite IH. lra.
Qed.

Section Slices.
Context `{PyRuntime}.

Lemma prepare_records_length (df : list row) (idxs : list Z)
    (batch : list Batch.record) :
  data_processor.prepare_records df idxs = Ok batch ->
  (length batch <= length idxs)%nat.
Proof.
  revert batch. induction idxs as [|idx idxs IH]; intros batch; cbn.
  { by intros [= <-]. }
  destruct (data_processor.prepare_record df idx) as [r|e]; cbn [bind];
    [|discriminate].
  destruct (data_processor.prepare_records df idxs) as [rest|e]; cbn [bind];
    [|discriminate].
  intros [= <-]. specialize (IH rest eq_refl). rewrite length_app.
  destruct r; cbn; lia.
Qed.

(** The records of a batch lie in its slice, and there are no more of them
    than positions in the slice. *)
Lemma process_batch_slice (df : list row) (start_idx batch_size : Z)
    (batch : list Batch.record) :
  data_processor.process_batch df start_idx batch_size = Ok batch ->
  Forall (fun data =>
            (start_idx <= Batch.index data < start_idx + batch_size)%Z
            /\ (Batch.index data < Z.of_nat (length df))%Z) batch
  /\ (Z.of_nat (length batch) <= Z.max 0 batch_size)%Z.
Proof.
  unfold data_processor.process_batch. intros Hb. split.
  - apply prepare_records_passes in Hb.
    eapply Forall_impl; [exact Hb|]. intros data (r & _ & _ & _ & Hin).
    apply in_range in Hin. cbn beta. lia.
  - apply prepare_records_length in Hb.
    unfold data_processor.range in Hb. rewrite length_map, length_seq in Hb.
    lia.
Qed.

End Slices.

Section Run.
Context `{PyRuntime}.
Variable cfg : config.
Variable df : list row.
Variables batch_size end_index : Z.

#[local] Abbreviation turn := (batch_processor.turn cfg df batch_size end_index).
#[local] Abbreviation after := (batch_processor.after cfg df batch_size end_index).

(** What a turn of the loop does to the state. *)
Lemma turn_cases (st : batch_processor.state) :
  ((end_index <= batch_processor.current_index st)%Z /\ turn st = st)
  \/ ((batch_processor.current_index st < end_index)%Z
      /\ exists w,
           turn st = batch_processor.advance w st
           /\ ((1 <= batch_size)%Z -> (1 <= w)%Z)
           /\ ((batch_size <= 0)%Z -> w = batch_size))
  \/ ((batch_processor.current_index st < end_index)%Z
      /\ (1 <= batch_size)%Z
      /\ exists batch_data batch_results w,
           data_processor.process_batch df (batch_processor.current_index st)
             (Z.min batch_size (end_index - batch_processor.current_index st))
           = Ok batch_data
           /\ batch_data <> []
           /\ api_client.classify_batch cfg batch_data
                (batch_processor.outside st) = (batch_results, w)
           /\ let total_processed :=
                (batch_processor.total_processed st
                 + Z.of_nat (length batch_results))%Z in
              let total_successful :=
                (batch_processor.total_successful st
                 + Z.of_nat (length (List.filter Outcome.success
                                       batch_results)))%Z in
              let total_cost :=
                (batch_processor.total_cost st
                 + batch_processor.batch_cost batch_results)%Q in
              let current_index :=
                (batch_processor.current_index st
                 + Z.of_nat (length batch_data))%Z in
              let checkpoint :=
                Checkpoint.Make current_index total_cost total_processed
                                (Some total_successful) in
              turn st
              = batch_processor.State current_index checkpoint
                  (Some checkpoint)
                  (batch_processor.save_results batch_results
                     (batch_processor.results_file st))
                  total_processed total_successful total_cost
                  (batch_processor.all_batch_results st ++ batch_results) w).
Proof.
  unfold batch_processor.turn, batch_processor.batch_iteration,
    batch_processor.try_body.
  destruct (batch_processor.current_index st <? end_index)%Z eqn:Hrun.
  2:{ left. apply Z.ltb_ge in Hrun. done. }
  apply Z.ltb_lt in Hrun. right.
  destruct (Z_le_gt_dec batch_size 0) as [Hbs|Hbs].
  { rewrite (process_batch_nonpositive df) by lia. left. split; [done|].
    eexists. split; [done|]. split; lia. }
  destruct (data_processor.process_batch _ _ _) as [[|data rest]|e] eqn:Eb.
  - left. split; [done|]. eexists. split; [done|]. split; lia.
  - right. split; [done|]. split; [lia|].
    destruct (api_client.classify_batch _ _ _) as [batch_results w] eqn:Ec.
    exists (data :: rest), batch_results, w. by repeat split.
  - left. split; [done|]. exists batch_size. cbn. split; [done|]. split; lia.
Qed.

(** The log, the counters and the outside after [n] turns: the outcomes
    [delta] of the batches classified in these turns are appended, and
    nothing else changes. *)
Lemma after_log (n : nat) (st0 : batch_processor.state) :
  exists delta,
    batch_processor.all_batch_results (after n st0)
    = batch_processor.all_batch_results st0 ++ delta
    /\ batch_processor.results_file (after n st0)
       = match delta with
         | [] => batch_processor.results_file st0
         | _ => Some (default [] (batch_processor.results_file st0) ++ delta)
         end
    /\ batch_processor.total_processed (after n st0)
       = (batch_processor.total_processed st0 + Z.of_nat (length delta))%Z
    /\ batch_processor.total_successful (after n st0)
       = (batch_processor.total_successful st0
          + Z.of_nat (length (List.filter Outcome.success delta)))%Z
    /\ (batch_processor.total_cost (after n st0)
        == batch_processor.total_cost st0 + batch_processor.batch_cost delta)%Q
    /\ Forall Terms.well_shaped delta
    /\ Forall (Terms.priced (replies (batch_processor.outside st0))) delta
    /\ replies (batch_processor.outside (after n st0))
       = replies (batch_processor.outside st0)
    /\ match delta with
       | [] =>
           batch_processor.checkpoint (after n st0)
           = batch_processor.checkpoint st0
           /\ batch_processor.checkpoint_file (after n st0)
              = batch_processor.checkpoint_file st0
           /\ batch_processor.outside (after n st0)
              = batch_processor.outside st0
       | _ =>
           batch_processor.checkpoint_file (after n st0)
           = Some (batch_processor.checkpoint (after n st0))
           /\ Checkpoint.processed_count
                (batch_processor.checkpoint (after n st0))
              = batch_processor.total_processed (after n st0)
           /\ Checkpoint.successful_count
                (batch_processor.checkpoint (after n st0))
              = Some (batch_processor.total_successful (after n st0))
           /\ Checkpoint.total_cost
                (batch_processor.checkpoint (after n st0))
              = batch_processor.total_cost (after n st0)
       end.
Proof.
  induction n as [|n IH].
  { exists []. cbn. rewrite app_nil_r.
    repeat split; try done; try lia; try lra; constructor. }
  destruct IH as (delta & Hall & Hfile & Hp & Hs & Hc & Hshape & Hpriced
                  & Hreplies & Hck).
  change (after (S n) st0) with (turn (after n st0)).
  set (st := after n st0) in *.
  destruct (turn_cases st) as [[_ ->]|[(_ & w & -> & _)|Hclassified]].
  { exists delta. by repeat split. }
  { exists delta. cbn. by repeat split. }
  destruct Hclassified
    as (_ & _ & batch_data & batch_results & w & Hbatch & Hne & Hcb & ->).
  cbn zeta.
  pose proof (classify_batch_well_formed cfg batch_data
                (batch_processor.outside st)) as Hwf.
  rewrite Hcb in Hwf. cbn [fst snd] in Hwf.
  destruct Hwf as (Hlen & Hshape' & Hpriced' & Hreplies').
  assert (Hres : batch_results <> []).
  { intros ->. destruct batch_data; [done|]. cbn in Hlen. lia. }
  exists (delta ++ batch_results).
  destruct (delta ++ batch_results) as [|o l] eqn:Hcons.
  { by destruct delta, batch_results. }
  cbv iota. rewrite <- Hcons. cbn.
  rewrite Hall, Hfile, Hp, Hs, List.filter_app, !length_app, <- !app_assoc.
  split; [done|]. split.
  { unfold batch_processor.save_results. destruct delta; [|by rewrite app_assoc].
    cbn. by destruct (batch_processor.results_file st0). }
  split; [lia|]. split; [lia|]. split.
  { rewrite batch_cost_app, Hc. lra. }
  split; [by apply Forall_app|]. split.
  { apply Forall_app. split; [done|]. by rewrite <- Hreplies. }
  split; [congruence|]. by repeat split.
Qed.

(** With a positive batch size the loop moves forward, and what it records
    lies between the index where it started and the end index. *)
Lemma after_bounds (n : nat) (st0 : batch_processor.state) :
  (1 <= batch_size)%Z ->
  (batch_processor.current_index st0
   <= batch_processor.current_index (after n st0))%Z
  /\ exists delta,
       batch_processor.all_batch_results (after n st0)
       = batch_processor.all_batch_results st0 ++ delta
       /\ Forall (fun o => (batch_processor.current_index st0
                            <= Outcome.index o < end_index)%Z
                           /\ (Outcome.index o < Z.of_nat (length df))%Z) delta
       /\ (Z.of_nat (length delta)
           <= Z.max 0 (Z.min (batch_processor.current_index (after n st0))
                             end_index
                       - batch_processor.current_index st0))%Z.
Proof.
  intros Hbs. induction n as [|n IH].
  { split; [done|]. exists []. cbn. rewrite app_nil_r.
    split; [done|]. split; [constructor|lia]. }
  destruct IH as (Hcur & delta & Hall & Hidx & Hlen).
  change (after (S n) st0) with (turn (after n st0)).
  set (st := after n st0) in *.
  destruct (turn_cases st) as [[_ ->]|[(Hrun & w & -> & Hw & _)|Hclassified]].
  { split; [done|]. by exists delta. }
  { specialize (Hw Hbs). cbn. split; [lia|]. exists delta.
    split; [done|]. split; [done|]. lia. }
  destruct Hclassified
    as (Hrun & _ & batch_data & batch_results & w & Hbatch & Hne & Hcb & ->).
  cbn zeta. cbn.
  pose proof (classify_batch_entries cfg batch_data
                (batch_processor.outside st)) as [Hentries _].
  rewrite Hcb in Hentries. cbn [fst] in Hentries.
  apply process_batch_slice in Hbatch as [Hslice Hcount].
  assert (Hsame : length batch_results = length batch_data).
  { apply (f_equal length) in Hentries. by rewrite !length_map in Hentries. }
  split; [lia|]. exists (delta ++ batch_results).
  split; [by rewrite Hall, app_assoc|]. split.
  - apply Forall_app. split; [done|].
    apply List.Forall_forall. intros o Ho.
    assert (Hin : In (Outcome.index o) (map Batch.index batch_data)).
    { rewrite <- Hentries. by apply in_map. }
    apply in_map_iff in Hin as (data & Hdata & Hin).
    rewrite List.Forall_forall in Hslice. specialize (Hslice data Hin).
    rewrite <- Hdata. lia.
  - rewrite length_app. lia.
Qed.

Lemma while_loop_more_fuel (fuel fuel' : nat) (st st' : batch_processor.state) :
  batch_processor.while_loop cfg df batch_size end_index fuel st = Some st' ->
  (fuel <= fuel')%nat ->
  batch_processor.while_loop cfg df batch_size end_index fuel' st = Some st'.
Proof.
  revert fuel' st. induction fuel as [|fuel IH]; intros fuel' st.
  - cbn. destruct (batch_processor.current_index st <? end_index)%Z eqn:Hrun;
      [discriminate|].
    intros [= <-] _. destruct fuel'; cbn; by rewrite Hrun.
  - cbn [batch_processor.while_loop].
    destruct (batch_processor.current_index st <? end_index)%Z eqn:Hrun.
    + intros Hloop Hle. destruct fuel' as [|fuel']; [lia|].
      cbn [batch_processor.while_loop]. rewrite Hrun. apply IH; [done|lia].
    + intros [= <-] _. destruct fuel'; cbn; by rewrite Hrun.
Qed.

(** With a batch size that is not positive the loop never ends. *)
Lemma while_loop_stuck (fuel : nat) (st : batch_processor.state) :
  (batch_size <= 0)%Z ->
  (batch_processor.current_index st < end_index)%Z ->
  batch_processor.while_loop cfg df batch_size end_index fuel st = None.
Proof.
  intros Hbs. revert st. induction fuel as [|fuel IH]; intros st Hrun.
  - cbn. by apply Z.ltb_lt in Hrun as ->.
  - cbn [batch_processor.while_loop].
    rewrite <- (turn_running cfg df batch_size end_index st Hrun).
    assert (Hrun' := Hrun). apply Z.ltb_lt in Hrun' as ->.
    apply IH.
    destruct (turn_cases st) as [[? _]|[(_ & w & -> & _ & Hw)|Hclassified]].
    + lia.
    + specialize (Hw Hbs). cbn. lia.
    + destruct Hclassified as (_ & ? & _). lia.
Qed.

(** What a turn appends to the results of the run. *)
Lemma turn_outcomes_log (st : batch_processor.state) :
  batch_processor.all_batch_results (turn st)
  = batch_processor.all_batch_results st
    ++ Terms.turn_outcomes cfg df batch_size end_index st.
Proof.
  unfold batch_processor.turn, batch_processor.batch_iteration,
    batch_processor.try_body, Terms.turn_outcomes.
  destruct (batch_processor.current_index st <? end_index)%Z.
  2:{ by rewrite app_nil_r. }
  destruct (data_processor.process_batch _ _ _) as [[|data rest]|e].
  - cbn. by rewrite app_nil_r.
  - by destruct (api_client.classify_batch _ _ _) as [batch_results w].
  - cbn. by rewrite app_nil_r.
Qed.

Lemma after_outcomes (n : nat) (st0 : batch_processor.state) :
  batch_processor.all_batch_results (after n st0)
  = batch_processor.all_batch_results st0
    ++ Terms.run_outcomes cfg df batch_size end_index n st0.
Proof.
  induction n as [|n IH]; cbn [Terms.run_outcomes].
  { by rewrite app_nil_r. }
  change (after (S n) st0) with (turn (after n st0)).
  by rewrite turn_outcomes_log, IH, app_assoc.
Qed.

(** X11.  After any number of turns of the loop of [process_dataset], the
    outcomes of the batches classified in these turns, in their order, have
    been appended to [all_batch_results] and to the result file, which is
    otherwise as before (and is not written when nothing was classified);
    [total_processed] and [total_successful] have grown by the number of
    these outcomes and by the number of successes among them. *)
Theorem run_appends_to_log (n : nat) (st0 : batch_processor.state) :
  let delta := Terms.run_outcomes cfg df batch_size end_index n st0 in
  batch_processor.all_batch_results (after n st0)
  = batch_processor.all_batch_results st0 ++ delta
  /\ batch_processor.results_file (after n st0)
     = match delta with
       | [] => batch_processor.results_file st0
       | _ => Some (default [] (batch_processor.results_file st0) ++ delta)
       end
  /\ batch_processor.total_processed (after n st0)
     = (batch_processor.total_processed st0 + Z.of_nat (length delta))%Z
  /\ batch_processor.total_successful (after n st0)
     = (batch_processor.total_successful st0
        + Z.of_nat (length (List.filter Outcome.success delta)))%Z.
Proof.
  intros delta.
  destruct (after_log n st0) as (delta' & Hall & ? & ? & ? & _).
  pose proof (after_outcomes n st0) as Hdelta. fold delta in Hdelta.
  rewrite Hall in Hdelta. apply app_inv_head in Hdelta. by subst delta'.
Qed.

Lemma after_add (n m : nat) (st : batch_processor.state) :
  after (n + m) st = after m (after n st).
Proof.
  unfold batch_processor.after. rewrite Nat.add_comm. apply Nat.iter_add.
Qed.

Lemma calculate_cost_nonnegative (p q : Z) :
  (0 <= p)%Z -> (0 <= q)%Z -> (0 <= cost_calculator.calculate_cost p q)%Q.
Proof.
  intros Hp Hq. unfold cost_calculator.calculate_cost,
    cost_calculator.input_rate, cost_calculator.output_rate.
  assert (0 <= inject_Z p)%Q by (unfold Qle; cbn; lia).
  assert (0 <= inject_Z q)%Q by (unfold Qle; cbn; lia).
  cbn zeta. unfold Qdiv.
  assert (0 <= inject_Z p * / 1000 * 0.00015)%Q
    by (repeat apply Qmult_le_0_compat; try done; unfold Qle; cbn; lia).
  assert (0 <= inject_Z q * / 1000 * 0.00015)%Q
    by (repeat apply Qmult_le_0_compat; try done; unfold Qle; cbn; lia).
  lra.
Qed.

Lemma batch_cost_nonnegative (service : nat -> api_reply)
    (results : list Outcome.t) :
  (forall k content p q,
      service k = Completion content p q -> (0 <= p)%Z /\ (0 <= q)%Z) ->
  Forall (Terms.priced service) results ->
  (0 <= batch_processor.batch_cost results)%Q.
Proof.
  intros Hservice Hpriced. unfold batch_processor.batch_cost.
  induction Hpriced as [|o l Ho _ IH]; cbn; [done|].
  destruct (Outcome.success o) eqn:Hs; [|done]. cbn.
  destruct (Ho Hs) as (k & content & p & q & Hk & ->). cbn.
  apply Hservice in Hk as [Hp Hq].
  pose proof (calculate_cost_nonnegative p q Hp Hq).
  set (rest := foldr Qplus 0%Q _) in *. lra.
Qed.

(** X12.  When the service reports token counts that are not negative, the
    total cost of a run does not decrease from one turn to a later one. *)
Theorem total_cost_never_decreases (n m : nat) (st0 : batch_processor.state) :
  (forall k content p q,
      replies (batch_processor.outside st0) k = Completion content p q ->
      (0 <= p)%Z /\ (0 <= q)%Z) ->
  (n <= m)%nat ->
  (batch_processor.total_cost (after n st0)
   <= batch_processor.total_cost (after m st0))%Q.
Proof.
  intros Hservice Hnm. replace m with (n + (m - n))%nat by lia.
  rewrite after_add.
  destruct (after_log n st0) as (_ & _ & _ & _ & _ & _ & _ & _ & Hreplies & _).
  destruct (after_log (m - n) (after n st0))
    as (delta & _ & _ & _ & _ & Hcost & _ & Hpriced & _).
  rewrite Hcost. rewrite Hreplies in Hpriced.
  pose proof (batch_cost_nonnegative _ delta Hservice Hpriced). lra.
Qed.

Lemma prepared_index (idx : Z) (data : Batch.record) :
  Terms.prepared df idx = Some data -> Batch.index data = idx.
Proof.
  unfold Terms.prepared.
  destruct (data_processor.iloc df idx) as [r|e]; [|done].
  destruct (Terms.usable r); [|done]. by intros [= <-].
Qed.

(** A turn that classifies a batch. *)
Lemma turn_classifies (st : batch_processor.state)
    (batch : list Batch.record) :
  (batch_processor.current_index st < end_index)%Z ->
  data_processor.process_batch df (batch_processor.current_index st)
    (Z.min batch_size (end_index - batch_processor.current_index st))
  = Ok batch ->
  batch <> [] ->
  exists results,
    map Outcome.index results = map Batch.index batch
    /\ batch_processor.current_index (turn st)
       = (batch_processor.current_index st + Z.of_nat (length batch))%Z
    /\ batch_processor.all_batch_results (turn st)
       = batch_processor.all_batch_results st ++ results
    /\ batch_processor.total_processed (turn st)
       = (batch_processor.total_processed st + Z.of_nat (length results))%Z.
Proof.
  intros Hrun Hbatch Hne.
  unfold batch_processor.turn, batch_processor.batch_iteration,
    batch_processor.try_body.
  apply Z.ltb_lt in Hrun as ->. rewrite Hbatch.
  destruct batch as [|data rest]; [done|].
  pose proof (classify_batch_entries cfg (data :: rest)
                (batch_processor.outside st)) as [Hentries _].
  destruct (api_client.classify_batch _ _ _) as [results w].
  by exists results.
Qed.

(** X13.  The loop moves on by the number of valid records of a batch, not
    by the width of its slice.  So a record that lies behind a rejected row
    of its slice, at or after the new position of the loop, is classified
    again in the next turn: it is listed twice in the results of the run
    and counted twice. *)
Theorem record_behind_rejected_row_is_classified_twice
    (st : batch_processor.state) (batch : list Batch.record)
    (data : Batch.record) :
  (1 <= batch_size)%Z ->
  (0 <= batch_processor.current_index st < end_index)%Z ->
  data_processor.process_batch df (batch_processor.current_index st)
    (Z.min batch_size (end_index - batch_processor.current_index st))
  = Ok batch ->
  In data batch ->
  (batch_processor.current_index st + Z.of_nat (length batch)
   <= Batch.index data)%Z ->
  exists first second,
    batch_processor.all_batch_results (after 2 st)
    = batch_processor.all_batch_results st ++ first ++ second
    /\ In (Batch.index data) (map Outcome.index first)
    /\ In (Batch.index data) (map Outcome.index second)
    /\ batch_processor.total_processed (after 2 st)
       = (batch_processor.total_processed st
          + Z.of_nat (length first) + Z.of_nat (length second))%Z.
Proof.
  intros Hbs [Hcur Hrun] Hbatch Hin Hlate.
  assert (Hne : batch <> []) by (by destruct batch).
  destruct (turn_classifies st batch Hrun Hbatch Hne)
    as (first & Hfirst & Hcur1 & Hall1 & Hcount1).
  rewrite process_batch_prepared in Hbatch by lia.
  injection Hbatch as Hbatch.
  assert (Hdata : data ∈ batch) by (by apply list_elem_of_In).
  rewrite <- Hbatch in Hdata.
  apply list_elem_of_omap in Hdata as (idx & Hidx & Hprepared).
  apply list_elem_of_In, in_range in Hidx.
  pose proof (prepared_index _ _ Hprepared) as Hindex. subst idx.
  set (st1 := turn st) in *.
  set (batch1 := omap (Terms.prepared df)
         (data_processor.range (batch_processor.current_index st1)
            (Z.min (batch_processor.current_index st1
                    + Z.min batch_size
                        (end_index - batch_processor.current_index st1))
                   (Z.of_nat (length df))))).
  assert (Hdata1 : data ∈ batch1).
  { apply list_elem_of_omap. exists (Batch.index data). split; [|done].
    apply list_elem_of_In, in_range. lia. }
  assert (Hbatch1 : data_processor.process_batch df
            (batch_processor.current_index st1)
            (Z.min batch_size (end_index - batch_processor.current_index st1))
          = Ok batch1).
  { apply process_batch_prepared. lia. }
  assert (Hne1 : batch1 <> []).
  { intros E. rewrite E in Hdata1. by apply not_elem_of_nil in Hdata1. }
  destruct (turn_classifies st1 batch1) as (second & Hsecond & _ & Hall2 & Hcount2);
    [lia|done|done|].
  exists first, second. change (after 2 st) with (turn st1).
  rewrite Hall2, Hall1, Hcount2, Hcount1, Hfirst, Hsecond, <- app_assoc.
  split; [done|]. split; [by apply in_map|].
  split; [|lia]. apply in_map. by apply list_elem_of_In.
Qed.

End Run.

Section Dataset.
Context `{PyRuntime}.
Variable cfg : config.
Variable df : list row.

(** A loadable data set is loaded, and its statistics are computed: the
    run goes on to the checkpoint and the loop. *)
Lemma process_dataset_loaded (fuel : nat)
    (batch_size start_from max_records : option Z)
    (checkpoint_file : option Checkpoint.t)
    (results_file : option (list Outcome.t)) (w : world) :
  Terms.loadable df ->
  batch_processor.process_dataset cfg df fuel batch_size start_from
    max_records checkpoint_file results_file w
  = Ok (batch_processor.process_loaded cfg df fuel batch_size start_from
          max_records checkpoint_file results_file w).
Proof.
  intros (Hrows & Ht & Hd & Hc). unfold batch_processor.process_dataset.
  assert (Hload : data_processor.load_data df = Ok df).
  { unfold data_processor.load_data. by destruct df. }
  rewrite Hload. cbn [bind].
  unfold data_processor.get_processing_stats, data_processor.str_accessor.
  by rewrite Ht, Hd, Hc.
Qed.

(** X14.  For a data set that is loaded (it has a row, and none of its
    three columns is numeric), with a positive batch size, [process_dataset]
    returns: the loop ends within [end_index - start_index] turns, at or
    after the end index, and more fuel gives the same summary and state.
    The summary counts as processed the outcomes recorded in the run. *)
Theorem process_dataset_returns (fuel : nat)
    (batch_size start_from max_records : option Z)
    (checkpoint_file : option Checkpoint.t)
    (results_file : option (list Outcome.t)) (w : world) :
  let st0 :=
    batch_processor.initial_state start_from checkpoint_file results_file w in
  let end_index :=
    batch_processor.end_index_of df (batch_processor.current_index st0)
                                 max_records in
  Terms.loadable df ->
  (1 <= batch_processor.batch_size_of cfg batch_size)%Z ->
  (end_index - batch_processor.current_index st0 <= Z.of_nat fuel)%Z ->
  exists s st n,
    batch_processor.process_dataset cfg df fuel batch_size start_from
      max_records checkpoint_file results_file w = Ok (Some (s, st))
    /\ st = batch_processor.after cfg df
              (batch_processor.batch_size_of cfg batch_size) end_index n st0
    /\ (end_index <= batch_processor.current_index st)%Z
    /\ records_processed s = Z.of_nat (length (batch_processor.all_batch_results st))
    /\ forall fuel',
         (fuel <= fuel')%nat ->
         batch_processor.process_dataset cfg df fuel' batch_size start_from
           max_records checkpoint_file results_file w = Ok (Some (s, st)).
Proof.
  intros st0 end_index Hdf Hbs Hfuel.
  rewrite process_dataset_loaded by done.
  unfold batch_processor.process_loaded. fold st0. fold end_index.
  destruct (while_loop_terminates cfg df _ end_index fuel st0 Hbs Hfuel)
    as (st & n & Hloop & Hafter & Hend).
  rewrite Hloop. eexists _, st, n. split; [done|]. split; [done|].
  split; [done|]. split.
  - cbn. destruct (after_log cfg df (batch_processor.batch_size_of cfg batch_size)
                     end_index n st0) as (delta & Hall & _ & Hp & _).
    rewrite Hafter, Hp, Hall. cbn. lia.
  - intros fuel' Hle. rewrite process_dataset_loaded by done.
    unfold batch_processor.process_loaded. fold st0. fold end_index.
    by rewrite (while_loop_more_fuel cfg df _ _ fuel fuel' st0 st Hloop Hle).
Qed.

(** X15.  For a data set that is loaded, with a batch size that is not
    positive (a negative [batch_size], or a [BATCH_SIZE] setting of zero or
    less) and at least one row to process, the loop of [process_dataset]
    never ends: whatever the number of turns allowed, the run has neither
    returned nor raised. *)
Theorem process_dataset_never_returns (fuel : nat)
    (batch_size start_from max_records : option Z)
    (checkpoint_file : option Checkpoint.t)
    (results_file : option (list Outcome.t)) (w : world) :
  let start :=
    batch_processor.start_index_of start_from
      (batch_processor.load_checkpoint checkpoint_file) in
  Terms.loadable df ->
  (batch_processor.batch_size_of cfg batch_size <= 0)%Z ->
  (start < batch_processor.end_index_of df start max_records)%Z ->
  batch_processor.process_dataset cfg df fuel batch_size start_from
    max_records checkpoint_file results_file w = Ok None.
Proof.
  intros start Hdf Hbs Hrun. rewrite process_dataset_loaded by done.
  unfold batch_processor.process_loaded.
  by rewrite while_loop_stuck.
Qed.

(** X25.  A data set that is not loaded stops [process_dataset] before the
    checkpoint is read: without a row, [load_data] raises the [ValueError]
    of the validation; with rows and a column that pandas read as numbers,
    [get_processing_stats] raises the [AttributeError] of the accessor
    [.str].  Whatever the batch size and the number of turns allowed,
    nothing is classified. *)
Theorem process_dataset_refuses_unusable_data (fuel : nat)
    (batch_size start_from max_records : option Z)
    (checkpoint_file : option Checkpoint.t)
    (results_file : option (list Outcome.t)) (w : world) :
  ~ Terms.loadable df ->
  exists e,
    batch_processor.process_dataset cfg df fuel batch_size start_from
      max_records checkpoint_file results_file w = Raise e
    /\ match df with
       | [] =>
           e = Exn ValueError
                 (u "Data validation failed: "
                  ++ repr_list [u "Dataset is empty"])
       | _ :: _ => exn_class_of e = AttributeError
       end.
Proof.
  intros Hnot. unfold batch_processor.process_dataset.
  destruct df as [|r rows] eqn:Edf; [by eexists|].
  rewrite <- Edf in *.
  assert (Hload : data_processor.load_data df = Ok df) by (by rewrite Edf).
  rewrite Hload. cbn [bind].
  unfold data_processor.get_processing_stats, data_processor.str_accessor.
  destruct (data_processor.numeric (map Tieu_de df)) eqn:Ht; [by eexists|].
  destruct (data_processor.numeric (map Description df)) eqn:Hd;
    [by eexists|].
  destruct (data_processor.numeric (map Noi_dung_tin_bai df)) eqn:Hc;
    [by eexists|].
  destruct Hnot. split; [by rewrite Edf|done].
Qed.

(** X16.  With a positive batch size, every outcome recorded in a run has an
    index between the start index and the end index, and below the length
    of the data set; the number of records processed is at most
    [end_index - start_index], hence at most [max_records] when that is
    given. *)
Theorem run_stays_in_range (n : nat)
    (batch_size start_from max_records : option Z)
    (checkpoint_file : option Checkpoint.t)
    (results_file : option (list Outcome.t)) (w : world) :
  let st0 :=
    batch_processor.initial_state start_from checkpoint_file results_file w in
  let start := batch_processor.current_index st0 in
  let end_index := batch_processor.end_index_of df start max_records in
  let st :=
    batch_processor.after cfg df
      (batch_processor.batch_size_of cfg batch_size) end_index n st0 in
  (1 <= batch_processor.batch_size_of cfg batch_size)%Z ->
  Forall (fun o => (start <= Outcome.index o < end_index)%Z
                   /\ (Outcome.index o < Z.of_nat (length df))%Z)
         (batch_processor.all_batch_results st)
  /\ (batch_processor.total_processed st <= Z.max 0 (end_index - start))%Z
  /\ (forall m, max_records = Some m -> (0 < m)%Z ->
                (batch_processor.total_processed st <= m)%Z).
Proof.
  intros st0 start end_index st Hbs.
  destruct (after_bounds cfg df _ end_index n st0 Hbs)
    as (Hcur & delta & Hall & Hidx & Hlen).
  destruct (after_log cfg df (batch_processor.batch_size_of cfg batch_size)
              end_index n st0) as (delta' & Hall' & _ & Hp & _).
  fold st in Hcur, Hall, Hlen, Hall', Hp.
  rewrite Hall in Hall'. apply app_inv_head in Hall'. subst delta'.
  cbn in Hall, Hp. fold start in Hidx, Hlen.
  assert (Hcount : (batch_processor.total_processed st
                    <= Z.max 0 (end_index - start))%Z) by lia.
  split; [by rewrite Hall|]. split; [done|].
  intros m -> Hm. unfold end_index, batch_processor.end_index_of in Hcount.
  assert ((m =? 0)%Z = false) as Hz by (apply Z.eqb_neq; lia).
  rewrite Hz in Hcount. lia.
Qed.

(** X17.  A run that finds a saved checkpoint either has classified nothing
    yet, and the checkpoint file is as saved; or it has written the
    checkpoint that it holds, whose [processed_count] and
    [successful_count] count the outcomes of the current run alone (the
    saved counts are not carried over) and whose [total_cost] is the running
    total of the loop. *)
Theorem checkpoint_counts_current_run (n : nat)
    (batch_size end_index : Z) (start_from : option Z)
    (saved : Checkpoint.t) (results_file : option (list Outcome.t))
    (w : world) :
  let st :=
    batch_processor.after cfg df batch_size end_index n
      (batch_processor.initial_state start_from (Some saved) results_file w) in
  (batch_processor.all_batch_results st = []
   /\ batch_processor.checkpoint_file st = Some saved)
  \/ (batch_processor.all_batch_results st <> []
      /\ batch_processor.checkpoint_file st
         = Some (batch_processor.checkpoint st)
      /\ Checkpoint.processed_count (batch_processor.checkpoint st)
         = Z.of_nat (length (batch_processor.all_batch_results st))
      /\ Checkpoint.successful_count (batch_processor.checkpoint st)
         = Some (Z.of_nat (length (List.filter Outcome.success
                                     (batch_processor.all_batch_results st))))
      /\ Checkpoint.total_cost (batch_processor.checkpoint st)
         = batch_processor.total_cost st).
Proof.
  intros st.
  destruct (after_log cfg df batch_size end_index n
              (batch_processor.initial_state start_from (Some saved)
                 results_file w))
    as (delta & Hall & _ & Hp & Hs & _ & _ & _ & _ & Hck).
  fold st in Hall, Hp, Hs, Hck. cbn in Hall, Hp, Hs, Hck.
  rewrite Hall. destruct delta as [|o delta].
  - left. by destruct Hck as (_ & -> & _).
  - right. destruct Hck as (-> & -> & -> & ->).
    rewrite Hp, Hs. by repeat split.
Qed.

(** X18.  The join that follows a run, as in [main.py]: let the result file
    be absent or hold well-formed outcomes before the run.  After any number
    of turns, either nothing has been recorded and there is no file, and
    [create_final_csv] raises; or the file holds the old outcomes followed
    by those of the run, and [create_final_csv] returns one row for each row
    of the data set, flagged as classified exactly when the last outcome
    recorded under its position is a success. *)
Theorem final_csv_after_run (n : nat) (batch_size end_index : Z)
    (start_from : option Z) (checkpoint_file : option Checkpoint.t)
    (results_file : option (list Outcome.t)) (w : world)
    (df_original : list row) :
  let st :=
    batch_processor.after cfg df batch_size end_index n
      (batch_processor.initial_state start_from checkpoint_file
         results_file w) in
  Spec.well_formed_log (default [] results_file) ->
  match batch_processor.results_file st with
  | None =>
      results_file = None /\ batch_processor.all_batch_results st = []
      /\ exists e,
           batch_processor.create_final_csv df_original None = Raise e
  | Some log =>
      log = default [] results_file ++ batch_processor.all_batch_results st
      /\ exists rows,
           batch_processor.create_final_csv df_original (Some log) = Ok rows
           /\ length rows = length df_original
           /\ forall (i : nat) (fr : final_row),
                rows !! i = Some fr ->
                (classification_success fr = true
                 <-> exists o, Spec.authoritative log (Z.of_nat i) = Some o
                               /\ Outcome.success o = true)
  end.
Proof.
  intros st Hold.
  destruct (after_log cfg df batch_size end_index n
              (batch_processor.initial_state start_from checkpoint_file
                 results_file w))
    as (delta & Hall & Hfile & _ & _ & _ & Hshape & _).
  fold st in Hall, Hfile. cbn in Hall, Hfile. rewrite Hall, Hfile.
  assert (Hlog : Spec.well_formed_log (default [] results_file ++ delta)).
  { apply Forall_app. split; [done|].
    eapply Forall_impl; [exact Hshape|]. intros o Ho Hs.
    unfold Terms.well_shaped in Ho. rewrite Hs in Ho.
    destruct Ho as (labels & _ & _ & _ & _ & -> & _). by eexists. }
  assert (Hjoin : forall log,
    Spec.well_formed_log log ->
    exists rows,
      batch_processor.create_final_csv df_original (Some log) = Ok rows
      /\ length rows = length df_original
      /\ forall (i : nat) (fr : final_row),
           rows !! i = Some fr ->
           (classification_success fr = true
            <-> exists o, Spec.authoritative log (Z.of_nat i) = Some o
                          /\ Outcome.success o = true)).
  { intros log Hwf.
    destruct (join_rows_joined log df_original 0 Hwf)
      as (rows & Hrows & Hlen & Hjoined).
    exists rows. split; [done|]. split; [done|]. intros i fr Hfr.
    destruct (df_original !! i) as [r|] eqn:Er.
    2:{ apply lookup_ge_None in Er. apply lookup_lt_Some in Hfr. lia. }
    destruct (Hjoined i r Er) as (fr' & Hfr' & _ & Hj).
    rewrite Hfr in Hfr'. injection Hfr' as <-.
    rewrite Z.add_0_l in Hj. unfold Spec.joined in Hj.
    destruct (Spec.authoritative log (Z.of_nat i)) as [o|].
    - unfold Spec.joined_with in Hj.
      destruct (Outcome.success o) eqn:Hs.
      + destruct Hj as (entries & _ & _ & _ & _ & ->). split; [|done].
        intros _. by exists o.
      + destruct Hj as (_ & _ & _ & ->). split; [done|].
        intros (o' & [= <-] & Hs'). congruence.
    - destruct Hj as (_ & _ & _ & ->). split; [done|]. by intros (o' & ? & _). }
  destruct delta as [|o delta].
  - destruct results_file as [old|]; cbn.
    + split; [by rewrite app_nil_r|]. rewrite app_nil_r in Hlog. cbn in Hlog.
      by apply Hjoin.
    + split; [done|]. split; [done|]. by eexists.
  - split; [done|]. by apply Hjoin.
Qed.

End Dataset.

Section Resume.
Context `{PyRuntime}.
Variable cfg : config.
Variable df : list row.
Variables batch_size end_index : Z.

#[local] Abbreviation turn := (batch_processor.turn cfg df batch_size end_index).
#[local] Abbreviation after := (batch_processor.after cfg df batch_size end_index).
#[local] Abbreviation kind_of := (Spec.kind_of df batch_size end_index).

Lemma kind_of_index (s s' : batch_processor.state) :
  batch_processor.current_index s = batch_processor.current_index s' ->
  kind_of s = kind_of s'.
Proof. unfold Spec.kind_of. by intros ->. Qed.

Lemma quiet_turn (s : batch_processor.state) :
  Terms.quiet (kind_of s) -> exists w, turn s = batch_processor.advance w s.
Proof.
  intros Hq. pose proof (turn_kind cfg df batch_size end_index s) as Hk.
  destruct (kind_of s) as [k|w| |]; [done| | |].
  - destruct Hk as [-> _]. by eexists.
  - rewrite Hk. by eexists.
  - rewrite Hk. exists 0%Z. destruct s. unfold batch_processor.advance. cbn.
    by rewrite Z.add_0_r.
Qed.

(** Turns that classify nothing change the position of the loop only. *)
Lemma quiet_turns (m : nat) (s : batch_processor.state) :
  (forall j, (j < m)%nat -> Terms.quiet (kind_of (after j s))) ->
  exists w, after m s = batch_processor.advance w s.
Proof.
  induction m as [|m IH]; intros Hq.
  { exists 0%Z. destruct s. unfold batch_processor.advance. cbn.
    by rewrite Z.add_0_r. }
  destruct IH as [w Hw]; [intros j Hj; apply Hq; lia|].
  change (after (S m) s) with (turn (after m s)).
  destruct (quiet_turn (after m s)) as [w' Hw']; [apply Hq; lia|].
  rewrite Hw', Hw. exists (w + w')%Z. unfold batch_processor.advance. cbn.
  by rewrite Z.add_assoc.
Qed.

Lemma after_ended (m : nat) (s : batch_processor.state) :
  (end_index <= batch_processor.current_index s)%Z -> after m s = s.
Proof.
  intros Hend. induction m as [|m IH]; [done|].
  change (after (S m) s) with (turn (after m s)). rewrite IH.
  unfold batch_processor.turn.
  by assert ((batch_processor.current_index s <? end_index)%Z = false) as ->
    by (by apply Z.ltb_ge).
Qed.

(** From the index of the saved checkpoint, turns that classify nothing
    lead to the position of the loop. *)
Lemma after_resumable (n : nat) (st0 s : batch_processor.state) :
  Terms.resume_index st0 = batch_processor.current_index st0 ->
  batch_processor.current_index s = Terms.resume_index (after n st0) ->
  exists k,
    batch_processor.current_index (after k s)
    = batch_processor.current_index (after n st0)
    /\ forall j, (j < k)%nat -> Terms.quiet (kind_of (after j s)).
Proof.
  intros Hstart. revert s. induction n as [|n IH]; intros s Hs.
  { exists 0%nat. split; [cbn in *; congruence|lia]. }
  change (after (S n) st0) with (turn (after n st0)) in *.
  set (st := after n st0) in *.
  pose proof (turn_kind cfg df batch_size end_index st) as Hk.
  pose proof (turn_current_index cfg df batch_size end_index st) as Hc.
  destruct (kind_of st) as [c|w| |] eqn:Ekind.
  - exists 0%nat. split; [|lia]. cbn.
    destruct Hk as (_ & _ & Hlpi & Hfile & _).
    unfold Terms.resume_index in Hs. rewrite Hfile in Hs. cbn in Hs.
    unfold Spec.lpi in Hlpi. congruence.
  - destruct Hk as (Hturn & _). destruct (IH s) as (k & Hcur & Hquiet).
    { rewrite Hs, Hturn. done. }
    exists (S k). split.
    + change (after (S k) s) with (turn (after k s)).
      rewrite (turn_current_index cfg df batch_size end_index (after k s)).
      rewrite (kind_of_index _ st Hcur), Ekind, Hc, Hcur. done.
    + intros j Hj. destruct (decide (j = k)) as [->|]; [|apply Hquiet; lia].
      by rewrite (kind_of_index _ st Hcur), Ekind.
  - destruct (IH s) as (k & Hcur & Hquiet).
    { rewrite Hs, Hk. done. }
    exists (S k). split.
    + change (after (S k) s) with (turn (after k s)).
      rewrite (turn_current_index cfg df batch_size end_index (after k s)).
      rewrite (kind_of_index _ st Hcur), Ekind, Hc, Hcur. done.
    + intros j Hj. destruct (decide (j = k)) as [->|]; [|apply Hquiet; lia].
      by rewrite (kind_of_index _ st Hcur), Ekind.
  - rewrite Hk in *. by apply IH.
Qed.

Lemma resumed_run_is_quiet (n m : nat) (st0 : batch_processor.state)
    (results_file : option (list Outcome.t)) (w : world) :
  Terms.resume_index st0 = batch_processor.current_index st0 ->
  (end_index <= batch_processor.current_index (after n st0))%Z ->
  let resumed :=
    batch_processor.initial_state None
      (batch_processor.checkpoint_file (after n st0)) results_file w in
  exists position,
    after m resumed = batch_processor.advance position resumed.
Proof.
  intros Hstart Hdone resumed.
  destruct (after_resumable n st0 resumed Hstart) as (k & Hcur & Hquiet).
  { done. }
  destruct (le_lt_dec m k) as [Hle|Hlt].
  - apply quiet_turns. intros j Hj. apply Hquiet. lia.
  - replace m with (k + (m - k))%nat by lia.
    rewrite (after_add cfg df batch_size end_index).
    rewrite after_ended by lia. by apply quiet_turns.
Qed.

(** X19.  Resuming a completed run does nothing: when a run that started at
    the index of its checkpoint has reached the end index, a second run that
    is given no start index, over the same data set with the same batch
    size and end index, classifies no record, makes no call of the service,
    and leaves the result file and the checkpoint file as they are. *)
Theorem resuming_a_completed_run_does_nothing (n m : nat)
    (st0 : batch_processor.state)
    (results_file : option (list Outcome.t)) (w : world) :
  Terms.resume_index st0 = batch_processor.current_index st0 ->
  (end_index <= batch_processor.current_index (after n st0))%Z ->
  let resumed :=
    after m (batch_processor.initial_state None
               (batch_processor.checkpoint_file (after n st0))
               results_file w) in
  batch_processor.outside resumed = w
  /\ batch_processor.all_batch_results resumed = []
  /\ batch_processor.total_processed resumed = 0%Z
  /\ batch_processor.results_file resumed = results_file
  /\ batch_processor.checkpoint_file resumed
     = batch_processor.checkpoint_file (after n st0).
Proof.
  intros Hstart Hdone resumed.
  destruct (resumed_run_is_quiet n m st0 results_file w Hstart Hdone)
    as [position Hquiet].
  subst resumed. cbn zeta in Hquiet. by rewrite Hquiet.
Qed.

End Resume.

Section Summary.
Context `{PyRuntime}.
Variable cfg : config.
Variable df : list row.

Lemma while_loop_after (batch_size end_index : Z) (fuel : nat)
    (st st' : batch_processor.state) :
  batch_processor.while_loop cfg df batch_size end_index fuel st = Some st' ->
  exists n, st' = batch_processor.after cfg df batch_size end_index n st.
Proof.
  revert st. induction fuel as [|fuel IH]; intros st.
  - cbn. destruct (batch_processor.current_index st <? end_index)%Z;
      [discriminate|].
    intros [= <-]. by exists 0%nat.
  - cbn [batch_processor.while_loop].
    destruct (batch_processor.current_index st <? end_index)%Z eqn:Hrun.
    + apply Z.ltb_lt in Hrun.
      rewrite <- (turn_running cfg df batch_size end_index st Hrun).
      intros [n ->]%IH. exists (S n). by rewrite after_succ_r.
    + intros [= <-]. by exists 0%nat.
Qed.

(** X23.  The summary that [process_dataset] returns is consistent: it
    gives the length of the data set; the records processed and the
    successful classifications are the numbers of outcomes and of
    successful outcomes recorded in the run, so the latter is at most the
    former; and the success rate lies between 0 and 100, and is 0 when no
    record was processed. *)
Theorem summary_counts_are_consistent (fuel : nat)
    (batch_size start_from max_records : option Z)
    (checkpoint_file : option Checkpoint.t)
    (results_file : option (list Outcome.t)) (w : world)
    (s : summary) (st : batch_processor.state) :
  batch_processor.process_dataset cfg df fuel batch_size start_from
    max_records checkpoint_file results_file w = Ok (Some (s, st)) ->
  total_records_in_dataset s = Z.of_nat (length df)
  /\ records_processed s
     = Z.of_nat (length (batch_processor.all_batch_results st))
  /\ successful_classifications s
     = Z.of_nat (length (List.filter Outcome.success
                           (batch_processor.all_batch_results st)))
  /\ (0 <= successful_classifications s <= records_processed s)%Z
  /\ (0 <= success_rate s <= 100)%Q
  /\ (records_processed s = 0%Z -> success_rate s == 0)%Q.
Proof.
  unfold batch_processor.process_dataset.
  destruct (data_processor.load_data df) as [loaded|e] eqn:Hload;
    cbn [bind]; [|discriminate].
  assert (loaded = df) as ->.
  { unfold data_processor.load_data in Hload.
    destruct (validators.validate_csv_data df) as [[] errors]; cbn in Hload;
      congruence. }
  destruct (data_processor.get_processing_stats df) as [stats|e];
    cbn [bind]; [|discriminate].
  unfold batch_processor.process_loaded.
  destruct (batch_processor.while_loop _ _ _ _ _ _) as [st'|] eqn:Hloop;
    [|discriminate].
  intros [= <- <-]. apply while_loop_after in Hloop as [n ->].
  destruct (after_log cfg df (batch_processor.batch_size_of cfg batch_size)
              (batch_processor.end_index_of df
                 (batch_processor.current_index
                    (batch_processor.initial_state start_from checkpoint_file
                       results_file w)) max_records)
              n (batch_processor.initial_state start_from checkpoint_file
                   results_file w))
    as (delta & Hall & _ & Hp & Hs & _).
  set (st := batch_processor.after _ _ _ _ _ _) in *.
  cbn in Hall, Hp, Hs. cbn [total_records_in_dataset records_processed
    successful_classifications success_rate batch_processor.summary_of].
  rewrite Hall, Hp, Hs.
  pose proof (List.filter_length_le Outcome.success delta) as Hle.
  split; [done|]. split; [by rewrite Z.add_0_l|].
  split; [by rewrite Z.add_0_l|]. split; [lia|].
  set (a := Z.of_nat (length (List.filter Outcome.success delta))) in *.
  set (b := Z.of_nat (length delta)) in *.
  assert (Ha : (0 <= a <= b)%Z) by lia.
  rewrite !Z.add_0_l.
  destruct (Z.ltb_spec 0 b) as [Hb|Hb].
  2:{ split; [split; lra|]. intros _. lra. }
  assert (Hpos : (0 < inject_Z b)%Q) by (unfold Qlt; cbn; lia).
  assert (H0 : (0 <= inject_Z a / inject_Z b)%Q).
  { apply Qle_shift_div_l; [done|]. rewrite Qmult_0_l.
    unfold Qle; cbn; lia. }
  assert (H1 : (inject_Z a / inject_Z b <= 1)%Q).
  { apply Qle_shift_div_r; [done|]. rewrite Qmult_1_l.
    unfold Qle; cbn; lia. }
  split; [split; lra|]. intros Hzero. lia.
Qed.

End Summary.

Section Budget.
Context `{PyRuntime}.
Variable cfg : config.
Variable df : list row.

(** The calls of the service after [n] turns: at most six for each outcome
    recorded. *)
Lemma after_calls (batch_size end_index : Z) (n : nat)
    (st0 : batch_processor.state) :
  exists delta,
    batch_processor.all_batch_results
      (batch_processor.after cfg df batch_size end_index n st0)
    = batch_processor.all_batch_results st0 ++ delta
    /\ (calls (batch_processor.outside
                 (batch_processor.after cfg df batch_size end_index n st0))
        <= calls (batch_processor.outside st0) + 6 * length delta)%nat.
Proof.
  induction n as [|n IH].
  { exists []. cbn. rewrite app_nil_r. split; [done|lia]. }
  destruct IH as (delta & Hall & Hcalls).
  change (batch_processor.after cfg df batch_size end_index (S n) st0)
    with (batch_processor.turn cfg df batch_size end_index
            (batch_processor.after cfg df batch_size end_index n st0)).
  set (st := batch_processor.after cfg df batch_size end_index n st0) in *.
  destruct (turn_cases cfg df batch_size end_index st)
    as [[_ ->]|[(_ & w & -> & _)|Hclassified]].
  { by exists delta. }
  { by exists delta. }
  destruct Hclassified
    as (_ & _ & batch_data & batch_results & w & _ & _ & Hcb & ->).
  cbn zeta. cbn.
  pose proof (classify_batch_calls cfg batch_data (batch_processor.outside st))
    as [[_ Hle] _].
  pose proof (classify_batch_well_formed cfg batch_data
                (batch_processor.outside st)) as [Hlen _].
  rewrite Hcb in Hle, Hlen. cbn [fst snd] in Hle, Hlen.
  exists (delta ++ batch_results). split; [by rewrite Hall, app_assoc|].
  rewrite length_app. lia.
Qed.

(** X24.  With a positive batch size, a run makes at most six calls of the
    service for each record that it processes, hence at most six for each
    position between the start index and the end index. *)
Theorem run_call_budget (n : nat)
    (batch_size start_from max_records : option Z)
    (checkpoint_file : option Checkpoint.t)
    (results_file : option (list Outcome.t)) (w : world) :
  let st0 :=
    batch_processor.initial_state start_from checkpoint_file results_file w in
  let start := batch_processor.current_index st0 in
  let end_index := batch_processor.end_index_of df start max_records in
  let st :=
    batch_processor.after cfg df
      (batch_processor.batch_size_of cfg batch_size) end_index n st0 in
  (1 <= batch_processor.batch_size_of cfg batch_size)%Z ->
  (Z.of_nat (calls (batch_processor.outside st))
   <= Z.of_nat (calls w) + 6 * batch_processor.total_processed st)%Z
  /\ (Z.of_nat (calls (batch_processor.outside st))
      <= Z.of_nat (calls w) + 6 * Z.max 0 (end_index - start))%Z.
Proof.
  intros st0 start end_index st Hbs.
  destruct (after_calls (batch_processor.batch_size_of cfg batch_size)
              end_index n st0) as (delta & Hall & Hcalls).
  destruct (after_bounds cfg df _ end_index n st0 Hbs)
    as (_ & delta' & Hall' & _ & Hlen).
  destruct (after_log cfg df (batch_processor.batch_size_of cfg batch_size)
              end_index n st0) as (delta'' & Hall'' & _ & Hp & _).
  fold st in Hall, Hcalls, Hall', Hlen, Hall'', Hp.
  rewrite Hall in Hall', Hall''.
  apply app_inv_head in Hall', Hall''. subst delta' delta''.
  cbn in Hcalls, Hp. fold start in Hlen. lia.
Qed.

End Budget.

(** ** Taxonomy and prompt *)

(** X20.  [get_label_by_id] and [get_label_id] are inverse to each other
    between the identifiers 1 to 12 and the names of the taxonomy; any other
    identifier gives ["Unknown"], and any other name gives [-1]. *)
Theorem label_ids_round_trip :
  (forall label_id,
      (1 <= label_id <= 12)%Z ->
      In (labels.get_label_by_id label_id) labels.get_label_list
      /\ labels.get_label_id (labels.get_label_by_id label_id) = label_id)
  /\ (forall name,
         In name labels.get_label_list ->
         (1 <= labels.get_label_id name <= 12)%Z
         /\ labels.get_label_by_id (labels.get_label_id name) = name)
  /\ (forall label_id,
         ~ (1 <= label_id <= 12)%Z ->
         labels.get_label_by_id label_id = u "Unknown")
  /\ (forall name,
         ~ In name labels.get_label_list ->
         labels.get_label_id name = (-1)%Z).
Proof.
  split; [|split; [|split]].
  - intros label_id Hid.
    assert (Hcases : In label_id [1; 2; 3; 4; 5; 6; 7; 8; 9; 10; 11; 12]%Z).
    { cbn. lia. }
    cbn in Hcases.
    repeat (destruct Hcases as [<-|Hcases]; [by vm_compute; auto 20|]).
    done.
  - intros name Hname. cbn in Hname.
    repeat (destruct Hname as [<-|Hname]; [by vm_compute|]).
    done.
  - intros label_id Hid. unfold labels.get_label_by_id, labels.TNMT_LABELS.
    cbn [List.find fst].
    repeat (match goal with
            | |- context [(?k =? label_id)%Z] =>
                destruct (Z.eqb_spec k label_id); [lia|]
            end).
    done.
  - intros name Hname. unfold labels.get_label_id.
    assert (Hall : forall entry,
               In entry labels.TNMT_LABELS -> Py.eqb (snd entry) name = false).
    { intros entry Hentry. destruct (Py.eqb (snd entry) name) eqn:E; [|done].
      apply str_eqb_eq in E. subst name. exfalso. apply Hname.
      by apply in_map. }
    induction labels.TNMT_LABELS as [|entry l IH]; [done|].
    cbn [List.find]. rewrite Hall by (by left). apply IH.
    intros entry' Hentry'. apply Hall. by right.
Qed.

(** X21.  The classification prompt embeds the title and the description
    whole, and at most 2000 characters of the content, followed by three
    dots when the content was cut: its length is that of the empty prompt
    plus these, and two contents longer than 2000 characters that agree on
    their first 2000 characters give the same prompt. *)
Theorem classification_prompt_reads_2000_characters
    (title description content : pystr) :
  length (prompts.create_classification_prompt title description content)
  = (length (prompts.create_classification_prompt [] [] [])
     + length title + length description
     + Nat.min (length content) 2000
     + if (2000 <? length content)%nat then 3 else 0)%nat
  /\ forall content',
       (2000 < length content)%nat -> (2000 < length content')%nat ->
       take 2000 content = take 2000 content' ->
       prompts.create_classification_prompt title description content
       = prompts.create_classification_prompt title description content'.
Proof.
  unfold prompts.create_classification_prompt, prompts.max_content_length.
  split.
  - rewrite !length_app. cbn [length].
    change (2000 <? 0)%nat with false. cbv iota. cbn [length].
    destruct (Nat.ltb_spec 2000 (length content)) as [Hlong|Hshort].
    + rewrite length_app, length_take.
      change (length (u "...")) with 3%nat. lia.
    + lia.
  - intros content' Hlong Hlong' Htake.
    apply Nat.ltb_lt in Hlong, Hlong'. rewrite Hlong, Hlong'.
    by rewrite Htake.
Qed.

(** ** On the sample inputs *)

Section OnFurtherSamples.
#[local] Existing Instance Samples.runtime.

Lemma direct_array_valid_iff_witness :
  json_loads (validators.clean_response Samples.fenced)
  = inr (JArr [Samples.khac 0.9])
  /\ (validators.validate_json_response (Some Samples.fenced)
      = (true, Some [Samples.khac 0.9], u "Valid")
      <-> Forall Spec.checked_item [Samples.khac 0.9]).
Proof.
  assert (Hp : json_loads (validators.clean_response Samples.fenced)
               = inr (JArr [Samples.khac 0.9])).
  { vm_compute. reflexivity. }
  split; [exact Hp|].
  exact (proj1 (direct_array_valid_iff Samples.fenced _ Hp)).
Defined.

Lemma clean_response_fence_witness :
  forallb Py.isspace (u " ") = true /\ forallb Py.isspace [10%N] = true
  /\ validators.clean_response Samples.padded_fence = u "good".
Proof.
  assert (Hpre : forallb Py.isspace (u " ") = true) by reflexivity.
  assert (Hpost : forallb Py.isspace [10%N] = true) by reflexivity.
  split; [exact Hpre|]. split; [exact Hpost|].
  refine (eq_trans
            (proj1 (clean_response_fence (u " ")
                      ([10%N] ++ u "good" ++ [10%N]) [10%N] Hpre Hpost)) _).
  vm_compute. reflexivity.
Defined.

Lemma nested_beyond_depth_witness :
  (5 <= length Samples.deep_path)%nat
  /\ validators.validate_parsed (Spec.nested Samples.deep_path Samples.payload)
     = Ok (false, None,
           u "No valid label array found in response. Available keys: ['a']").
Proof.
  assert (Hlen : (5 <= length Samples.deep_path)%nat).
  { vm_compute. lia. }
  split; [exact Hlen|].
  rewrite (nested_beyond_depth Samples.deep_path Samples.payload Hlen).
  vm_compute. reflexivity.
Defined.

Lemma numbering_gap_drops_later_pairs_witness :
  Spec.label_payload [LabelPred (u "Khác") (Fin 0.9)]
  /\ validators.validate_parsed
       (JObj [(u "label1", JStr (u "Khác")); (u "confidence1", JFloat (Fin 0.9));
              (u "label3", JStr (u "Môi trường"));
              (u "confidence3", JFloat (Fin 0.8))])
     = Ok (true, Some [Samples.khac 0.9], u "Valid").
Proof.
  assert (Hp : Spec.label_payload [LabelPred (u "Khác") (Fin 0.9)]).
  { constructor; [|constructor]. cbn. split; [unfold Qle; cbn; lia|].
    unfold Qle; cbn; lia. }
  split; [exact Hp|].
  assert (Hne : [LabelPred (u "Khác") (Fin 0.9)] <> []) by discriminate.
  assert (Hk : (length [LabelPred (u "Khác") (Fin 0.9)] + 1 < 3)%nat)
    by (cbn; lia).
  exact (numbering_gap_drops_later_pairs
           [LabelPred (u "Khác") (Fin 0.9)]
           [LabelPred (u "Môi trường") (Fin 0.8)] 3 Hp Hne Hk).
Defined.

Lemma process_batch_selects_witness :
  (- Z.of_nat (length Samples.df) <= 0)%Z
  /\ data_processor.process_batch Samples.df 0 10
     = Ok [Samples.first_record; Samples.third_record]
  /\ (-10 < - Z.of_nat (length Samples.df))%Z /\ (0 < 10)%Z
  /\ exists e,
       data_processor.process_batch Samples.df (-10) 10 = Raise e
       /\ exn_class_of e = IndexError.
Proof.
  assert (H0 : (- Z.of_nat (length Samples.df) <= 0)%Z) by (cbn; lia).
  assert (H1 : (-10 < - Z.of_nat (length Samples.df))%Z) by (cbn; lia).
  assert (H2 : (0 < 10)%Z) by lia.
  split; [exact H0|]. split.
  { rewrite (proj1 (process_batch_selects Samples.df 0 10) H0).
    vm_compute. reflexivity. }
  split; [exact H1|]. split; [exact H2|].
  exact (proj2 (process_batch_selects Samples.df (-10) 10) H1 H2).
Defined.

Lemma classify_batch_call_budget_witness :
  Forall Terms.counted [Samples.first_record; Samples.third_record]
  /\ (2 <= calls (snd (api_client.classify_batch Samples.cfg
                         [Samples.first_record; Samples.third_record]
                         Samples.always_down)) <= 12)%nat
  /\ Forall (fun data => ~ Terms.counted data)
            [Samples.special_record; Samples.numeric_record]
  /\ calls (snd (api_client.classify_batch Samples.cfg
                   [Samples.special_record; Samples.numeric_record]
                   Samples.always_good)) = 0%nat.
Proof.
  assert (Hcounted : forall data,
    match api_client.classification_prompt (Batch.title data)
            (Batch.description data) (Batch.content data) with
    | Ok prompt =>
        match api_client.count_input_tokens (api_client.messages prompt) with
        | Ok _ => true
        | Raise _ => false
        end
    | Raise _ => false
    end = true <-> Terms.counted data).
  { intros data. unfold Terms.counted.
    destruct (api_client.classification_prompt _ _ _) as [prompt|e].
    2:{ split; [discriminate|]. by intros (? & ? & ? & _). }
    destruct (api_client.count_input_tokens _) as [n|e] eqn:En.
    - split; [|done]. intros _. by exists prompt, n.
    - split; [discriminate|]. intros (? & ? & [= <-] & ?). congruence. }
  assert (Hc : Forall Terms.counted
                 [Samples.first_record; Samples.third_record]).
  { constructor; [|constructor; [|constructor]];
      apply Hcounted; vm_compute; reflexivity. }
  assert (Hn : Forall (fun data => ~ Terms.counted data)
                 [Samples.special_record; Samples.numeric_record]).
  { constructor; [|constructor; [|constructor]];
      intros Habs%Hcounted; vm_compute in Habs; discriminate. }
  destruct (classify_batch_call_budget Samples.cfg
              [Samples.first_record; Samples.third_record]
              Samples.always_down) as (Hle & Hge & _).
  destruct (classify_batch_call_budget Samples.cfg
              [Samples.special_record; Samples.numeric_record]
              Samples.always_good) as (_ & _ & Hnone).
  split; [exact Hc|]. split; [exact (conj (Hge Hc) Hle)|].
  split; [exact Hn|exact (Hnone Hn)].
Defined.

#[local] Abbreviation run_after :=
  (batch_processor.after Samples.cfg Samples.df 10 3).

Lemma total_cost_never_decreases_witness :
  (forall k content p q,
      replies (batch_processor.outside Samples.first_run) k
      = Completion content p q -> (0 <= p)%Z /\ (0 <= q)%Z)
  /\ (batch_processor.total_cost (run_after 0 Samples.first_run)
      <= batch_processor.total_cost (run_after 2 Samples.first_run))%Q.
Proof.
  assert (Hservice : forall k content p q,
    replies (batch_processor.outside Samples.first_run) k
    = Completion content p q -> (0 <= p)%Z /\ (0 <= q)%Z).
  { intros k content p q [= _ <- <-]. lia. }
  split; [exact Hservice|].
  assert (Hle : (0 <= 2)%nat) by lia.
  exact (total_cost_never_decreases Samples.cfg Samples.df 10 3 0 2
           Samples.first_run Hservice Hle).
Defined.

Lemma record_behind_rejected_row_is_classified_twice_witness :
  data_processor.process_batch Samples.df 0 3
  = Ok [Samples.first_record; Samples.third_record]
  /\ exists first second,
       batch_processor.all_batch_results (run_after 2 Samples.first_run)
       = first ++ second
       /\ In 2%Z (map Outcome.index first)
       /\ In 2%Z (map Outcome.index second)
       /\ batch_processor.total_processed (run_after 2 Samples.first_run)
          = (Z.of_nat (length first) + Z.of_nat (length second))%Z.
Proof.
  assert (Hbatch : data_processor.process_batch Samples.df
            (batch_processor.current_index Samples.first_run)
            (Z.min 10 (3 - batch_processor.current_index Samples.first_run))
          = Ok [Samples.first_record; Samples.third_record]).
  { vm_compute. reflexivity. }
  split; [exact Hbatch|].
  assert (Hbs : (1 <= 10)%Z) by lia.
  assert (Hcur : (0 <= batch_processor.current_index Samples.first_run < 3)%Z).
  { cbn. lia. }
  assert (Hin : In Samples.third_record
                  [Samples.first_record; Samples.third_record]).
  { right. left. reflexivity. }
  assert (Hlate : (batch_processor.current_index Samples.first_run
                   + Z.of_nat (length [Samples.first_record;
                                       Samples.third_record])
                   <= Batch.index Samples.third_record)%Z).
  { cbn. lia. }
  destruct (record_behind_rejected_row_is_classified_twice
              Samples.cfg Samples.df 10 3 Samples.first_run _ _
              Hbs Hcur Hbatch Hin Hlate)
    as (first & second & Hall & H1 & H2 & Hcount).
  exists first, second. split; [exact Hall|]. split; [exact H1|].
  split; [exact H2|]. exact Hcount.
Defined.

Lemma process_dataset_returns_witness :
  Terms.loadable Samples.df
  /\ (1 <= batch_processor.batch_size_of Samples.cfg None)%Z
  /\ exists s st,
       batch_processor.process_dataset Samples.cfg Samples.df 3
         None None None None None Samples.always_good = Ok (Some (s, st))
       /\ (3 <= batch_processor.current_index st)%Z
       /\ records_processed s
          = Z.of_nat (length (batch_processor.all_batch_results st)).
Proof.
  assert (Hdf : Terms.loadable Samples.df).
  { split; [discriminate|]. by repeat split. }
  assert (Hbs : (1 <= batch_processor.batch_size_of Samples.cfg None)%Z).
  { cbn. lia. }
  split; [exact Hdf|]. split; [exact Hbs|].
  assert (Hfuel :
    (batch_processor.end_index_of Samples.df
       (batch_processor.current_index
          (batch_processor.initial_state None None None Samples.always_good))
       None
     - batch_processor.current_index
         (batch_processor.initial_state None None None Samples.always_good)
     <= Z.of_nat 3)%Z).
  { cbn. lia. }
  destruct (process_dataset_returns Samples.cfg Samples.df 3 None None None
              None None Samples.always_good Hdf Hbs Hfuel)
    as (s & st & n & Hrun & _ & Hend & Hcount & _).
  exists s, st. split; [exact Hrun|]. split; [exact Hend|exact Hcount].
Defined.

Lemma process_dataset_never_returns_witness :
  Terms.loadable Samples.df
  /\ (batch_processor.batch_size_of Samples.cfg (Some (-1)%Z) <= 0)%Z
  /\ batch_processor.process_dataset Samples.cfg Samples.df 1000
       (Some (-1)%Z) None None None None Samples.always_good = Ok None.
Proof.
  assert (Hdf : Terms.loadable Samples.df).
  { split; [discriminate|]. by repeat split. }
  assert (Hbs : (batch_processor.batch_size_of Samples.cfg (Some (-1)%Z)
                 <= 0)%Z).
  { cbn. lia. }
  split; [exact Hdf|]. split; [exact Hbs|].
  assert (Hrun :
    (batch_processor.start_index_of None (batch_processor.load_checkpoint None)
     < batch_processor.end_index_of Samples.df
         (batch_processor.start_index_of None
            (batch_processor.load_checkpoint None)) None)%Z).
  { cbn. lia. }
  exact (process_dataset_never_returns Samples.cfg Samples.df 1000
           (Some (-1)%Z) None None None None Samples.always_good Hdf Hbs Hrun).
Defined.

Lemma process_dataset_refuses_unusable_data_witness :
  ~ Terms.loadable Samples.numbered
  /\ exists e,
       batch_processor.process_dataset Samples.cfg Samples.numbered 3
         None None None None None Samples.always_good = Raise e
       /\ exn_class_of e = AttributeError.
Proof.
  assert (Hdf : ~ Terms.loadable Samples.numbered).
  { intros (_ & _ & Hd & _). vm_compute in Hd. discriminate. }
  split; [exact Hdf|].
  exact (process_dataset_refuses_unusable_data Samples.cfg Samples.numbered 3
           None None None None None Samples.always_good Hdf).
Defined.

Lemma run_stays_in_range_witness :
  (1 <= batch_processor.batch_size_of Samples.cfg None)%Z
  /\ (batch_processor.total_processed
        (batch_processor.after Samples.cfg Samples.df
           (batch_processor.batch_size_of Samples.cfg None)
           (batch_processor.end_index_of Samples.df 0 (Some 2%Z)) 5
           (batch_processor.initial_state None None None Samples.always_good))
      <= 2)%Z.
Proof.
  assert (Hbs : (1 <= batch_processor.batch_size_of Samples.cfg None)%Z).
  { cbn. lia. }
  split; [exact Hbs|].
  assert (Hm : (0 < 2)%Z) by lia.
  exact (proj2 (proj2 (run_stays_in_range Samples.cfg Samples.df 5 None None
                         (Some 2%Z) None None Samples.always_good Hbs))
           2%Z eq_refl Hm).
Defined.

Lemma final_csv_after_run_witness :
  Spec.well_formed_log (default [] None)
  /\ exists log rows,
       batch_processor.results_file (run_after 2 Samples.first_run) = Some log
       /\ batch_processor.create_final_csv Samples.df (Some log) = Ok rows
       /\ length rows = length Samples.df.
Proof.
  assert (Hold : Spec.well_formed_log (default [] None)) by constructor.
  split; [exact Hold|].
  pose proof (final_csv_after_run Samples.cfg Samples.df 2 10 3 None None None
                Samples.always_good Samples.df Hold) as Hjoin.
  cbn zeta in Hjoin.
  change (batch_processor.after Samples.cfg Samples.df 10 3 2
            (batch_processor.initial_state None None None Samples.always_good))
    with (run_after 2 Samples.first_run) in Hjoin.
  destruct (batch_processor.results_file (run_after 2 Samples.first_run))
    as [log|] eqn:Efile.
  - destruct Hjoin as (_ & rows & Hrows & Hlen & _).
    exists log, rows. split; [reflexivity|]. split; [exact Hrows|exact Hlen].
  - exfalso. revert Efile. vm_compute. discriminate.
Defined.

Lemma resuming_a_completed_run_does_nothing_witness :
  Terms.resume_index Samples.first_run
  = batch_processor.current_index Samples.first_run
  /\ (3 <= batch_processor.current_index (run_after 2 Samples.first_run))%Z
  /\ calls (batch_processor.outside
              (run_after 4
                 (batch_processor.initial_state None
                    (batch_processor.checkpoint_file
                       (run_after 2 Samples.first_run))
                    None Samples.always_down))) = 0%nat.
Proof.
  assert (Hstart : Terms.resume_index Samples.first_run
                   = batch_processor.current_index Samples.first_run).
  { reflexivity. }
  assert (Hdone : (3 <= batch_processor.current_index
                          (run_after 2 Samples.first_run))%Z).
  { vm_compute. discriminate. }
  split; [exact Hstart|]. split; [exact Hdone|].
  rewrite (proj1 (resuming_a_completed_run_does_nothing Samples.cfg Samples.df
                    10 3 2 4 Samples.first_run None Samples.always_down
                    Hstart Hdone)).
  reflexivity.
Defined.

Lemma label_ids_round_trip_witness :
  (1 <= 3 <= 12)%Z
  /\ labels.get_label_by_id 3 = u "Môi trường"
  /\ labels.get_label_id (labels.get_label_by_id 3) = 3%Z.
Proof.
  assert (Hid : (1 <= 3 <= 12)%Z) by lia.
  split; [exact Hid|]. split; [vm_compute; reflexivity|].
  exact (proj2 (proj1 label_ids_round_trip 3%Z Hid)).
Defined.

Lemma classification_prompt_reads_2000_characters_witness :
  (2000 < length Samples.long_content)%nat
  /\ (2000 < length Samples.longer_content)%nat
  /\ take 2000 Samples.long_content = take 2000 Samples.longer_content
  /\ prompts.create_classification_prompt (u "a") (u "b") Samples.long_content
     = prompts.create_classification_prompt (u "a") (u "b")
         Samples.longer_content.
Proof.
  assert (H1 : (2000 < length Samples.long_content)%nat).
  { unfold Samples.long_content. rewrite length_app, repeat_length. cbn. lia. }
  assert (H2 : (2000 < length Samples.longer_content)%nat).
  { unfold Samples.longer_content. rewrite length_app, repeat_length.
    cbn. lia. }
  assert (H3 : take 2000 Samples.long_content
               = take 2000 Samples.longer_content).
  { vm_compute. reflexivity. }
  split; [exact H1|]. split; [exact H2|]. split; [exact H3|].
  exact (proj2 (classification_prompt_reads_2000_characters (u "a") (u "b")
                  Samples.long_content) Samples.longer_content H1 H2 H3).
Defined.

Lemma known_key_decides_witness :
  @validators.validate_json_response Samples.wrapping (Some (u "{}"))
  = (true, Some [Samples.khac 0.9], u "Valid")
  <-> Forall (@Spec.checked_item Samples.wrapping) [Samples.khac 0.9].
Proof.
  assert (Hparsed : @json_loads Samples.wrapping
                      (validators.clean_response (u "{}"))
                    = inr Samples.wrapped) by reflexivity.
  assert (Hkey : validators.find_known_key
                   [(u "result", JObj [(u "x", JArr [Samples.khac 0.4])]);
                    (u "data", JArr [Samples.khac 0.9])]
                   validators.possible_keys
                 = Some [Samples.khac 0.9]).
  { vm_compute. reflexivity. }
  exact (proj1 (@known_key_decides Samples.wrapping (u "{}") _ _
                  Hparsed Hkey)).
Defined.

Lemma summary_counts_are_consistent_witness :
  exists s st,
    batch_processor.process_dataset Samples.cfg Samples.df 3
      None None None None None Samples.always_good = Ok (Some (s, st))
    /\ (0 <= success_rate s <= 100)%Q.
Proof.
  destruct (batch_processor.process_dataset Samples.cfg Samples.df 3
              None None None None None Samples.always_good)
    as [[[s st]|]|e] eqn:Erun.
  - exists s, st. split; [reflexivity|].
    exact (proj1 (proj2 (proj2 (proj2 (proj2
             (summary_counts_are_consistent Samples.cfg Samples.df 3
                None None None None None Samples.always_good s st Erun)))))).
  - exfalso. revert Erun. vm_compute. discriminate.
  - exfalso. revert Erun. vm_compute. discriminate.
Defined.

Lemma run_call_budget_witness :
  (1 <= batch_processor.batch_size_of Samples.cfg None)%Z
  /\ (Z.of_nat (calls (batch_processor.outside
                         (batch_processor.after Samples.cfg Samples.df
                            (batch_processor.batch_size_of Samples.cfg None)
                            (batch_processor.end_index_of Samples.df 0 None) 5
                            (batch_processor.initial_state None None None
                               Samples.always_down))))
      <= 6 * 3)%Z.
Proof.
  assert (Hbs : (1 <= batch_processor.batch_size_of Samples.cfg None)%Z).
  { cbn. lia. }
  split; [exact Hbs|].
  exact (proj2 (run_call_budget Samples.cfg Samples.df 5 None None None None
                  None Samples.always_down Hbs)).
Defined.

End OnFurtherSamples.
